(** * aerleon/lib/policy.py: the policy model and its semantic analysis

    A shallow embedding of the parts of [policy.py] that normalise ports,
    validate terms, compare terms and detect shading, together with the
    properties stated about them.

    Conventions.  Python lists are Rocq lists in source order.  Python
    integers are [Z].  A method that mutates [self] returns the updated
    object.  A call that can raise returns [Exc], whose [Raise] constructor
    carries the exception class. *)

From Stdlib Require Import List ZArith Bool Lia String Ascii.
From Stdlib Require Import DecimalString Permutation.
Import ListNotations.
Open Scope Z_scope.

(* ================================================================== *)
(** * Python run-time conventions *)
(* ================================================================== *)

(** Exception classes of [policy.py] (lines 59-144) and the built-in ones
    that the modelled code can raise. *)
Inductive PyError : Type :=
| ParseError
| TermPortProtocolError
| TermProtocolEtherTypeError
| TermNoActionError
| TermInvalidIcmpType
| InvalidTermActionError
| NoTermsError
| ICMPCodeError
| InvalidTermTTLValue
| MixedPortandNonPortProtos
| InvalidNumericProtoValue
| KeyError
| TypeError
| ValueError
| IndexError
| LexError.

Inductive Exc (A : Type) : Type :=
| Return (a : A)
| Raise (e : PyError).
Arguments Return {A} a.
Arguments Raise {A} e.

Definition bind {A B : Type} (m : Exc A) (k : A -> Exc B) : Exc B :=
  match m with
  | Return a => k a
  | Raise e => Raise e
  end.

Notation "x <- m ;; k" := (bind m (fun x => k))
  (at level 61, m at next level, right associativity).

(** [if not l] on a list. *)
Definition is_empty {A : Type} (l : list A) : bool :=
  match l with [] => true | _ :: _ => false end.

(** [if not l] when [l] is either [None] or a list. *)
Definition falsy_list {A : Type} (l : option (list A)) : bool :=
  match l with None => true | Some l' => is_empty l' end.

(** [x in l] for a list [l], with the element equality of the value type. *)
Fixpoint py_in {A : Type} (eqb : A -> A -> bool) (x : A) (l : list A) : bool :=
  match l with
  | [] => false
  | y :: l' => eqb x y || py_in eqb x l'
  end.

(** [a == b] on lists: same length and element-wise equal. *)
Fixpoint list_eqb {A : Type} (eqb : A -> A -> bool) (a b : list A) : bool :=
  match a, b with
  | [], [] => true
  | x :: a', y :: b' => eqb x y && list_eqb eqb a' b'
  | _, _ => false
  end.

(** [a < b] on lists of integers: lexicographic, a proper prefix is smaller. *)
Fixpoint list_Z_ltb (a b : list Z) : bool :=
  match a, b with
  | [], [] => false
  | [], _ :: _ => true
  | _ :: _, [] => false
  | x :: a', y :: b' => (x <? y) || ((x =? y) && list_Z_ltb a' b')
  end.

Definition option_eqb {A : Type} (eqb : A -> A -> bool) (a b : option A) : bool :=
  match a, b with
  | None, None => true
  | Some x, Some y => eqb x y
  | _, _ => false
  end.

Section Sorted.
Context {A : Type} (leb : A -> A -> bool).

(** [sorted(l)]: a stable sort.  An element is placed in front of the
    first element of the already sorted tail that is not smaller, so equal
    elements keep their input order. *)
Fixpoint insert_sorted (x : A) (l : list A) : list A :=
  match l with
  | [] => [x]
  | y :: l' => if leb x y then x :: l else y :: insert_sorted x l'
  end.

Fixpoint sorted (l : list A) : list A :=
  match l with
  | [] => []
  | x :: l' => insert_sorted x (sorted l')
  end.

(** Adjacent elements are in order. *)
Fixpoint chain (l : list A) : bool :=
  match l with
  | [] => true
  | x :: l' =>
      match l' with
      | [] => true
      | y :: _ => leb x y && chain l'
      end
  end.
End Sorted.

(** Python's order on [str] is the code-point order; strings here are byte
    strings and [String.leb] is the byte order. *)
Definition str_leb (a b : string) : bool := String.leb a b.
Definition str_eqb (a b : string) : bool := String.eqb a b.

Definition pair_leb {A B : Type} (ltA : A -> A -> bool) (eqA : A -> A -> bool)
    (leB : B -> B -> bool) (a b : A * B) : bool :=
  ltA (fst a) (fst b) || (eqA (fst a) (fst b) && leB (snd a) (snd b)).

Definition str_pair_leb : string * string -> string * string -> bool :=
  pair_leb String.ltb String.eqb String.leb.
Definition str_pair_eqb (a b : string * string) : bool :=
  String.eqb (fst a) (fst b) && String.eqb (snd a) (snd b).

(* ================================================================== *)
(** * Ports *)
(* ================================================================== *)

(** A port range is the tuple [(low, high)]. *)
Definition PortRange : Type := (Z * Z)%type.

(** Tuple comparison [a <= b]: first components, then second. *)
Definition port_leb : PortRange -> PortRange -> bool :=
  pair_leb Z.ltb Z.eqb Z.leb.
Definition port_eqb (a b : PortRange) : bool :=
  (fst a =? fst b) && (snd a =? snd b).

(** [ret_ports[-1]], when [ret_ports] is not empty. *)
Definition last_opt {A : Type} (l : list A) : option A :=
  match rev l with [] => None | x :: _ => Some x end.

(** [ret_ports[-1] = v]. *)
Definition set_last {A : Type} (l : list A) (v : A) : list A :=
  removelast l ++ [v].

(** One iteration of the loop of [Term.CollapsePortList] (lines 1455-1468). *)
Definition collapse_step (ret_ports : list PortRange) (port : PortRange)
    : list PortRange :=
  match last_opt ret_ports with
  | None => ret_ports ++ [port]
  | Some l =>
      if snd l >=? snd port then ret_ports
      else if (fst port <? snd l) && (snd l <? snd port)
           then set_last ret_ports (fst l, snd port)
      else if snd l + 1 =? fst port
           then set_last ret_ports (fst l, snd port)
      else ret_ports ++ [port]
  end.

(** [Term.CollapsePortList] (lines 1442-1469). *)
Definition CollapsePortList (ports : list PortRange) : list PortRange :=
  fold_left collapse_step (sorted port_leb ports) [].

(** What the loop of [CollapsePortList] keeps between two neighbours of its
    result: lows ascend, highs ascend strictly, the earlier range ends no
    later than the next one starts, and the two are not contiguous. *)
Definition separated (a b : PortRange) : bool :=
  (fst a <=? fst b) && (snd a <? snd b) && (snd a <=? fst b)
  && negb (snd a + 1 =? fst b).

(** The ports a list of ranges stands for. *)
Definition covers (ports : list PortRange) (p : Z) : Prop :=
  exists r, In r ports /\ fst r <= p <= snd r.

(** Two ranges share a port. *)
Definition overlap (a b : PortRange) : Prop :=
  exists p, fst a <= p <= snd a /\ fst b <= p <= snd b.

(** A port value as a term holds it: a service name before
    [Policy._TranslateTerms] has run, a [(low, high)] tuple after. *)
Inductive PortVal : Type :=
| PName (s : string)
| PRange (r : PortRange).

Definition is_name (v : PortVal) : bool :=
  match v with PName _ => true | PRange _ => false end.

Definition portval_eqb (a b : PortVal) : bool :=
  match a, b with
  | PName x, PName y => String.eqb x y
  | PRange x, PRange y => port_eqb x y
  | _, _ => false
  end.

Definition portval_leb (a b : PortVal) : bool :=
  match a, b with
  | PName x, PName y => String.leb x y
  | PRange x, PRange y => port_leb x y
  | _, _ => true
  end.

(** [sorted(ports)]: Python orders [str] with [str] and tuple with tuple;
    comparing one with the other raises [TypeError]. *)
Definition one_kind (l : list PortVal) : bool :=
  forallb is_name l || forallb (fun v => negb (is_name v)) l.

Definition sorted_ports (l : list PortVal) : Exc (list PortVal) :=
  if one_kind l then Return (sorted portval_leb l) else Raise TypeError.

(** [int(c)] for a one-character string. *)
Definition int_of_char (c : ascii) : Exc Z :=
  let n := Z.of_nat (nat_of_ascii c) in
  if (48 <=? n) && (n <=? 57) then Return (n - 48) else Raise ValueError.

(** [int(port[i])]: a tuple component, or a character of a name. *)
Definition port_component (i : nat) (v : PortVal) : Exc Z :=
  match v with
  | PRange r => Return (match i with O => fst r | _ => snd r end)
  | PName s =>
      match String.get i s with
      | Some c => int_of_char c
      | None => Raise IndexError
      end
  end.

(** [int(s)] on a string of decimal digits, as the lexer's [INTEGER] token
    or a service definition gives it; anything else is a [ValueError]. *)
Definition py_int (s : string) : Exc Z :=
  match s with
  | EmptyString => Raise ValueError
  | String _ _ =>
      match NilZero.uint_of_string s with
      | Some u => Return (Z.of_uint u)
      | None => Raise ValueError
      end
  end.

(** [s.split('-')]. *)
Fixpoint split_dash_aux (cur : string) (s : string) : list string :=
  match s with
  | EmptyString => [cur]
  | String c s' =>
      if Ascii.eqb c "-"%char then cur :: split_dash_aux EmptyString s'
      else split_dash_aux (cur ++ String c EmptyString)%string s'
  end.

Definition split_dash (s : string) : list string := split_dash_aux EmptyString s.

Fixpoint mapM {A B : Type} (f : A -> Exc B) (l : list A) : Exc (list B) :=
  match l with
  | [] => Return []
  | x :: l' => y <- f x ;; ys <- mapM f l' ;; Return (y :: ys)
  end.

(** [[int(x) for x in s.split('-')]]. *)
Definition ints_of_range (s : string) : Exc (list Z) :=
  mapM py_int (split_dash s).

(** Truth value of a field that is [None] or a string. *)
Definition truthy_str (s : option string) : bool :=
  match s with
  | None => false
  | Some EmptyString => false
  | Some (String _ _) => true
  end.

(** Truth value of a field that is [None] or an integer. *)
Definition truthy_int (n : option Z) : bool :=
  match n with None => false | Some z => negb (z =? 0) end.

(** [str.isnumeric()], on byte strings: not empty and all decimal digits. *)
Definition is_digit (c : ascii) : bool :=
  let n := nat_of_ascii c in (48 <=? n)%nat && (n <=? 57)%nat.

Fixpoint all_digits (s : string) : bool :=
  match s with
  | EmptyString => true
  | String c s' => is_digit c && all_digits s'
  end.

Definition isnumeric (s : string) : bool :=
  match s with EmptyString => false | String _ _ => all_digits s end.

(* ================================================================== *)
(** * Addresses *)
(* ================================================================== *)

(** Modelled from the spec: the address classes [nacaddr.IPv4] and
    [nacaddr.IPv6] are not in this file.  The spec has addresses as typed
    objects carrying an IP version (4 or 6) and a prefix, and containment as
    version-aware sub-network inclusion.  A network is its version, its first
    address as an integer and its prefix length. *)
Record IPNet : Type := mkIPNet {
  version : Z;
  network_address : Z;
  prefixlen : Z
}.

Definition max_prefixlen (a : IPNet) : Z :=
  if version a =? 4 then 32 else 128.

Definition broadcast_address (a : IPNet) : Z :=
  network_address a + 2 ^ (max_prefixlen a - prefixlen a) - 1.

(** Modelled from the spec: [a.subnet_of(b)], false across versions. *)
Definition subnet_of (a b : IPNet) : bool :=
  (version a =? version b)
  && (network_address b <=? network_address a)
  && (broadcast_address b >=? broadcast_address a).

(** Modelled from the spec: equality of address objects, by version, first
    address and prefix length. *)
Definition addr_eqb (a b : IPNet) : bool :=
  (version a =? version b) && (network_address a =? network_address b)
  && (prefixlen a =? prefixlen b).

(** The order of address objects.  The spec gives them none.  The classes
    of [nacaddr] extend the networks of Python's [ipaddress], which order
    two networks of one version by first address and then by prefix length,
    and which refuse to order two networks of different versions: [<]
    raises [TypeError] there.  [addr_leb] is that order within one version.
    Between versions it puts version 4 first, the order of
    [ipaddress.get_mixed_type_key]; a plain [sorted] never gets that far,
    see [sorted_addrs]. *)
Definition addr_leb (a b : IPNet) : bool :=
  (version a <? version b)
  || ((version a =? version b)
      && ((network_address a <? network_address b)
          || ((network_address a =? network_address b)
              && (prefixlen a <=? prefixlen b)))).

(** The addresses of a list are of one version. *)
Definition one_version (l : list IPNet) : bool :=
  match l with
  | [] => true
  | a :: l' => forallb (fun b => version b =? version a) l'
  end.

(** [sorted(l)] on a list of address objects.  A list that holds the two
    versions cannot be sorted: to order it the sort has to compare a
    version 4 with a version 6 network, and that comparison raises
    [TypeError]. *)
Definition sorted_addrs (l : list IPNet) : Exc (list IPNet) :=
  if one_version l then Return (sorted addr_leb l) else Raise TypeError.

(** [Term.CheckAddressIsContained] (lines 1516-1540).  The arguments are
    the [flattened_*] attributes, which are [None] until set. *)
Definition addr_contained (sub_addr : IPNet) (superset : list IPNet) : bool :=
  existsb (fun sup_addr => subnet_of sub_addr sup_addr) superset.

Definition CheckAddressIsContained (superset subset : option (list IPNet)) : bool :=
  if falsy_list superset then true
  else if falsy_list subset then false
  else
    match superset, subset with
    | Some sup, Some sub => forallb (fun sub_addr => addr_contained sub_addr sup) sub
    | _, _ => false
    end.

(** The claim's reading of containment: every element of the subset is a
    sub-network of some element of the superset. *)
Definition every_subnet_covered (A B : list IPNet) : Prop :=
  forall b, In b B -> exists a, In a A /\ subnet_of b a = true.

(** Modelled from the spec: [nacaddr.AddressListExclude] is not in this
    file.  The spec has flattening as the effective address set after the
    exclude lists are subtracted.  A network that lies inside the excluded
    one disappears; a network that strictly contains it is halved until the
    excluded part is isolated; any other network stays. *)
Fixpoint exclude_one (fuel : nat) (ip ex : IPNet) : list IPNet :=
  if subnet_of ip ex then []
  else if subnet_of ex ip then
    match fuel with
    | O => [ip]
    | S fuel' =>
        let len := prefixlen ip + 1 in
        let low := mkIPNet (version ip) (network_address ip) len in
        let high := mkIPNet (version ip)
                      (network_address ip + 2 ^ (max_prefixlen ip - len)) len in
        exclude_one fuel' low ex ++ exclude_one fuel' high ex
    end
  else [ip].

Definition AddressListExclude_model (superset subset : list IPNet) : list IPNet :=
  sorted addr_leb
    (fold_left (fun acc ex => flat_map (fun ip => exclude_one 128 ip ex) acc)
       subset superset).

(* ================================================================== *)
(** * Terms *)
(* ================================================================== *)

(** [VarType] (lines 1543-1636): a kind tag and a value.  The objects that a
    term keeps whole ([counter], [traffic_class_count], [logging]) carry a
    string. *)
Record VarType : Type := mkVarType {
  var_type : Z;
  value : string
}.

Definition VarType_COUNTER : Z := 1.
Definition VarType_LOGGING : Z := 13.
Definition VarType_TRAFFIC_CLASS_COUNT : Z := 53.

(** [VarType.__eq__] (lines 1631-1632). *)
Definition VarType_eqb (a b : VarType) : bool :=
  (var_type a =? var_type b) && String.eqb (value a) (value b).

(** [sorted(l)] on [VarType] objects: the class defines [__eq__] and
    [__hash__] but no ordering, so the first comparison raises [TypeError];
    a list of fewer than two objects is never compared. *)
Definition sorted_VarTypes (l : list VarType) : Exc (list VarType) :=
  match l with
  | [] => Return l
  | [_] => Return l
  | _ :: _ :: _ => Raise TypeError
  end.

(** [Term] (lines 314-500): the attributes in the order [__init__] sets
    them.  A scalar that starts as [None] is an [option]; [option_] is the
    attribute [option].  Each [set_f v t] below is the assignment
    [t.f = v]. *)
Record Term : Type := mkTerm {
  name : option string;
  action : list string;
  address : list IPNet;
  address_exclude : list IPNet;
  restrict_address_family : option string;
  comment : list string;
  counter : option VarType;
  expiration : option (Z * Z * Z);
  destination_address : list IPNet;
  destination_address_exclude : list IPNet;
  destination_port : list PortVal;
  destination_prefix : list string;
  filter_term : option string;
  forwarding_class : list string;
  forwarding_class_except : list string;
  logging : list VarType;
  log_limit : option (string * string);
  log_name : option string;
  loss_priority : option string;
  option_ : list string;
  owner : option string;
  policer : option string;
  port : list PortVal;
  precedence : list Z;
  protocol : list string;
  protocol_except : list string;
  qos : option string;
  pan_application : list string;
  routing_instance : option string;
  source_address : list IPNet;
  source_address_exclude : list IPNet;
  source_port : list PortVal;
  source_prefix : list string;
  ttl : option Z;
  verbatim : list (string * string);
  packet_length : option string;
  fragment_offset : option string;
  hop_limit : option string;
  icmp_type : list string;
  icmp_code : list Z;
  ether_type : list string;
  traffic_class_count : option VarType;
  traffic_type : list string;
  translated : bool;
  dscp_set : option string;
  dscp_match : list string;
  dscp_except : list string;
  next_ip : option (list IPNet);
  flexible_match_range : list (string * string);
  source_prefix_except : list string;
  destination_prefix_except : list string;
  inactive : bool;
  encapsulate : option string;
  port_mirror : option string;
  destination_zone : list string;
  source_zone : list string;
  vpn : option (string * string);
  source_tag : list string;
  destination_tag : list string;
  priority : option string;
  source_interface : option string;
  destination_interface : option string;
  platform : list string;
  platform_exclude : list string;
  target_resources : list (string * string);
  target_service_accounts : list string;
  timeout : option string;
  flattened : bool;
  flattened_addr : option (list IPNet);
  flattened_saddr : option (list IPNet);
  flattened_daddr : option (list IPNet);
  stateless_reply : bool
}.

(** [Term.__init__] before its call of [AddObject] (lines 424-500). *)
Definition new_Term : Term :=
  mkTerm None [] [] [] None [] None None [] [] [] [] None [] [] [] None None
  None [] None None [] [] [] [] None [] None [] [] [] [] None [] None None
  None [] [] [] None [] false None [] [] None [] [] [] false None None [] []
  None [] [] None None None [] [] [] [] None false None None None false.

(** [self.name = v]. *)
Definition set_name (v : option string) (t : Term) : Term :=
  mkTerm v (action t) (address t) (address_exclude t)
  (restrict_address_family t) (comment t) (counter t) (expiration t)
  (destination_address t) (destination_address_exclude t) (destination_port t)
  (destination_prefix t) (filter_term t) (forwarding_class t)
  (forwarding_class_except t) (logging t) (log_limit t) (log_name t)
  (loss_priority t) (option_ t) (owner t) (policer t) (port t) (precedence t)
  (protocol t) (protocol_except t) (qos t) (pan_application t)
  (routing_instance t) (source_address t) (source_address_exclude t)
  (source_port t) (source_prefix t) (ttl t) (verbatim t) (packet_length t)
  (fragment_offset t) (hop_limit t) (icmp_type t) (icmp_code t) (ether_type t)
  (traffic_class_count t) (traffic_type t) (translated t) (dscp_set t)
  (dscp_match t) (dscp_except t) (next_ip t) (flexible_match_range t)
  (source_prefix_except t) (destination_prefix_except t) (inactive t)
  (encapsulate t) (port_mirror t) (destination_zone t) (source_zone t) (vpn t)
  (source_tag t) (destination_tag t) (priority t) (source_interface t)
  (destination_interface t) (platform t) (platform_exclude t)
  (target_resources t) (target_service_accounts t) (timeout t) (flattened t)
  (flattened_addr t) (flattened_saddr t) (flattened_daddr t)
  (stateless_reply t).

(** [self.action = v]. *)
Definition set_action (v : list string) (t : Term) : Term :=
  mkTerm (name t) v (address t) (address_exclude t)
  (restrict_address_family t) (comment t) (counter t) (expiration t)
  (destination_address t) (destination_address_exclude t) (destination_port t)
  (destination_prefix t) (filter_term t) (forwarding_class t)
  (forwarding_class_except t) (logging t) (log_limit t) (log_name t)
  (loss_priority t) (option_ t) (owner t) (policer t) (port t) (precedence t)
  (protocol t) (protocol_except t) (qos t) (pan_application t)
  (routing_instance t) (source_address t) (source_address_exclude t)
  (source_port t) (source_prefix t) (ttl t) (verbatim t) (packet_length t)
  (fragment_offset t) (hop_limit t) (icmp_type t) (icmp_code t) (ether_type t)
  (traffic_class_count t) (traffic_type t) (translated t) (dscp_set t)
  (dscp_match t) (dscp_except t) (next_ip t) (flexible_match_range t)
  (source_prefix_except t) (destination_prefix_except t) (inactive t)
  (encapsulate t) (port_mirror t) (destination_zone t) (source_zone t) (vpn t)
  (source_tag t) (destination_tag t) (priority t) (source_interface t)
  (destination_interface t) (platform t) (platform_exclude t)
  (target_resources t) (target_service_accounts t) (timeout t) (flattened t)
  (flattened_addr t) (flattened_saddr t) (flattened_daddr t)
  (stateless_reply t).

(** [self.address_exclude = v]. *)
Definition set_address_exclude (v : list IPNet) (t : Term) : Term :=
  mkTerm (name t) (action t) (address t) v (restrict_address_family t)
  (comment t) (counter t) (expiration t) (destination_address t)
  (destination_address_exclude t) (destination_port t) (destination_prefix t)
  (filter_term t) (forwarding_class t) (forwarding_class_except t) (logging t)
  (log_limit t) (log_name t) (loss_priority t) (option_ t) (owner t)
  (policer t) (port t) (precedence t) (protocol t) (protocol_except t) (qos t)
  (pan_application t) (routing_instance t) (source_address t)
  (source_address_exclude t) (source_port t) (source_prefix t) (ttl t)
  (verbatim t) (packet_length t) (fragment_offset t) (hop_limit t)
  (icmp_type t) (icmp_code t) (ether_type t) (traffic_class_count t)
  (traffic_type t) (translated t) (dscp_set t) (dscp_match t) (dscp_except t)
  (next_ip t) (flexible_match_range t) (source_prefix_except t)
  (destination_prefix_except t) (inactive t) (encapsulate t) (port_mirror t)
  (destination_zone t) (source_zone t) (vpn t) (source_tag t)
  (destination_tag t) (priority t) (source_interface t)
  (destination_interface t) (platform t) (platform_exclude t)
  (target_resources t) (target_service_accounts t) (timeout t) (flattened t)
  (flattened_addr t) (flattened_saddr t) (flattened_daddr t)
  (stateless_reply t).

(** [self.protocol = v]. *)
Definition set_protocol (v : list string) (t : Term) : Term :=
  mkTerm (name t) (action t) (address t) (address_exclude t)
  (restrict_address_family t) (comment t) (counter t) (expiration t)
  (destination_address t) (destination_address_exclude t) (destination_port t)
  (destination_prefix t) (filter_term t) (forwarding_class t)
  (forwarding_class_except t) (logging t) (log_limit t) (log_name t)
  (loss_priority t) (option_ t) (owner t) (policer t) (port t) (precedence t)
  v (protocol_except t) (qos t) (pan_application t) (routing_instance t)
  (source_address t) (source_address_exclude t) (source_port t)
  (source_prefix t) (ttl t) (verbatim t) (packet_length t) (fragment_offset t)
  (hop_limit t) (icmp_type t) (icmp_code t) (ether_type t)
  (traffic_class_count t) (traffic_type t) (translated t) (dscp_set t)
  (dscp_match t) (dscp_except t) (next_ip t) (flexible_match_range t)
  (source_prefix_except t) (destination_prefix_except t) (inactive t)
  (encapsulate t) (port_mirror t) (destination_zone t) (source_zone t) (vpn t)
  (source_tag t) (destination_tag t) (priority t) (source_interface t)
  (destination_interface t) (platform t) (platform_exclude t)
  (target_resources t) (target_service_accounts t) (timeout t) (flattened t)
  (flattened_addr t) (flattened_saddr t) (flattened_daddr t)
  (stateless_reply t).

(** [self.icmp_type = v]. *)
Definition set_icmp_type (v : list string) (t : Term) : Term :=
  mkTerm (name t) (action t) (address t) (address_exclude t)
  (restrict_address_family t) (comment t) (counter t) (expiration t)
  (destination_address t) (destination_address_exclude t) (destination_port t)
  (destination_prefix t) (filter_term t) (forwarding_class t)
  (forwarding_class_except t) (logging t) (log_limit t) (log_name t)
  (loss_priority t) (option_ t) (owner t) (policer t) (port t) (precedence t)
  (protocol t) (protocol_except t) (qos t) (pan_application t)
  (routing_instance t) (source_address t) (source_address_exclude t)
  (source_port t) (source_prefix t) (ttl t) (verbatim t) (packet_length t)
  (fragment_offset t) (hop_limit t) v (icmp_code t) (ether_type t)
  (traffic_class_count t) (traffic_type t) (translated t) (dscp_set t)
  (dscp_match t) (dscp_except t) (next_ip t) (flexible_match_range t)
  (source_prefix_except t) (destination_prefix_except t) (inactive t)
  (encapsulate t) (port_mirror t) (destination_zone t) (source_zone t) (vpn t)
  (source_tag t) (destination_tag t) (priority t) (source_interface t)
  (destination_interface t) (platform t) (platform_exclude t)
  (target_resources t) (target_service_accounts t) (timeout t) (flattened t)
  (flattened_addr t) (flattened_saddr t) (flattened_daddr t)
  (stateless_reply t).

(** [self.icmp_code = v]. *)
Definition set_icmp_code (v : list Z) (t : Term) : Term :=
  mkTerm (name t) (action t) (address t) (address_exclude t)
  (restrict_address_family t) (comment t) (counter t) (expiration t)
  (destination_address t) (destination_address_exclude t) (destination_port t)
  (destination_prefix t) (filter_term t) (forwarding_class t)
  (forwarding_class_except t) (logging t) (log_limit t) (log_name t)
  (loss_priority t) (option_ t) (owner t) (policer t) (port t) (precedence t)
  (protocol t) (protocol_except t) (qos t) (pan_application t)
  (routing_instance t) (source_address t) (source_address_exclude t)
  (source_port t) (source_prefix t) (ttl t) (verbatim t) (packet_length t)
  (fragment_offset t) (hop_limit t) (icmp_type t) v (ether_type t)
  (traffic_class_count t) (traffic_type t) (translated t) (dscp_set t)
  (dscp_match t) (dscp_except t) (next_ip t) (flexible_match_range t)
  (source_prefix_except t) (destination_prefix_except t) (inactive t)
  (encapsulate t) (port_mirror t) (destination_zone t) (source_zone t) (vpn t)
  (source_tag t) (destination_tag t) (priority t) (source_interface t)
  (destination_interface t) (platform t) (platform_exclude t)
  (target_resources t) (target_service_accounts t) (timeout t) (flattened t)
  (flattened_addr t) (flattened_saddr t) (flattened_daddr t)
  (stateless_reply t).

(** [self.logging = v]. *)
Definition set_logging (v : list VarType) (t : Term) : Term :=
  mkTerm (name t) (action t) (address t) (address_exclude t)
  (restrict_address_family t) (comment t) (counter t) (expiration t)
  (destination_address t) (destination_address_exclude t) (destination_port t)
  (destination_prefix t) (filter_term t) (forwarding_class t)
  (forwarding_class_except t) v (log_limit t) (log_name t) (loss_priority t)
  (option_ t) (owner t) (policer t) (port t) (precedence t) (protocol t)
  (protocol_except t) (qos t) (pan_application t) (routing_instance t)
  (source_address t) (source_address_exclude t) (source_port t)
  (source_prefix t) (ttl t) (verbatim t) (packet_length t) (fragment_offset t)
  (hop_limit t) (icmp_type t) (icmp_code t) (ether_type t)
  (traffic_class_count t) (traffic_type t) (translated t) (dscp_set t)
  (dscp_match t) (dscp_except t) (next_ip t) (flexible_match_range t)
  (source_prefix_except t) (destination_prefix_except t) (inactive t)
  (encapsulate t) (port_mirror t) (destination_zone t) (source_zone t) (vpn t)
  (source_tag t) (destination_tag t) (priority t) (source_interface t)
  (destination_interface t) (platform t) (platform_exclude t)
  (target_resources t) (target_service_accounts t) (timeout t) (flattened t)
  (flattened_addr t) (flattened_saddr t) (flattened_daddr t)
  (stateless_reply t).

(** [self.verbatim = v]. *)
Definition set_verbatim (v : list (string * string)) (t : Term) : Term :=
  mkTerm (name t) (action t) (address t) (address_exclude t)
  (restrict_address_family t) (comment t) (counter t) (expiration t)
  (destination_address t) (destination_address_exclude t) (destination_port t)
  (destination_prefix t) (filter_term t) (forwarding_class t)
  (forwarding_class_except t) (logging t) (log_limit t) (log_name t)
  (loss_priority t) (option_ t) (owner t) (policer t) (port t) (precedence t)
  (protocol t) (protocol_except t) (qos t) (pan_application t)
  (routing_instance t) (source_address t) (source_address_exclude t)
  (source_port t) (source_prefix t) (ttl t) v (packet_length t)
  (fragment_offset t) (hop_limit t) (icmp_type t) (icmp_code t) (ether_type t)
  (traffic_class_count t) (traffic_type t) (translated t) (dscp_set t)
  (dscp_match t) (dscp_except t) (next_ip t) (flexible_match_range t)
  (source_prefix_except t) (destination_prefix_except t) (inactive t)
  (encapsulate t) (port_mirror t) (destination_zone t) (source_zone t) (vpn t)
  (source_tag t) (destination_tag t) (priority t) (source_interface t)
  (destination_interface t) (platform t) (platform_exclude t)
  (target_resources t) (target_service_accounts t) (timeout t) (flattened t)
  (flattened_addr t) (flattened_saddr t) (flattened_daddr t)
  (stateless_reply t).

(** [self.routing_instance = v]. *)
Definition set_routing_instance (v : option string) (t : Term) : Term :=
  mkTerm (name t) (action t) (address t) (address_exclude t)
  (restrict_address_family t) (comment t) (counter t) (expiration t)
  (destination_address t) (destination_address_exclude t) (destination_port t)
  (destination_prefix t) (filter_term t) (forwarding_class t)
  (forwarding_class_except t) (logging t) (log_limit t) (log_name t)
  (loss_priority t) (option_ t) (owner t) (policer t) (port t) (precedence t)
  (protocol t) (protocol_except t) (qos t) (pan_application t) v
  (source_address t) (source_address_exclude t) (source_port t)
  (source_prefix t) (ttl t) (verbatim t) (packet_length t) (fragment_offset t)
  (hop_limit t) (icmp_type t) (icmp_code t) (ether_type t)
  (traffic_class_count t) (traffic_type t) (translated t) (dscp_set t)
  (dscp_match t) (dscp_except t) (next_ip t) (flexible_match_range t)
  (source_prefix_except t) (destination_prefix_except t) (inactive t)
  (encapsulate t) (port_mirror t) (destination_zone t) (source_zone t) (vpn t)
  (source_tag t) (destination_tag t) (priority t) (source_interface t)
  (destination_interface t) (platform t) (platform_exclude t)
  (target_resources t) (target_service_accounts t) (timeout t) (flattened t)
  (flattened_addr t) (flattened_saddr t) (flattened_daddr t)
  (stateless_reply t).

(** [self.ttl = v]. *)
Definition set_ttl (v : option Z) (t : Term) : Term :=
  mkTerm (name t) (action t) (address t) (address_exclude t)
  (restrict_address_family t) (comment t) (counter t) (expiration t)
  (destination_address t) (destination_address_exclude t) (destination_port t)
  (destination_prefix t) (filter_term t) (forwarding_class t)
  (forwarding_class_except t) (logging t) (log_limit t) (log_name t)
  (loss_priority t) (option_ t) (owner t) (policer t) (port t) (precedence t)
  (protocol t) (protocol_except t) (qos t) (pan_application t)
  (routing_instance t) (source_address t) (source_address_exclude t)
  (source_port t) (source_prefix t) v (verbatim t) (packet_length t)
  (fragment_offset t) (hop_limit t) (icmp_type t) (icmp_code t) (ether_type t)
  (traffic_class_count t) (traffic_type t) (translated t) (dscp_set t)
  (dscp_match t) (dscp_except t) (next_ip t) (flexible_match_range t)
  (source_prefix_except t) (destination_prefix_except t) (inactive t)
  (encapsulate t) (port_mirror t) (destination_zone t) (source_zone t) (vpn t)
  (source_tag t) (destination_tag t) (priority t) (source_interface t)
  (destination_interface t) (platform t) (platform_exclude t)
  (target_resources t) (target_service_accounts t) (timeout t) (flattened t)
  (flattened_addr t) (flattened_saddr t) (flattened_daddr t)
  (stateless_reply t).

(** [self.ether_type = v]. *)
Definition set_ether_type (v : list string) (t : Term) : Term :=
  mkTerm (name t) (action t) (address t) (address_exclude t)
  (restrict_address_family t) (comment t) (counter t) (expiration t)
  (destination_address t) (destination_address_exclude t) (destination_port t)
  (destination_prefix t) (filter_term t) (forwarding_class t)
  (forwarding_class_except t) (logging t) (log_limit t) (log_name t)
  (loss_priority t) (option_ t) (owner t) (policer t) (port t) (precedence t)
  (protocol t) (protocol_except t) (qos t) (pan_application t)
  (routing_instance t) (source_address t) (source_address_exclude t)
  (source_port t) (source_prefix t) (ttl t) (verbatim t) (packet_length t)
  (fragment_offset t) (hop_limit t) (icmp_type t) (icmp_code t) v
  (traffic_class_count t) (traffic_type t) (translated t) (dscp_set t)
  (dscp_match t) (dscp_except t) (next_ip t) (flexible_match_range t)
  (source_prefix_except t) (destination_prefix_except t) (inactive t)
  (encapsulate t) (port_mirror t) (destination_zone t) (source_zone t) (vpn t)
  (source_tag t) (destination_tag t) (priority t) (source_interface t)
  (destination_interface t) (platform t) (platform_exclude t)
  (target_resources t) (target_service_accounts t) (timeout t) (flattened t)
  (flattened_addr t) (flattened_saddr t) (flattened_daddr t)
  (stateless_reply t).

(** [self.address = v]. *)
Definition set_address (v : list IPNet) (t : Term) : Term :=
  mkTerm (name t) (action t) v (address_exclude t) (restrict_address_family t)
  (comment t) (counter t) (expiration t) (destination_address t)
  (destination_address_exclude t) (destination_port t) (destination_prefix t)
  (filter_term t) (forwarding_class t) (forwarding_class_except t) (logging t)
  (log_limit t) (log_name t) (loss_priority t) (option_ t) (owner t)
  (policer t) (port t) (precedence t) (protocol t) (protocol_except t) (qos t)
  (pan_application t) (routing_instance t) (source_address t)
  (source_address_exclude t) (source_port t) (source_prefix t) (ttl t)
  (verbatim t) (packet_length t) (fragment_offset t) (hop_limit t)
  (icmp_type t) (icmp_code t) (ether_type t) (traffic_class_count t)
  (traffic_type t) (translated t) (dscp_set t) (dscp_match t) (dscp_except t)
  (next_ip t) (flexible_match_range t) (source_prefix_except t)
  (destination_prefix_except t) (inactive t) (encapsulate t) (port_mirror t)
  (destination_zone t) (source_zone t) (vpn t) (source_tag t)
  (destination_tag t) (priority t) (source_interface t)
  (destination_interface t) (platform t) (platform_exclude t)
  (target_resources t) (target_service_accounts t) (timeout t) (flattened t)
  (flattened_addr t) (flattened_saddr t) (flattened_daddr t)
  (stateless_reply t).

(** [self.source_address = v]. *)
Definition set_source_address (v : list IPNet) (t : Term) : Term :=
  mkTerm (name t) (action t) (address t) (address_exclude t)
  (restrict_address_family t) (comment t) (counter t) (expiration t)
  (destination_address t) (destination_address_exclude t) (destination_port t)
  (destination_prefix t) (filter_term t) (forwarding_class t)
  (forwarding_class_except t) (logging t) (log_limit t) (log_name t)
  (loss_priority t) (option_ t) (owner t) (policer t) (port t) (precedence t)
  (protocol t) (protocol_except t) (qos t) (pan_application t)
  (routing_instance t) v (source_address_exclude t) (source_port t)
  (source_prefix t) (ttl t) (verbatim t) (packet_length t) (fragment_offset t)
  (hop_limit t) (icmp_type t) (icmp_code t) (ether_type t)
  (traffic_class_count t) (traffic_type t) (translated t) (dscp_set t)
  (dscp_match t) (dscp_except t) (next_ip t) (flexible_match_range t)
  (source_prefix_except t) (destination_prefix_except t) (inactive t)
  (encapsulate t) (port_mirror t) (destination_zone t) (source_zone t) (vpn t)
  (source_tag t) (destination_tag t) (priority t) (source_interface t)
  (destination_interface t) (platform t) (platform_exclude t)
  (target_resources t) (target_service_accounts t) (timeout t) (flattened t)
  (flattened_addr t) (flattened_saddr t) (flattened_daddr t)
  (stateless_reply t).

(** [self.destination_address = v]. *)
Definition set_destination_address (v : list IPNet) (t : Term) : Term :=
  mkTerm (name t) (action t) (address t) (address_exclude t)
  (restrict_address_family t) (comment t) (counter t) (expiration t) v
  (destination_address_exclude t) (destination_port t) (destination_prefix t)
  (filter_term t) (forwarding_class t) (forwarding_class_except t) (logging t)
  (log_limit t) (log_name t) (loss_priority t) (option_ t) (owner t)
  (policer t) (port t) (precedence t) (protocol t) (protocol_except t) (qos t)
  (pan_application t) (routing_instance t) (source_address t)
  (source_address_exclude t) (source_port t) (source_prefix t) (ttl t)
  (verbatim t) (packet_length t) (fragment_offset t) (hop_limit t)
  (icmp_type t) (icmp_code t) (ether_type t) (traffic_class_count t)
  (traffic_type t) (translated t) (dscp_set t) (dscp_match t) (dscp_except t)
  (next_ip t) (flexible_match_range t) (source_prefix_except t)
  (destination_prefix_except t) (inactive t) (encapsulate t) (port_mirror t)
  (destination_zone t) (source_zone t) (vpn t) (source_tag t)
  (destination_tag t) (priority t) (source_interface t)
  (destination_interface t) (platform t) (platform_exclude t)
  (target_resources t) (target_service_accounts t) (timeout t) (flattened t)
  (flattened_addr t) (flattened_saddr t) (flattened_daddr t)
  (stateless_reply t).

(** [self.source_address_exclude = v]. *)
Definition set_source_address_exclude (v : list IPNet) (t : Term) : Term :=
  mkTerm (name t) (action t) (address t) (address_exclude t)
  (restrict_address_family t) (comment t) (counter t) (expiration t)
  (destination_address t) (destination_address_exclude t) (destination_port t)
  (destination_prefix t) (filter_term t) (forwarding_class t)
  (forwarding_class_except t) (logging t) (log_limit t) (log_name t)
  (loss_priority t) (option_ t) (owner t) (policer t) (port t) (precedence t)
  (protocol t) (protocol_except t) (qos t) (pan_application t)
  (routing_instance t) (source_address t) v (source_port t) (source_prefix t)
  (ttl t) (verbatim t) (packet_length t) (fragment_offset t) (hop_limit t)
  (icmp_type t) (icmp_code t) (ether_type t) (traffic_class_count t)
  (traffic_type t) (translated t) (dscp_set t) (dscp_match t) (dscp_except t)
  (next_ip t) (flexible_match_range t) (source_prefix_except t)
  (destination_prefix_except t) (inactive t) (encapsulate t) (port_mirror t)
  (destination_zone t) (source_zone t) (vpn t) (source_tag t)
  (destination_tag t) (priority t) (source_interface t)
  (destination_interface t) (platform t) (platform_exclude t)
  (target_resources t) (target_service_accounts t) (timeout t) (flattened t)
  (flattened_addr t) (flattened_saddr t) (flattened_daddr t)
  (stateless_reply t).

(** [self.destination_address_exclude = v]. *)
Definition set_destination_address_exclude (v : list IPNet) (t : Term) : Term :=
  mkTerm (name t) (action t) (address t) (address_exclude t)
  (restrict_address_family t) (comment t) (counter t) (expiration t)
  (destination_address t) v (destination_port t) (destination_prefix t)
  (filter_term t) (forwarding_class t) (forwarding_class_except t) (logging t)
  (log_limit t) (log_name t) (loss_priority t) (option_ t) (owner t)
  (policer t) (port t) (precedence t) (protocol t) (protocol_except t) (qos t)
  (pan_application t) (routing_instance t) (source_address t)
  (source_address_exclude t) (source_port t) (source_prefix t) (ttl t)
  (verbatim t) (packet_length t) (fragment_offset t) (hop_limit t)
  (icmp_type t) (icmp_code t) (ether_type t) (traffic_class_count t)
  (traffic_type t) (translated t) (dscp_set t) (dscp_match t) (dscp_except t)
  (next_ip t) (flexible_match_range t) (source_prefix_except t)
  (destination_prefix_except t) (inactive t) (encapsulate t) (port_mirror t)
  (destination_zone t) (source_zone t) (vpn t) (source_tag t)
  (destination_tag t) (priority t) (source_interface t)
  (destination_interface t) (platform t) (platform_exclude t)
  (target_resources t) (target_service_accounts t) (timeout t) (flattened t)
  (flattened_addr t) (flattened_saddr t) (flattened_daddr t)
  (stateless_reply t).

(** [self.port = v]. *)
Definition set_port (v : list PortVal) (t : Term) : Term :=
  mkTerm (name t) (action t) (address t) (address_exclude t)
  (restrict_address_family t) (comment t) (counter t) (expiration t)
  (destination_address t) (destination_address_exclude t) (destination_port t)
  (destination_prefix t) (filter_term t) (forwarding_class t)
  (forwarding_class_except t) (logging t) (log_limit t) (log_name t)
  (loss_priority t) (option_ t) (owner t) (policer t) v (precedence t)
  (protocol t) (protocol_except t) (qos t) (pan_application t)
  (routing_instance t) (source_address t) (source_address_exclude t)
  (source_port t) (source_prefix t) (ttl t) (verbatim t) (packet_length t)
  (fragment_offset t) (hop_limit t) (icmp_type t) (icmp_code t) (ether_type t)
  (traffic_class_count t) (traffic_type t) (translated t) (dscp_set t)
  (dscp_match t) (dscp_except t) (next_ip t) (flexible_match_range t)
  (source_prefix_except t) (destination_prefix_except t) (inactive t)
  (encapsulate t) (port_mirror t) (destination_zone t) (source_zone t) (vpn t)
  (source_tag t) (destination_tag t) (priority t) (source_interface t)
  (destination_interface t) (platform t) (platform_exclude t)
  (target_resources t) (target_service_accounts t) (timeout t) (flattened t)
  (flattened_addr t) (flattened_saddr t) (flattened_daddr t)
  (stateless_reply t).

(** [self.source_port = v]. *)
Definition set_source_port (v : list PortVal) (t : Term) : Term :=
  mkTerm (name t) (action t) (address t) (address_exclude t)
  (restrict_address_family t) (comment t) (counter t) (expiration t)
  (destination_address t) (destination_address_exclude t) (destination_port t)
  (destination_prefix t) (filter_term t) (forwarding_class t)
  (forwarding_class_except t) (logging t) (log_limit t) (log_name t)
  (loss_priority t) (option_ t) (owner t) (policer t) (port t) (precedence t)
  (protocol t) (protocol_except t) (qos t) (pan_application t)
  (routing_instance t) (source_address t) (source_address_exclude t) v
  (source_prefix t) (ttl t) (verbatim t) (packet_length t) (fragment_offset t)
  (hop_limit t) (icmp_type t) (icmp_code t) (ether_type t)
  (traffic_class_count t) (traffic_type t) (translated t) (dscp_set t)
  (dscp_match t) (dscp_except t) (next_ip t) (flexible_match_range t)
  (source_prefix_except t) (destination_prefix_except t) (inactive t)
  (encapsulate t) (port_mirror t) (destination_zone t) (source_zone t) (vpn t)
  (source_tag t) (destination_tag t) (priority t) (source_interface t)
  (destination_interface t) (platform t) (platform_exclude t)
  (target_resources t) (target_service_accounts t) (timeout t) (flattened t)
  (flattened_addr t) (flattened_saddr t) (flattened_daddr t)
  (stateless_reply t).

(** [self.destination_port = v]. *)
Definition set_destination_port (v : list PortVal) (t : Term) : Term :=
  mkTerm (name t) (action t) (address t) (address_exclude t)
  (restrict_address_family t) (comment t) (counter t) (expiration t)
  (destination_address t) (destination_address_exclude t) v
  (destination_prefix t) (filter_term t) (forwarding_class t)
  (forwarding_class_except t) (logging t) (log_limit t) (log_name t)
  (loss_priority t) (option_ t) (owner t) (policer t) (port t) (precedence t)
  (protocol t) (protocol_except t) (qos t) (pan_application t)
  (routing_instance t) (source_address t) (source_address_exclude t)
  (source_port t) (source_prefix t) (ttl t) (verbatim t) (packet_length t)
  (fragment_offset t) (hop_limit t) (icmp_type t) (icmp_code t) (ether_type t)
  (traffic_class_count t) (traffic_type t) (translated t) (dscp_set t)
  (dscp_match t) (dscp_except t) (next_ip t) (flexible_match_range t)
  (source_prefix_except t) (destination_prefix_except t) (inactive t)
  (encapsulate t) (port_mirror t) (destination_zone t) (source_zone t) (vpn t)
  (source_tag t) (destination_tag t) (priority t) (source_interface t)
  (destination_interface t) (platform t) (platform_exclude t)
  (target_resources t) (target_service_accounts t) (timeout t) (flattened t)
  (flattened_addr t) (flattened_saddr t) (flattened_daddr t)
  (stateless_reply t).

(** [self.translated = v]. *)
Definition set_translated (v : bool) (t : Term) : Term :=
  mkTerm (name t) (action t) (address t) (address_exclude t)
  (restrict_address_family t) (comment t) (counter t) (expiration t)
  (destination_address t) (destination_address_exclude t) (destination_port t)
  (destination_prefix t) (filter_term t) (forwarding_class t)
  (forwarding_class_except t) (logging t) (log_limit t) (log_name t)
  (loss_priority t) (option_ t) (owner t) (policer t) (port t) (precedence t)
  (protocol t) (protocol_except t) (qos t) (pan_application t)
  (routing_instance t) (source_address t) (source_address_exclude t)
  (source_port t) (source_prefix t) (ttl t) (verbatim t) (packet_length t)
  (fragment_offset t) (hop_limit t) (icmp_type t) (icmp_code t) (ether_type t)
  (traffic_class_count t) (traffic_type t) v (dscp_set t) (dscp_match t)
  (dscp_except t) (next_ip t) (flexible_match_range t)
  (source_prefix_except t) (destination_prefix_except t) (inactive t)
  (encapsulate t) (port_mirror t) (destination_zone t) (source_zone t) (vpn t)
  (source_tag t) (destination_tag t) (priority t) (source_interface t)
  (destination_interface t) (platform t) (platform_exclude t)
  (target_resources t) (target_service_accounts t) (timeout t) (flattened t)
  (flattened_addr t) (flattened_saddr t) (flattened_daddr t)
  (stateless_reply t).

(** [self.flattened = v]. *)
Definition set_flattened (v : bool) (t : Term) : Term :=
  mkTerm (name t) (action t) (address t) (address_exclude t)
  (restrict_address_family t) (comment t) (counter t) (expiration t)
  (destination_address t) (destination_address_exclude t) (destination_port t)
  (destination_prefix t) (filter_term t) (forwarding_class t)
  (forwarding_class_except t) (logging t) (log_limit t) (log_name t)
  (loss_priority t) (option_ t) (owner t) (policer t) (port t) (precedence t)
  (protocol t) (protocol_except t) (qos t) (pan_application t)
  (routing_instance t) (source_address t) (source_address_exclude t)
  (source_port t) (source_prefix t) (ttl t) (verbatim t) (packet_length t)
  (fragment_offset t) (hop_limit t) (icmp_type t) (icmp_code t) (ether_type t)
  (traffic_class_count t) (traffic_type t) (translated t) (dscp_set t)
  (dscp_match t) (dscp_except t) (next_ip t) (flexible_match_range t)
  (source_prefix_except t) (destination_prefix_except t) (inactive t)
  (encapsulate t) (port_mirror t) (destination_zone t) (source_zone t) (vpn t)
  (source_tag t) (destination_tag t) (priority t) (source_interface t)
  (destination_interface t) (platform t) (platform_exclude t)
  (target_resources t) (target_service_accounts t) (timeout t) v
  (flattened_addr t) (flattened_saddr t) (flattened_daddr t)
  (stateless_reply t).

(** [self.flattened_addr = v]. *)
Definition set_flattened_addr (v : option (list IPNet)) (t : Term) : Term :=
  mkTerm (name t) (action t) (address t) (address_exclude t)
  (restrict_address_family t) (comment t) (counter t) (expiration t)
  (destination_address t) (destination_address_exclude t) (destination_port t)
  (destination_prefix t) (filter_term t) (forwarding_class t)
  (forwarding_class_except t) (logging t) (log_limit t) (log_name t)
  (loss_priority t) (option_ t) (owner t) (policer t) (port t) (precedence t)
  (protocol t) (protocol_except t) (qos t) (pan_application t)
  (routing_instance t) (source_address t) (source_address_exclude t)
  (source_port t) (source_prefix t) (ttl t) (verbatim t) (packet_length t)
  (fragment_offset t) (hop_limit t) (icmp_type t) (icmp_code t) (ether_type t)
  (traffic_class_count t) (traffic_type t) (translated t) (dscp_set t)
  (dscp_match t) (dscp_except t) (next_ip t) (flexible_match_range t)
  (source_prefix_except t) (destination_prefix_except t) (inactive t)
  (encapsulate t) (port_mirror t) (destination_zone t) (source_zone t) (vpn t)
  (source_tag t) (destination_tag t) (priority t) (source_interface t)
  (destination_interface t) (platform t) (platform_exclude t)
  (target_resources t) (target_service_accounts t) (timeout t) (flattened t) v
  (flattened_saddr t) (flattened_daddr t) (stateless_reply t).

(** [self.flattened_saddr = v]. *)
Definition set_flattened_saddr (v : option (list IPNet)) (t : Term) : Term :=
  mkTerm (name t) (action t) (address t) (address_exclude t)
  (restrict_address_family t) (comment t) (counter t) (expiration t)
  (destination_address t) (destination_address_exclude t) (destination_port t)
  (destination_prefix t) (filter_term t) (forwarding_class t)
  (forwarding_class_except t) (logging t) (log_limit t) (log_name t)
  (loss_priority t) (option_ t) (owner t) (policer t) (port t) (precedence t)
  (protocol t) (protocol_except t) (qos t) (pan_application t)
  (routing_instance t) (source_address t) (source_address_exclude t)
  (source_port t) (source_prefix t) (ttl t) (verbatim t) (packet_length t)
  (fragment_offset t) (hop_limit t) (icmp_type t) (icmp_code t) (ether_type t)
  (traffic_class_count t) (traffic_type t) (translated t) (dscp_set t)
  (dscp_match t) (dscp_except t) (next_ip t) (flexible_match_range t)
  (source_prefix_except t) (destination_prefix_except t) (inactive t)
  (encapsulate t) (port_mirror t) (destination_zone t) (source_zone t) (vpn t)
  (source_tag t) (destination_tag t) (priority t) (source_interface t)
  (destination_interface t) (platform t) (platform_exclude t)
  (target_resources t) (target_service_accounts t) (timeout t) (flattened t)
  (flattened_addr t) v (flattened_daddr t) (stateless_reply t).

(** [self.flattened_daddr = v]. *)
Definition set_flattened_daddr (v : option (list IPNet)) (t : Term) : Term :=
  mkTerm (name t) (action t) (address t) (address_exclude t)
  (restrict_address_family t) (comment t) (counter t) (expiration t)
  (destination_address t) (destination_address_exclude t) (destination_port t)
  (destination_prefix t) (filter_term t) (forwarding_class t)
  (forwarding_class_except t) (logging t) (log_limit t) (log_name t)
  (loss_priority t) (option_ t) (owner t) (policer t) (port t) (precedence t)
  (protocol t) (protocol_except t) (qos t) (pan_application t)
  (routing_instance t) (source_address t) (source_address_exclude t)
  (source_port t) (source_prefix t) (ttl t) (verbatim t) (packet_length t)
  (fragment_offset t) (hop_limit t) (icmp_type t) (icmp_code t) (ether_type t)
  (traffic_class_count t) (traffic_type t) (translated t) (dscp_set t)
  (dscp_match t) (dscp_except t) (next_ip t) (flexible_match_range t)
  (source_prefix_except t) (destination_prefix_except t) (inactive t)
  (encapsulate t) (port_mirror t) (destination_zone t) (source_zone t) (vpn t)
  (source_tag t) (destination_tag t) (priority t) (source_interface t)
  (destination_interface t) (platform t) (platform_exclude t)
  (target_resources t) (target_service_accounts t) (timeout t) (flattened t)
  (flattened_addr t) (flattened_saddr t) v (stateless_reply t).

(** The term [t] with the fields that [Term.__eq__] does not read replaced. *)
Definition with_uncompared
    (v_name : option string) (v_address_exclude : list IPNet)
    (v_restrict_address_family : option string) (v_comment : list string)
    (v_counter : option VarType) (v_loss_priority : option string)
    (v_owner : option string) (v_routing_instance : option string)
    (v_dscp_set : option string) (v_dscp_match : list string)
    (v_dscp_except : list string) (v_priority : option string)
    (v_target_resources : list (string * string))
    (v_target_service_accounts : list string) (t : Term) : Term :=
  mkTerm v_name (action t) (address t) v_address_exclude
  v_restrict_address_family v_comment v_counter (expiration t)
  (destination_address t) (destination_address_exclude t) (destination_port t)
  (destination_prefix t) (filter_term t) (forwarding_class t)
  (forwarding_class_except t) (logging t) (log_limit t) (log_name t)
  v_loss_priority (option_ t) v_owner (policer t) (port t) (precedence t)
  (protocol t) (protocol_except t) (qos t) (pan_application t)
  v_routing_instance (source_address t) (source_address_exclude t)
  (source_port t) (source_prefix t) (ttl t) (verbatim t) (packet_length t)
  (fragment_offset t) (hop_limit t) (icmp_type t) (icmp_code t) (ether_type t)
  (traffic_class_count t) (traffic_type t) (translated t) v_dscp_set
  v_dscp_match v_dscp_except (next_ip t) (flexible_match_range t)
  (source_prefix_except t) (destination_prefix_except t) (inactive t)
  (encapsulate t) (port_mirror t) (destination_zone t) (source_zone t) (vpn t)
  (source_tag t) (destination_tag t) v_priority (source_interface t)
  (destination_interface t) (platform t) (platform_exclude t)
  v_target_resources v_target_service_accounts (timeout t) (flattened t)
  (flattened_addr t) (flattened_saddr t) (flattened_daddr t)
  (stateless_reply t).

(** The term [t] with the fields that [Term.FlattenAll] assigns replaced. *)
Definition with_flattening
    (v_address : list IPNet) (v_destination_address : list IPNet)
    (v_source_address : list IPNet) (v_flattened : bool)
    (v_flattened_addr : option (list IPNet))
    (v_flattened_saddr : option (list IPNet))
    (v_flattened_daddr : option (list IPNet)) (t : Term) : Term :=
  mkTerm (name t) (action t) v_address (address_exclude t)
  (restrict_address_family t) (comment t) (counter t) (expiration t)
  v_destination_address (destination_address_exclude t) (destination_port t)
  (destination_prefix t) (filter_term t) (forwarding_class t)
  (forwarding_class_except t) (logging t) (log_limit t) (log_name t)
  (loss_priority t) (option_ t) (owner t) (policer t) (port t) (precedence t)
  (protocol t) (protocol_except t) (qos t) (pan_application t)
  (routing_instance t) v_source_address (source_address_exclude t)
  (source_port t) (source_prefix t) (ttl t) (verbatim t) (packet_length t)
  (fragment_offset t) (hop_limit t) (icmp_type t) (icmp_code t) (ether_type t)
  (traffic_class_count t) (traffic_type t) (translated t) (dscp_set t)
  (dscp_match t) (dscp_except t) (next_ip t) (flexible_match_range t)
  (source_prefix_except t) (destination_prefix_except t) (inactive t)
  (encapsulate t) (port_mirror t) (destination_zone t) (source_zone t) (vpn t)
  (source_tag t) (destination_tag t) (priority t) (source_interface t)
  (destination_interface t) (platform t) (platform_exclude t)
  (target_resources t) (target_service_accounts t) (timeout t) v_flattened
  v_flattened_addr v_flattened_saddr v_flattened_daddr (stateless_reply t).

(** ** Tables of the class (lines 38-39, 356-419) *)

Definition ACTIONS : list string :=
  ["accept"; "count"; "deny"; "reject"; "next"; "reject-with-tcp-rst"]%string.

Definition PROTOS_WITH_PORTS : list string := ["tcp"; "udp"; "udplite"; "sctp"]%string.

Definition _MAX_TTL : Z := 255.
Definition _MIN_TTL : Z := 0.

Definition ICMP_TYPE_4 : list (string * Z) :=
  [("echo-reply", 0); ("unreachable", 3); ("source-quench", 4); ("redirect", 5);
   ("alternate-address", 6); ("echo-request", 8); ("router-advertisement", 9);
   ("router-solicitation", 10); ("time-exceeded", 11); ("parameter-problem", 12);
   ("timestamp-request", 13); ("timestamp-reply", 14); ("information-request", 15);
   ("information-reply", 16); ("mask-request", 17); ("mask-reply", 18);
   ("conversion-error", 31); ("mobile-redirect", 32)]%string.

Definition ICMP_TYPE_6 : list (string * Z) :=
  [("destination-unreachable", 1); ("packet-too-big", 2); ("time-exceeded", 3);
   ("parameter-problem", 4); ("echo-request", 128); ("echo-reply", 129);
   ("multicast-listener-query", 130); ("multicast-listener-report", 131);
   ("multicast-listener-done", 132); ("router-solicit", 133);
   ("router-advertisement", 134); ("neighbor-solicit", 135);
   ("neighbor-advertisement", 136); ("redirect-message", 137);
   ("router-renumbering", 138); ("icmp-node-information-query", 139);
   ("icmp-node-information-response", 140);
   ("inverse-neighbor-discovery-solicitation", 141);
   ("inverse-neighbor-discovery-advertisement", 142);
   ("version-2-multicast-listener-report", 143);
   ("home-agent-address-discovery-request", 144);
   ("home-agent-address-discovery-reply", 145);
   ("mobile-prefix-solicitation", 146); ("mobile-prefix-advertisement", 147);
   ("certification-path-solicitation", 148);
   ("certification-path-advertisement", 149);
   ("multicast-router-advertisement", 151);
   ("multicast-router-solicitation", 152);
   ("multicast-router-termination", 153)]%string.

Definition ICMP_CODE : list (string * list Z) :=
  [("unreachable", [0; 1; 2; 3; 4; 5; 6; 7; 8; 9; 10; 11; 12; 13; 14; 15]);
   ("redirect", [0; 1; 2; 3]);
   ("router-advertisement", [0; 16]);
   ("time-exceeded", [0; 1]);
   ("destination-unreachable", [0; 1; 2; 3; 4; 5; 6; 7]);
   ("parameter-problem", [0; 1; 2; 3]);
   ("router-renumbering", [0; 1; 255]);
   ("icmp-node-information-query", [0; 1; 2]);
   ("icmp-node-information-response", [0; 1; 2])]%string.

(** [d[k]] on a dict with string keys; a missing key raises [KeyError]. *)
Fixpoint dict_get {V : Type} (d : list (string * V)) (k : string) : Exc V :=
  match d with
  | [] => Raise KeyError
  | (k', v) :: d' => if String.eqb k k' then Return v else dict_get d' k
  end.

(** [k in d] on a dict with string keys. *)
Definition dict_has {V : Type} (d : list (string * V)) (k : string) : bool :=
  existsb (fun kv => String.eqb k (fst kv)) d.

(** ** Containment helpers *)

(** [Term.CheckProtocolIsContained] (lines 1471-1489). *)
Definition CheckProtocolIsContained (superset subset : list string) : bool :=
  if is_empty superset then true
  else if is_empty subset then false
  else forallb (fun p => py_in String.eqb p superset) subset.

(** [Term.CheckPortIsContained] (lines 1491-1514).  The inner loop, with the
    short-circuit of [and]: the second components are read only when the
    first comparison holds. *)
Fixpoint port_enclosed (sub_port : PortVal) (superset : list PortVal) : Exc bool :=
  match superset with
  | [] => Return false
  | sup_port :: rest =>
      a <- port_component 0 sub_port ;;
      b <- port_component 0 sup_port ;;
      if a >=? b then
        c <- port_component 1 sub_port ;;
        d <- port_component 1 sup_port ;;
        if c <=? d then Return true else port_enclosed sub_port rest
      else port_enclosed sub_port rest
  end.

Fixpoint all_enclosed (subset superset : list PortVal) : Exc bool :=
  match subset with
  | [] => Return true
  | sub_port :: rest =>
      found <- port_enclosed sub_port superset ;;
      if found then all_enclosed rest superset else Return false
  end.

Definition CheckPortIsContained (superset subset : list PortVal) : Exc bool :=
  if is_empty superset then Return true
  else if is_empty subset then Return false
  else all_enclosed subset superset.

(** ** Object identity *)

(** A list object with its identity [id(x)].  Every call of [sorted] builds
    a new list object; two objects that are alive together have different
    identities.  [heap] is the next free identity. *)
Record PyObject (A : Type) : Type := mkPyObject {
  object_id : nat;
  contents : A
}.
Arguments mkPyObject {A} _ _.
Arguments object_id {A} _.
Arguments contents {A} _.

Definition new_object {A : Type} (heap : nat) (v : A) : PyObject A * nat :=
  (mkPyObject heap v, S heap).

(** [x is y]. *)
Definition py_is {A : Type} (x y : PyObject A) : bool :=
  Nat.eqb (object_id x) (object_id y).

(** [sorted(a) is not sorted(b)]. *)
Definition sorted_is_not {A : Type} (leb : A -> A -> bool) (heap : nat)
    (a b : list A) : bool :=
  let (x, heap1) := new_object heap (sorted leb a) in
  let (y, _) := new_object heap1 (sorted leb b) in
  negb (py_is x y).

(** [sorted(a) != sorted(b)], the comparison that [Term.__eq__] and the
    prefix-list checks of [Term.__contains__] use. *)
Definition sorted_ne {A : Type} (leb eqb : A -> A -> bool) (a b : list A) : bool :=
  negb (list_eqb eqb (sorted leb a) (sorted leb b)).

(** ** Control-flow notations

    [return_False_when c ;; k] is the statement [if c: return False]
    followed by [k]; the [M] forms take a condition that may raise. *)
Notation "'return_False_when' c ;; k" := (if c then Return false else k)
  (at level 61, c at next level, right associativity).
Notation "'return_False_whenM' m ;; k" :=
  (bind m (fun c : bool => if c then Return false else k))
  (at level 61, m at next level, right associativity).

Definition nonempty {A : Type} (l : list A) : bool := negb (is_empty l).

(** [a and b] and [a or b] with operands that may raise; the second operand
    is evaluated only when the first does not decide. *)
Definition andM (a b : Exc bool) : Exc bool :=
  x <- a ;; if x then b else Return false.
Definition orM (a b : Exc bool) : Exc bool :=
  x <- a ;; if x then Return true else b.
Definition notM (a : Exc bool) : Exc bool :=
  x <- a ;; Return (negb x).

Definition str_of (s : option string) : string :=
  match s with Some x => x | None => EmptyString end.

(** [l[0]]. *)
Definition index0 {A : Type} (l : list A) : Exc A :=
  match l with x :: _ => Return x | [] => Raise IndexError end.

(** ** [Term.__eq__] (lines 822-977) *)

(** [sorted(a) == sorted(b)] on two address lists: the left list is sorted
    first. *)
Definition addrs_equal (a b : list IPNet) : Exc bool :=
  x <- sorted_addrs a ;; y <- sorted_addrs b ;;
  Return (list_eqb addr_eqb x y).

Definition ports_equal (a b : list PortVal) : Exc bool :=
  x <- sorted_ports a ;; y <- sorted_ports b ;;
  Return (list_eqb portval_eqb x y).

Definition logging_differs (a b : list VarType) : Exc bool :=
  x <- sorted_VarTypes a ;; y <- sorted_VarTypes b ;;
  Return (negb (list_eqb VarType_eqb x y)).

Definition opt_str_ne (a b : option string) : bool :=
  negb (option_eqb String.eqb a b).

Definition Term_eq (self other : Term) : Exc bool :=
  (* action *)
  return_False_when sorted_ne String.leb String.eqb (action self) (action other) ;;
  (* addresses *)
  return_False_whenM
    notM (andM (addrs_equal (address self) (address other))
            (andM (addrs_equal (source_address self) (source_address other))
               (andM (addrs_equal (source_address_exclude self)
                        (source_address_exclude other))
                  (andM (addrs_equal (destination_address self)
                           (destination_address other))
                        (addrs_equal (destination_address_exclude self)
                           (destination_address_exclude other)))))) ;;
  (* prefix lists *)
  return_False_when
    negb (negb (sorted_ne String.leb String.eqb (source_prefix self) (source_prefix other))
          && negb (sorted_ne String.leb String.eqb (source_prefix_except self)
                     (source_prefix_except other))
          && negb (sorted_ne String.leb String.eqb (destination_prefix self)
                     (destination_prefix other))
          && negb (sorted_ne String.leb String.eqb (destination_prefix_except self)
                     (destination_prefix_except other))) ;;
  (* ports *)
  return_False_whenM
    notM (andM (ports_equal (port self) (port other))
            (andM (ports_equal (source_port self) (source_port other))
                  (ports_equal (destination_port self) (destination_port other)))) ;;
  (* protocol *)
  return_False_when
    negb (negb (sorted_ne String.leb String.eqb (protocol self) (protocol other))
          && negb (sorted_ne String.leb String.eqb (protocol_except self)
                     (protocol_except other))) ;;
  (* option *)
  return_False_when sorted_ne String.leb String.eqb (option_ self) (option_ other) ;;
  (* qos *)
  return_False_when opt_str_ne (qos self) (qos other) ;;
  (* pan-application *)
  return_False_when
    sorted_ne String.leb String.eqb (pan_application self) (pan_application other) ;;
  (* verbatim *)
  return_False_when negb (list_eqb str_pair_eqb (verbatim self) (verbatim other)) ;;
  (* policer *)
  return_False_when opt_str_ne (policer self) (policer other) ;;
  (* interface *)
  return_False_when opt_str_ne (source_interface self) (source_interface other) ;;
  return_False_when
    opt_str_ne (destination_interface self) (destination_interface other) ;;
  (* tags *)
  return_False_when
    negb (negb (sorted_ne String.leb String.eqb (source_tag self) (source_tag other))
          && negb (sorted_ne String.leb String.eqb (destination_tag self)
                     (destination_tag other))) ;;
  return_False_when negb (option_eqb Z.eqb (ttl self) (ttl other)) ;;
  return_False_whenM logging_differs (logging self) (logging other) ;;
  return_False_when negb (option_eqb str_pair_eqb (log_limit self) (log_limit other)) ;;
  return_False_when opt_str_ne (qos self) (qos other) ;;
  return_False_when
    sorted_ne String.leb String.eqb (pan_application self) (pan_application other) ;;
  return_False_when opt_str_ne (packet_length self) (packet_length other) ;;
  return_False_when opt_str_ne (fragment_offset self) (fragment_offset other) ;;
  return_False_when opt_str_ne (hop_limit self) (hop_limit other) ;;
  return_False_when sorted_ne String.leb String.eqb (icmp_type self) (icmp_type other) ;;
  return_False_when sorted_ne Z.leb Z.eqb (icmp_code self) (icmp_code other) ;;
  return_False_when sorted_ne String.leb String.eqb (ether_type self) (ether_type other) ;;
  return_False_when
    sorted_ne String.leb String.eqb (traffic_type self) (traffic_type other) ;;
  (* vpn *)
  return_False_when negb (option_eqb str_pair_eqb (vpn self) (vpn other)) ;;
  (* platform *)
  return_False_when
    negb (negb (sorted_ne String.leb String.eqb (platform self) (platform other))
          && negb (sorted_ne String.leb String.eqb (platform_exclude self)
                     (platform_exclude other))) ;;
  (* timeout *)
  return_False_when opt_str_ne (timeout self) (timeout other) ;;
  (* precedence *)
  return_False_when negb (list_eqb Z.eqb (precedence self) (precedence other)) ;;
  (* filter *)
  return_False_when opt_str_ne (filter_term self) (filter_term other) ;;
  (* forwarding-class *)
  return_False_when
    sorted_ne String.leb String.eqb (forwarding_class self) (forwarding_class other) ;;
  (* forwarding-class-except *)
  return_False_when
    sorted_ne String.leb String.eqb (forwarding_class_except self)
      (forwarding_class_except other) ;;
  (* next_ip *)
  return_False_when
    negb (option_eqb (list_eqb addr_eqb) (next_ip self) (next_ip other)) ;;
  (* encapsulate *)
  return_False_when opt_str_ne (encapsulate self) (encapsulate other) ;;
  (* flexible_match *)
  return_False_when
    negb (list_eqb str_pair_eqb (flexible_match_range self) (flexible_match_range other)) ;;
  (* port_mirror *)
  return_False_when opt_str_ne (port_mirror self) (port_mirror other) ;;
  (* source_zone *)
  return_False_when
    sorted_ne String.leb String.eqb (source_zone self) (source_zone other) ;;
  (* destination_zone *)
  return_False_when
    sorted_ne String.leb String.eqb (destination_zone self) (destination_zone other) ;;
  Return true.

(** ** [Term.SanityCheck] (lines 1271-1394) *)

Definition raise_when (c : bool) (e : PyError) : Exc unit :=
  if c then Raise e else Return tt.

(** Lines 1294-1335: the verbatim branch and, otherwise, the action and
    port/protocol checks. *)
Definition check_verbatim_action_ports (self : Term) : Exc unit :=
  if nonempty (verbatim self) then
    raise_when
      (nonempty (action self) || nonempty (source_port self)
       || nonempty (destination_port self) || nonempty (port self)
       || nonempty (protocol self) || nonempty (option_ self))
      ParseError
  else
    _ <- raise_when
           (is_empty (action self) && negb (truthy_str (routing_instance self))
            && falsy_list (next_ip self) && negb (truthy_str (encapsulate self))
            && negb (truthy_str (filter_term self))
            && negb (truthy_str (port_mirror self)))
           TermNoActionError ;;
    _ <- raise_when (truthy_str (filter_term self) && nonempty (action self))
           InvalidTermActionError ;;
    let protos_no_ports :=
      filter (fun p => negb (py_in String.eqb p PROTOS_WITH_PORTS)) (protocol self) in
    if nonempty protos_no_ports
       && (nonempty (source_port self) || nonempty (destination_port self)
           || nonempty (port self))
    then
      if nonempty (filter (fun p => negb (py_in String.eqb p protos_no_ports))
                     (protocol self))
      then Raise MixedPortandNonPortProtos
      else Raise TermPortProtocolError
    else Return tt.

(** Lines 1340-1357. *)
Definition check_ether_type (self : Term) : Exc unit :=
  raise_when
    (nonempty (ether_type self)
     && (nonempty (protocol self) || nonempty (address self)
         || nonempty (destination_address self)
         || nonempty (destination_address_exclude self)
         || nonempty (destination_port self) || nonempty (destination_prefix self)
         || nonempty (destination_prefix_except self)
         || nonempty (source_address self) || nonempty (source_address_exclude self)
         || nonempty (source_port self) || nonempty (source_prefix self)
         || nonempty (source_prefix_except self)))
    TermProtocolEtherTypeError.

(** Lines 1367-1370: the loop that collects the codes that are not valid
    for the type; the table is looked up at each code. *)
Fixpoint collect_bad_codes (type_name : string) (codes bad_codes : list Z)
    : Exc (list Z) :=
  match codes with
  | [] => Return bad_codes
  | code :: rest =>
      valid <- dict_get ICMP_CODE type_name ;;
      if negb (py_in Z.eqb code valid)
      then collect_bad_codes type_name rest (bad_codes ++ [code])
      else collect_bad_codes type_name rest bad_codes
  end.

(** Lines 1360-1375. *)
Definition check_icmp_code (self : Term) : Exc unit :=
  if nonempty (icmp_code self) then
    _ <- raise_when (negb (Nat.eqb (List.length (icmp_type self)) 1)) ICMPCodeError ;;
    type_name <- index0 (icmp_type self) ;;
    bad_codes <- collect_bad_codes type_name (icmp_code self) [] ;;
    raise_when (nonempty bad_codes) ICMPCodeError
  else Return tt.

(** Lines 1376-1381. *)
Definition check_icmp_type (self : Term) : Exc unit :=
  raise_when
    (existsb (fun icmptype => negb (dict_has ICMP_TYPE_4 icmptype)
                              && negb (dict_has ICMP_TYPE_6 icmptype))
       (icmp_type self))
    TermInvalidIcmpType.

(** Lines 1383-1388. *)
Definition check_ttl (self : Term) : Exc unit :=
  match ttl self with
  | Some v =>
      raise_when (negb (v =? 0) && negb ((_MIN_TTL <=? v) && (v <=? _MAX_TTL)))
        InvalidTermTTLValue
  | None => Return tt
  end.

(** Lines 1389-1394. *)
Fixpoint check_numeric_protocols (protocols : list string) : Exc unit :=
  match protocols with
  | [] => Return tt
  | proto :: rest =>
      _ <- (if isnumeric proto then
              n <- py_int proto ;;
              raise_when ((n <? 0) || (255 <? n)) InvalidNumericProtoValue
            else Return tt) ;;
      check_numeric_protocols rest
  end.

Definition SanityCheck (self : Term) : Exc unit :=
  _ <- check_verbatim_action_ports self ;;
  _ <- check_ether_type self ;;
  _ <- check_icmp_code self ;;
  _ <- check_icmp_type self ;;
  _ <- check_ttl self ;;
  check_numeric_protocols (protocol self).

(** ** Headers and targets (lines 1638-1770) *)

Module Target.
Record t : Type := mk {
  platform : string;
  options : list string
}.

(** [Target.__eq__] (lines 1766-1767). *)
Definition eqb (self other : t) : bool :=
  String.eqb (platform self) (platform other)
  && list_eqb String.eqb (options self) (options other).
End Target.

Module Header.
Record t : Type := mk {
  target : list Target.t;
  comment : list string;
  apply_groups : list string;
  apply_groups_except : list string
}.

(** [Header.platforms] (lines 1670-1673). *)
Definition platforms (self : t) : list string :=
  map Target.platform (target self).

(** [Header.FilterOptions] (lines 1675-1687). *)
Definition FilterOptions (self : t) (platform : string) : list string :=
  match find (fun tg => String.eqb (Target.platform tg) platform) (target self) with
  | Some tg => Target.options tg
  | None => []
  end.

(** [Header.__eq__] (lines 1724-1746). *)
Definition eqb (self obj : t) : bool :=
  if negb (list_eqb Target.eqb (target self) (target obj)) then false
  else if negb (list_eqb String.eqb (comment self) (comment obj)) then false
  else if negb (list_eqb String.eqb (apply_groups self) (apply_groups obj)) then false
  else if negb (list_eqb String.eqb (apply_groups_except self)
                  (apply_groups_except obj)) then false
  else true.
End Header.

(** A filter is the tuple [(header, terms)]. *)
Definition Filter : Type := (Header.t * list Term)%type.

Record Policy : Type := mkPolicy {
  filters : list Filter;
  filename : string
}.

(** [Policy.headers] and [Policy._NeedsAddressBook] (lines 249-269). *)
Definition headers (self : Policy) : list Header.t := map fst (filters self).

Definition _NeedsAddressBook (self : Policy) : bool :=
  existsb (fun header =>
             py_in String.eqb "srx"%string (Header.platforms header)
             || existsb (fun tg =>
                           let opts := Header.FilterOptions header (Target.platform tg) in
                           nonempty opts && py_in String.eqb "object-group"%string opts)
                  (Header.target header))
    (headers self).

(* ================================================================== *)
(** * Flattening, containment, translation and shading *)
(* ================================================================== *)

Section Collaborators.
(** The address library and the naming service are other modules.  Their
    operations are taken as they are called here. *)

(** [nacaddr.AddressListExclude(superset, subset, collapse_addrs=False)]. *)
Variable AddressListExclude : list IPNet -> list IPNet -> list IPNet.
(** [nacaddr.SortAddrList(addresses)]. *)
Variable SortAddrList : list IPNet -> list IPNet.
(** [nacaddr.CollapseAddrListPreserveTokens(addresses)]. *)
Variable CollapseAddrListPreserveTokens : list IPNet -> list IPNet.
(** [nacaddr.CollapseAddrList(addresses, complement_addresses)]; the
    second argument is [None] for the plain [address] field. *)
Variable CollapseAddrList : list IPNet -> option (list IPNet) -> list IPNet.
(** [DEFINITIONS.GetServiceByProto(port, proto)]. *)
Variable GetServiceByProto : PortVal -> string -> Exc (list string).

(** ** [Term.FlattenAll] (lines 1027-1064) *)
Definition FlattenAll (mutate : bool) (self : Term) : Term :=
  let self := set_flattened true self in
  if negb (nonempty (source_address_exclude self)
           || nonempty (destination_address_exclude self)
           || nonempty (address_exclude self))
  then
    let self := set_flattened_saddr (Some (source_address self)) self in
    let self := set_flattened_daddr (Some (destination_address self)) self in
    set_flattened_addr (Some (address self)) self
  else
    let self :=
      if nonempty (source_address_exclude self) then
        let flat := AddressListExclude (source_address self)
                      (source_address_exclude self) in
        let self := set_flattened_saddr (Some flat) self in
        if mutate then set_source_address flat self else self
      else self in
    let self :=
      if nonempty (destination_address_exclude self) then
        let flat := AddressListExclude (destination_address self)
                      (destination_address_exclude self) in
        let self := set_flattened_daddr (Some flat) self in
        if mutate then set_destination_address flat self else self
      else self in
    if nonempty (address_exclude self) then
      let flat := AddressListExclude (address self) (address_exclude self) in
      let self := set_flattened_addr (Some flat) self in
      if mutate then set_address flat self else self
    else self.

(** ** [Term.__contains__] (lines 506-701) *)

(** Lines 508-535: the checks made before the terms are flattened.
    [true] stands for a [return False]. *)
Definition verbatim_differs (self other : Term) : bool :=
  if nonempty (verbatim self) || nonempty (verbatim other) then
    sorted_ne str_pair_leb str_pair_eqb (verbatim self) (verbatim other)
  else false.

Definition protocol_excludes (self other : Term) : bool :=
  if nonempty (protocol self) then
    if nonempty (protocol other) then
      negb (CheckProtocolIsContained (protocol other) (protocol self))
    else if nonempty (protocol_except other) then true
    else true
  else if nonempty (protocol_except self) then
    if nonempty (protocol_except other) then
      negb (CheckProtocolIsContained (protocol_except self) (protocol_except other))
    else if nonempty (protocol other) then
      existsb (fun proto => py_in String.eqb proto (protocol_except self))
        (protocol other)
    else true
  else false.

(** Lines 642-650. *)
Definition fragment_offset_excludes (self other : Term) : Exc bool :=
  if truthy_str (fragment_offset self) then
    sfo <- ints_of_range (str_of (fragment_offset self)) ;;
    let sfo := sorted Z.leb sfo in
    if truthy_str (fragment_offset other) then
      ofo <- ints_of_range (str_of (fragment_offset other)) ;;
      let ofo := sorted Z.leb ofo in
      o0 <- index0 ofo ;; s0 <- index0 sfo ;;
      Return ((o0 <? s0) || list_Z_ltb (tl sfo) (tl ofo))
    else Return true
  else Return false.

(** Lines 651-663. *)
Definition hop_limit_excludes (self other : Term) : Exc bool :=
  if truthy_str (hop_limit self) then
    shl <- ints_of_range (str_of (hop_limit self)) ;;
    if truthy_str (hop_limit other) then
      ohl <- ints_of_range (str_of (hop_limit other)) ;;
      s0 <- index0 shl ;; o0 <- index0 ohl ;;
      if s0 <? o0 then Return true
      else
        let shll := firstn 1 (tl shl) in
        let ohll := firstn 1 (tl ohl) in
        if nonempty shll && nonempty ohll then Return (s0 >? o0)
        else Return false
    else Return true
  else Return false.

(** Lines 664-672. *)
Definition packet_length_excludes (self other : Term) : Exc bool :=
  if truthy_str (packet_length self) then
    spl <- ints_of_range (str_of (packet_length self)) ;;
    if truthy_str (packet_length other) then
      opl <- ints_of_range (str_of (packet_length other)) ;;
      s0 <- index0 spl ;; o0 <- index0 opl ;;
      Return ((s0 <? o0)
              || list_Z_ltb (sorted Z.leb (tl opl)) (sorted Z.leb (tl spl)))
    else Return true
  else Return false.

(** A membership loop: [for x in theirs: if x not in ours: return False]. *)
Definition some_missing {A : Type} (eqb : A -> A -> bool) (ours theirs : list A) : bool :=
  existsb (fun x => negb (py_in eqb x ours)) theirs.

(** Lines 543-701, on the flattened terms. *)
Definition contains_flattened (heap : nat) (self other : Term) : Exc bool :=
  return_False_when
    negb (CheckAddressIsContained (flattened_addr self) (flattened_addr other)
          || CheckAddressIsContained (flattened_addr self) (flattened_saddr other)
          || CheckAddressIsContained (flattened_addr self) (flattened_daddr other)) ;;
  return_False_when
    negb (CheckAddressIsContained (flattened_addr other) (flattened_saddr self)
          && CheckAddressIsContained (flattened_addr other) (flattened_daddr self)) ;;
  return_False_when
    negb (CheckAddressIsContained (flattened_saddr self) (flattened_saddr other)) ;;
  return_False_when
    negb (CheckAddressIsContained (flattened_daddr self) (flattened_daddr other)) ;;
  (* check ports *)
  return_False_whenM
    (if nonempty (port self) then
       notM (orM (CheckPortIsContained (port self) (port other))
               (orM (CheckPortIsContained (port self) (source_port other))
                    (CheckPortIsContained (port self) (destination_port other))))
     else Return false) ;;
  return_False_whenM
    notM (CheckPortIsContained (source_port self) (source_port other)) ;;
  return_False_whenM
    notM (CheckPortIsContained (destination_port self) (destination_port other)) ;;
  (* prefix lists *)
  return_False_when
    nonempty (source_prefix self)
    && sorted_ne String.leb String.eqb (source_prefix self) (source_prefix other) ;;
  return_False_when
    nonempty (source_prefix_except self)
    && sorted_ne String.leb String.eqb (source_prefix_except self)
         (source_prefix_except other) ;;
  return_False_when
    nonempty (destination_prefix self)
    && sorted_ne String.leb String.eqb (destination_prefix self)
         (destination_prefix other) ;;
  return_False_when
    nonempty (destination_prefix_except self)
    && sorted_ne String.leb String.eqb (destination_prefix_except self)
         (destination_prefix_except other) ;;
  (* check source and destination tags *)
  return_False_when
    nonempty (source_tag self)
    && (sorted_ne String.leb String.eqb (source_tag self) (source_tag other)
        || sorted_ne String.leb String.eqb (destination_tag self)
             (destination_tag other)) ;;
  (* check precedence *)
  return_False_when
    (if nonempty (precedence self) then
       is_empty (precedence other)
       || some_missing Z.eqb (precedence self) (precedence other)
     else nonempty (precedence other)) ;;
  (* check various options *)
  return_False_when
    (if nonempty (option_ self) then
       is_empty (option_ other)
       || some_missing String.eqb (option_ self) (option_ other)
     else nonempty (option_ other)) ;;
  (* check forwarding-class *)
  return_False_when
    nonempty (forwarding_class self)
    && (is_empty (forwarding_class other)
        || some_missing String.eqb (forwarding_class self) (forwarding_class other)) ;;
  (* check forwarding-class-except *)
  return_False_when
    nonempty (forwarding_class_except self)
    && (is_empty (forwarding_class_except other)
        || some_missing String.eqb (forwarding_class_except self)
             (forwarding_class_except other)) ;;
  return_False_when negb (falsy_list (next_ip self)) && falsy_list (next_ip other) ;;
  return_False_when
    truthy_str (encapsulate self) && negb (truthy_str (encapsulate other)) ;;
  return_False_whenM fragment_offset_excludes self other ;;
  return_False_whenM hop_limit_excludes self other ;;
  return_False_whenM packet_length_excludes self other ;;
  return_False_when
    truthy_str (port_mirror self) && negb (truthy_str (port_mirror other)) ;;
  return_False_when
    nonempty (icmp_type self)
    && sorted_is_not String.leb heap (icmp_type self) (icmp_type other) ;;
  return_False_when
    nonempty (icmp_code self)
    && sorted_is_not Z.leb heap (icmp_code self) (icmp_code other) ;;
  (* check platform *)
  return_False_when
    nonempty (platform self)
    && sorted_is_not String.leb heap (platform self) (platform other) ;;
  return_False_when
    nonempty (platform_exclude self)
    && sorted_is_not String.leb heap (platform_exclude self) (platform_exclude other) ;;
  return_False_when
    nonempty (source_zone self)
    && sorted_is_not String.leb heap (source_zone self) (source_zone other) ;;
  return_False_when
    nonempty (destination_zone self)
    && sorted_is_not String.leb heap (destination_zone self) (destination_zone other) ;;
  (* we have containment *)
  Return true.

(** [other in self].  The call flattens both terms in place, so it gives
    back the two objects along with its result. *)
Definition contains (heap : nat) (self other : Term) : Exc bool * Term * Term :=
  if verbatim_differs self other then (Return false, self, other)
  else if protocol_excludes self other then (Return false, self, other)
  else
    let self := if negb (flattened self) then FlattenAll true self else self in
    let other := if negb (flattened other) then FlattenAll true other else other in
    (contains_flattened heap self other, self, other).

(** ** [Term.AddressCleanup] (lines 1396-1440) *)

Definition cleanup (optimize addressbook : bool) (addresses : list IPNet)
    (complement_addresses : option (list IPNet)) : list IPNet :=
  if negb optimize then SortAddrList addresses
  else if addressbook then CollapseAddrListPreserveTokens addresses
  else CollapseAddrList addresses complement_addresses.

(** [CollapsePortList] receives the tuples that [TranslatePorts] built.  On
    a list that still holds a service name the Python code would compare
    characters of the name; that use is outside the model and is reported
    as a [TypeError]. *)
Definition ranges_of (l : list PortVal) : Exc (list PortRange) :=
  mapM (fun v => match v with
                 | PRange r => Return r
                 | PName _ => Raise TypeError
                 end) l.

Definition collapse_ports (l : list PortVal) : Exc (list PortVal) :=
  r <- ranges_of l ;; Return (map PRange (CollapsePortList r)).

Definition AddressCleanup (optimize addressbook : bool) (self : Term) : Exc Term :=
  (* address collapsing. *)
  let self :=
    if nonempty (address self)
    then set_address (cleanup optimize addressbook (address self) None) self
    else self in
  let self :=
    if nonempty (source_address self)
    then set_source_address
           (cleanup optimize addressbook (source_address self)
              (Some (source_address_exclude self))) self
    else self in
  let self :=
    if nonempty (source_address_exclude self)
    then set_source_address_exclude
           (cleanup optimize addressbook (source_address_exclude self)
              (Some (source_address self))) self
    else self in
  let self :=
    if nonempty (destination_address self)
    then set_destination_address
           (cleanup optimize addressbook (destination_address self)
              (Some (destination_address_exclude self))) self
    else self in
  let self :=
    if nonempty (destination_address_exclude self)
    then set_destination_address_exclude
           (cleanup optimize addressbook (destination_address_exclude self)
              (Some (destination_address self))) self
    else self in
  (* port collapsing. *)
  self <- (if nonempty (port self)
           then p <- collapse_ports (port self) ;; Return (set_port p self)
           else Return self) ;;
  self <- (if nonempty (source_port self)
           then p <- collapse_ports (source_port self) ;;
                Return (set_source_port p self)
           else Return self) ;;
  if nonempty (destination_port self)
  then p <- collapse_ports (destination_port self) ;;
       Return (set_destination_port p self)
  else Return self.

(** ** [TranslatePorts] (lines 147-181) *)

(** One entry of a service definition, ["25"] or ["1024-65535"]. *)
Definition service_range (x : string) : Exc PortRange :=
  match split_dash x with
  | [p0] => a <- py_int p0 ;; b <- py_int p0 ;; Return (a, b)
  | p0 :: p1 :: _ => a <- py_int p0 ;; b <- py_int p1 ;; Return (a, b)
  | [] => Raise IndexError
  end.

Fixpoint translate_for_proto (ports : list PortVal) (proto : string)
    : Exc (list PortRange) :=
  match ports with
  | [] => Return []
  | port :: rest =>
      service_by_proto <- GetServiceByProto port proto ;;
      here <- mapM service_range service_by_proto ;;
      more <- translate_for_proto rest proto ;;
      Return (here ++ more)
  end.

Fixpoint TranslatePorts (ports : list PortVal) (protocols : list string)
    : Exc (list PortRange) :=
  match protocols with
  | [] => Return []
  | proto :: rest =>
      here <- translate_for_proto ports proto ;;
      more <- TranslatePorts ports rest ;;
      Return (here ++ more)
  end.

(** ** [Policy._TranslateTerms] (lines 214-247) *)

(** The body of the loop for one term.  [optimize] is the module flag
    [_OPTIMIZE]. *)
Definition translate_ports_field (get : Term -> list PortVal)
    (set : list PortVal -> Term -> Term) (term : Term) : Exc Term :=
  if nonempty (get term) then
    p <- TranslatePorts (get term) (protocol term) ;;
    if is_empty p then Raise TermPortProtocolError
    else Return (set (map PRange p) term)
  else Return term.

Definition translate_term (optimize : bool) (self : Policy) (term : Term) : Exc Term :=
  if translated term then Return term
  else
    term <- translate_ports_field port set_port term ;;
    term <- translate_ports_field source_port set_source_port term ;;
    term <- translate_ports_field destination_port set_destination_port term ;;
    term <- AddressCleanup optimize (_NeedsAddressBook self) term ;;
    _ <- SanityCheck term ;;
    Return (set_translated true term).

(** The terms as the loop leaves them when it ends without an exception.
    When a term raises, the terms before it keep what the loop wrote to
    them; that intermediate state is not part of the result here. *)
Definition _TranslateTerms (optimize : bool) (self : Policy) (terms : list Term)
    : Exc (list Term) :=
  if is_empty terms then Raise NoTermsError
  else mapM (translate_term optimize self) terms.

(** ** [Policy._DetectShading] (lines 271-286) *)

(** [l[i] = v]. *)
Fixpoint list_set {A : Type} (l : list A) (i : nat) (v : A) : list A :=
  match l, i with
  | [], _ => []
  | _ :: l', O => v :: l'
  | x :: l', S i' => x :: list_set l' i' v
  end.

(** A [for] loop over [items] whose body works on a state and may raise;
    the state reached so far survives the exception. *)
Fixpoint for_each {S I : Type} (body : I -> S -> Exc unit * S) (items : list I)
    (s : S) : Exc unit * S :=
  match items with
  | [] => (Return tt, s)
  | i :: rest =>
      match body i s with
      | (Return _, s') => for_each body rest s'
      | (Raise e, s') => (Raise e, s')
      end
  end.

(** A warning [f"{term.name} is shaded by {terms[prior_index].name}"], as
    the two names. *)
Definition Warning : Type := (option string * option string)%type.

(** The state of the pass: the term objects of the list and the log. *)
Definition ShadeState : Type := (list Term * list Warning)%type.

(** The body of the inner loop (lines 285-286).  The terms are distinct
    objects; [contains] flattens the two it is given. *)
Definition shade_pair (heap : nat) (index prior_index : nat) (st : ShadeState)
    : Exc unit * ShadeState :=
  let (terms, log) := st in
  match nth_error terms prior_index, nth_error terms index with
  | Some prior, Some term =>
      let '(r, prior', term') := contains heap prior term in
      let terms' := list_set (list_set terms prior_index prior') index term' in
      match r with
      | Raise e => (Raise e, (terms', log))
      | Return shaded =>
          if shaded && negb (py_in String.eqb "next"%string (action prior'))
          then (Return tt, (terms', log ++ [(name term', name prior')]))
          else (Return tt, (terms', log))
      end
  | _, _ => (Raise IndexError, st)
  end.

Definition _DetectShading (heap : nat) (terms : list Term) : Exc unit * ShadeState :=
  for_each (fun index => for_each (shade_pair heap index) (seq 0 index))
    (seq 0 (List.length terms)) (terms, []).

(** The terms as the pass leaves them, and what it logged. *)
Definition terms_after (heap : nat) (terms : list Term) : list Term :=
  fst (snd (_DetectShading heap terms)).
Definition warnings_of (heap : nat) (terms : list Term) : list Warning :=
  snd (snd (_DetectShading heap terms)).
End Collaborators.

(* ================================================================== *)
(** * The lexer (lines 1934-2165) *)
(* ================================================================== *)

Module Lexer.
Open Scope nat_scope.
Open Scope char_scope.

Definition literals : list ascii := [":"; "{"; "}"; ","; "-"; "/"].
Definition t_ignore : list ascii := [" "; "009"].

Definition reserved : list (string * string) :=
  [("action", "ACTION"); ("address", "ADDR"); ("address-exclude", "ADDREXCLUDE");
   ("restrict-address-family", "RESTRICT_ADDRESS_FAMILY"); ("comment", "COMMENT");
   ("counter", "COUNTER"); ("destination-address", "DADDR");
   ("destination-exclude", "DADDREXCLUDE"); ("destination-interface", "DINTERFACE");
   ("destination-prefix", "DPFX"); ("destination-prefix-except", "EDPFX");
   ("destination-port", "DPORT"); ("destination-tag", "DTAG");
   ("destination-zone", "DZONE"); ("dscp-except", "DSCP_EXCEPT");
   ("dscp-match", "DSCP_MATCH"); ("dscp-set", "DSCP_SET");
   ("encapsulate", "ENCAPSULATE"); ("ether-type", "ETHER_TYPE");
   ("expiration", "EXPIRATION"); ("filter-term", "FILTER_TERM");
   ("flexible-match-range", "FLEXIBLE_MATCH_RANGE");
   ("forwarding-class", "FORWARDING_CLASS");
   ("forwarding-class-except", "FORWARDING_CLASS_EXCEPT");
   ("fragment-offset", "FRAGMENT_OFFSET"); ("hex", "HEX"); ("hop-limit", "HOP_LIMIT");
   ("apply-groups", "APPLY_GROUPS"); ("apply-groups-except", "APPLY_GROUPS_EXCEPT");
   ("header", "HEADER"); ("icmp-type", "ICMP_TYPE"); ("icmp-code", "ICMP_CODE");
   ("logging", "LOGGING"); ("log-limit", "LOG_LIMIT"); ("log_name", "LOG_NAME");
   ("loss-priority", "LOSS_PRIORITY"); ("next-ip", "NEXT_IP"); ("option", "OPTION");
   ("owner", "OWNER"); ("packet-length", "PACKET_LEN"); ("platform", "PLATFORM");
   ("platform-exclude", "PLATFORMEXCLUDE"); ("policer", "POLICER"); ("port", "PORT");
   ("port-mirror", "PORT_MIRROR"); ("precedence", "PRECEDENCE");
   ("priority", "PRIORITY"); ("protocol", "PROTOCOL");
   ("protocol-except", "PROTOCOL_EXCEPT"); ("qos", "QOS");
   ("pan-application", "PAN_APPLICATION"); ("routing-instance", "ROUTING_INSTANCE");
   ("source-address", "SADDR"); ("source-exclude", "SADDREXCLUDE");
   ("source-interface", "SINTERFACE"); ("source-prefix", "SPFX");
   ("source-prefix-except", "ESPFX"); ("source-port", "SPORT");
   ("source-tag", "STAG"); ("source-zone", "SZONE"); ("target", "TARGET");
   ("target-resources", "TARGET_RESOURCES");
   ("target-service-accounts", "TARGET_SERVICE_ACCOUNTS"); ("term", "TERM");
   ("timeout", "TIMEOUT"); ("traffic-class-count", "TRAFFIC_CLASS_COUNT");
   ("traffic-type", "TRAFFIC_TYPE"); ("ttl", "TTL"); ("verbatim", "VERBATIM");
   ("vpn", "VPN")]%string.

(** [reserved.get(value, default)]. *)
Fixpoint reserved_get (d : list (string * string)) (k default : string) : string :=
  match d with
  | [] => default
  | (k', v) :: d' => if String.eqb k k' then v else reserved_get d' k default
  end.

(** ** Character classes of the rules

    A character is a code point below 256.  The patterns are patterns on
    text, so the class of word characters holds, besides the ASCII letters,
    digits and the underscore, the letters and numbers among the code
    points from 128 on: 170, 178-179, 181, 185-186, 188-190, 192-214,
    216-246 and 248-255.  The class of digits holds the ten ASCII digits
    only in this range. *)

Definition in_range (lo hi c : ascii) : bool :=
  Nat.leb (nat_of_ascii lo) (nat_of_ascii c) && Nat.leb (nat_of_ascii c) (nat_of_ascii hi).
Definition digit (c : ascii) : bool := in_range "0" "9" c.
Definition latin1_word (c : ascii) : bool :=
  Ascii.eqb c "170" || in_range "178" "179" c || Ascii.eqb c "181"
  || in_range "185" "186" c || in_range "188" "190" c || in_range "192" "214" c
  || in_range "216" "246" c || in_range "248" "255" c.
Definition word (c : ascii) : bool :=
  in_range "a" "z" c || in_range "A" "Z" c || digit c || Ascii.eqb c "_"
  || latin1_word c.
Definition hexdigit (c : ascii) : bool :=
  in_range "a" "f" c || in_range "A" "F" c || digit c.
Definition newline (c : ascii) : bool := Ascii.eqb c "010".
Definition member (c : ascii) (l : list ascii) : bool := existsb (Ascii.eqb c) l.

(** Length of the longest prefix whose characters satisfy [p]. *)
Fixpoint span (p : ascii -> bool) (s : string) : nat :=
  match s with
  | String c s' => if p c then S (span p s') else 0
  | EmptyString => 0
  end.

Definition at_least_one (n : nat) : option nat :=
  match n with O => None | S _ => Some n end.

(** ** The rules, each giving the length of its match at the start of the
    remaining input *)

(** [t_BLOCK_COMMENT]: [\#.*]. *)
Definition re_BLOCK_COMMENT (s : string) : option nat :=
  match s with
  | String "#" s' => Some (S (span (fun c => negb (newline c)) s'))
  | _ => None
  end.

(** [t_ESCAPEDSTRING]: a quoted string with at least one escaped
    quote (backslash, quote) and no other backslash.  [escaped_body] reads up to and including the closing
    quote. *)
Fixpoint escaped_body (s : string) (escapes : nat) : option nat :=
  match s with
  | EmptyString => None
  | String c s' =>
      if Ascii.eqb c "034" then
        match escapes with O => None | S _ => Some 1 end
      else if Ascii.eqb c "\" then
        match s' with
        | String "034" s'' => option_map (fun n => n + 2) (escaped_body s'' (S escapes))
        | _ => None
        end
      else option_map S (escaped_body s' escapes)
  end.

Definition re_ESCAPEDSTRING (s : string) : option nat :=
  match s with
  | String "034" s' => option_map S (escaped_body s' 0)
  | _ => None
  end.

(** [t_DQUOTEDSTRING]: a quote, the shortest run of other characters, a
    quote. *)
Fixpoint closing_quote (s : string) : option nat :=
  match s with
  | EmptyString => None
  | String c s' => if Ascii.eqb c "034" then Some 1 else option_map S (closing_quote s')
  end.

Definition re_DQUOTEDSTRING (s : string) : option nat :=
  match s with
  | String "034" s' => option_map S (closing_quote s')
  | _ => None
  end.

(** [t_NEWLINE]: [\n+]. *)
Definition re_NEWLINE (s : string) : option nat := at_least_one (span newline s).

(** The DSCP names both DSCP rules share:
    [(b[0-1]{6})|(af[1-4]{1}[1-3]{1})|(be)|(ef)|(cs[0-7]{1})]. *)
Definition bit (c : ascii) : bool := in_range "0" "1" c.

Definition dscp_name (s : string) : option nat :=
  match s with
  | String "b" (String c1 (String c2 (String c3 (String c4 (String c5 (String c6 _)))))) =>
      if bit c1 && bit c2 && bit c3 && bit c4 && bit c5 && bit c6 then Some 7
      else match s with String "b" (String "e" _) => Some 2 | _ => None end
  | String "a" (String "f" (String c1 (String c2 _))) =>
      if in_range "1" "4" c1 && in_range "1" "3" c2 then Some 4 else None
  | String "b" (String "e" _) => Some 2
  | String "e" (String "f" _) => Some 2
  | String "c" (String "s" (String c1 _)) =>
      if in_range "0" "7" c1 then Some 3 else None
  | _ => None
  end.

(** [s[n:]]. *)
Fixpoint drop (n : nat) (s : string) : string :=
  match n, s with
  | S n', String _ s' => drop n' s'
  | _, _ => s
  end.

(** [\b] in front of a word character: the character before is no word
    character. *)
Definition boundary_before (prev : option ascii) : bool :=
  match prev with None => true | Some c => negb (word c) end.

(** [\b] behind a word character. *)
Definition boundary_after (s : string) : bool :=
  match s with EmptyString => true | String c _ => negb (word c) end.

(** [t_DSCP_RANGE]: [\b name - name \b]. *)
Definition re_DSCP_RANGE (prev : option ascii) (s : string) : option nat :=
  if boundary_before prev then
    match dscp_name s with
    | Some n =>
        match drop n s with
        | String "-" s' =>
            match dscp_name s' with
            | Some m => if boundary_after (drop m s') then Some (n + 1 + m) else None
            | None => None
            end
        | _ => None
        end
    | None => None
    end
  else None.

(** [t_DSCP]: [\b name (?![\w-]) \b]. *)
Definition re_DSCP (prev : option ascii) (s : string) : option nat :=
  if boundary_before prev then
    match dscp_name s with
    | Some n =>
        match drop n s with
        | EmptyString => Some n
        | String c _ => if word c || Ascii.eqb c "-" then None else Some n
        end
    | None => None
    end
  else None.

(** [t_HEX]: [0x[a-fA-F0-9]+]. *)
Definition re_HEX (s : string) : option nat :=
  match s with
  | String "0" (String "x" s') => option_map (fun n => n + 2) (at_least_one (span hexdigit s'))
  | _ => None
  end.

(** [t_INTEGER]: [\d+]. *)
Definition re_INTEGER (s : string) : option nat := at_least_one (span digit s).

(** [t_STRING]: word characters, then any number of groups made of one of
    [-_+.@/] and further word characters.  After the first word character
    every word character or one of [-_+.@/] extends the match. *)
Definition re_STRING (s : string) : option nat :=
  match s with
  | String c s' =>
      if word c
      then Some (S (span (fun c => word c || member c ["-"; "_"; "+"; "."; "@"; "/"]) s'))
      else None
  | EmptyString => None
  end.

Definition re_char (k : ascii) (s : string) : option nat :=
  match s with
  | String c _ => if Ascii.eqb c k then Some 1 else None
  | EmptyString => None
  end.

Inductive Rule : Type :=
| BLOCK_COMMENT | ESCAPEDSTRING | DQUOTEDSTRING | NEWLINE | DSCP_RANGE | DSCP
| HEX | INTEGER | STRING | LSQUARE | RSQUARE | LPAREN | RPAREN.

(** The master expression: the function rules in the order of their
    definition, then the string rules; the first that matches wins. *)
Definition rules (prev : option ascii) : list (Rule * (string -> option nat)) :=
  [(BLOCK_COMMENT, re_BLOCK_COMMENT); (ESCAPEDSTRING, re_ESCAPEDSTRING);
   (DQUOTEDSTRING, re_DQUOTEDSTRING); (NEWLINE, re_NEWLINE);
   (DSCP_RANGE, re_DSCP_RANGE prev); (DSCP, re_DSCP prev); (HEX, re_HEX);
   (INTEGER, re_INTEGER); (STRING, re_STRING); (LSQUARE, re_char "[");
   (RSQUARE, re_char "]"); (LPAREN, re_char "("); (RPAREN, re_char ")")].

Fixpoint first_match (rs : list (Rule * (string -> option nat))) (s : string)
    : option (Rule * nat) :=
  match rs with
  | [] => None
  | (r, re) :: rs' =>
      match re s with
      | Some (S n) => Some (r, S n)
      | _ => first_match rs' s
      end
  end.

Record LexToken : Type := mkLexToken {
  type : string;
  value : string;
  lineno : nat
}.

(** What the lexer does, in order: a token handed to the parser, or a line
    printed by [t_error]: ["Illegal character '%s' on line %s"]. *)
Inductive LexEvent : Type :=
| Token (tok : LexToken)
| IllegalCharacter (c : ascii) (line : nat).

Fixpoint count_newlines (s : string) : nat :=
  match s with
  | EmptyString => 0
  | String c s' => (if newline c then 1 else 0) + count_newlines s'
  end.

(** The rule functions (lines 2108-2165): the token they return and the
    lexer's line number after them.  The token carries the line number at
    the start of the match. *)
Definition rule_action (r : Rule) (value : string) (lineno : nat) : LexToken * nat :=
  match r with
  | BLOCK_COMMENT => (mkLexToken "BLOCK_COMMENT" value lineno, lineno + count_newlines value)
  | ESCAPEDSTRING => (mkLexToken "ESCAPEDSTRING" value lineno, lineno + count_newlines value)
  | DQUOTEDSTRING => (mkLexToken "DQUOTEDSTRING" value lineno, lineno + count_newlines value)
  | NEWLINE => (mkLexToken "NEWLINE" value lineno, lineno + String.length value)
  | DSCP_RANGE => (mkLexToken (reserved_get reserved value "DSCP_RANGE") value lineno, lineno)
  | DSCP => (mkLexToken (reserved_get reserved value "DSCP") value lineno, lineno)
  | HEX => (mkLexToken "HEX" value lineno, lineno)
  | INTEGER => (mkLexToken "INTEGER" value lineno, lineno)
  | STRING => (mkLexToken (reserved_get reserved value "STRING") value lineno, lineno)
  | LSQUARE => (mkLexToken "LSQUARE" value lineno, lineno)
  | RSQUARE => (mkLexToken "RSQUARE" value lineno, lineno)
  | LPAREN => (mkLexToken "LPAREN" value lineno, lineno)
  | RPAREN => (mkLexToken "RPAREN" value lineno, lineno)
  end.

(** [t_error] (lines 2132-2134): the line it prints, from [t.value[0]] and
    [t.lineno], and the number of characters it skips with
    [t.lexer.skip(1)]. *)
Definition t_error (c : ascii) (lineno : nat) : LexEvent * nat :=
  (IllegalCharacter c lineno, 1).

(** The scanning loop of the lexer library, character by character.
    [prev] is the character before the position; [inside] counts the
    characters still covered by the last match or skip.  At a position
    outside a match: an ignored character is passed over; else the first
    matching rule gives a token; else a literal character is its own
    token; else [t_error] is called, and a [t_error] that does not move
    the position is a [LexError]. *)
Fixpoint scan (input : string) (prev : option ascii) (inside : nat) (lineno : nat)
    : Exc (list LexEvent) :=
  match input with
  | EmptyString => Return []
  | String c rest =>
      match inside with
      | S k => scan rest (Some c) k lineno
      | O =>
          if member c t_ignore then scan rest (Some c) 0 lineno
          else
            match first_match (rules prev) input with
            | Some (r, n) =>
                let (tok, lineno') := rule_action r (substring 0 n input) lineno in
                evs <- scan rest (Some c) (pred n) lineno' ;;
                Return (Token tok :: evs)
            | None =>
                if member c literals then
                  evs <- scan rest (Some c) 0 lineno ;;
                  Return (Token (mkLexToken (String c EmptyString)
                                   (String c EmptyString) lineno) :: evs)
                else
                  let (printed, skipped) := t_error c lineno in
                  match skipped with
                  | O => Raise LexError
                  | S k =>
                      evs <- scan rest (Some c) k lineno ;;
                      Return (printed :: evs)
                  end
            end
      end
  end.

(** A character that stops the scan at a position: not ignored, matched by
    no rule, and no literal. *)
Definition unrecognized (prev : option ascii) (input : string) : bool :=
  match input with
  | EmptyString => false
  | String c _ =>
      negb (member c t_ignore)
      && match first_match (rules prev) input with Some _ => false | None => true end
      && negb (member c literals)
  end.

(** Tokenizing a text: the scan from its start, at line 1. *)
Definition tokenize (input : string) : Exc (list LexEvent) :=
  scan input None 0 1.
End Lexer.

(* ================================================================== *)
(** * Sample objects *)
(* ================================================================== *)

Module Samples.
Open Scope string_scope.

(** 10.0.0.0/8, 10.0.0.0/9 and 192.168.0.0/16. *)
Definition net10 : IPNet := mkIPNet 4 167772160 8.
Definition net10_low : IPNet := mkIPNet 4 167772160 9.
Definition net192 : IPNet := mkIPNet 4 3232235520 16.

(** [term ping { protocol:: icmp  icmp-type:: echo-request  action:: accept }] *)
Definition ping : Term :=
  set_icmp_type ["echo-request"]
    (set_protocol ["icmp"] (set_action ["accept"] (set_name (Some "ping") new_Term))).

(** A second term object with the same attributes. *)
Definition ping_again : Term := set_name (Some "ping-again") ping.

(** [ping] with [icmp-code:: 5]. *)
Definition ping_code5 : Term := set_icmp_code [5] ping.

(** [term web { protocol:: icmp  port:: 80 }] after port translation, with
    no action. *)
Definition icmp_port_no_action : Term :=
  set_port [PRange (80, 80)]
    (set_protocol ["icmp"] (set_name (Some "web") new_Term)).

(** The same with [action:: accept]. *)
Definition icmp_port : Term := set_action ["accept"] icmp_port_no_action.

(** [tcp] and [icmp] together with a port. *)
Definition mixed_port : Term := set_protocol ["tcp"; "icmp"] icmp_port.

(** [tcp] with a port. *)
Definition tcp_port : Term := set_protocol ["tcp"] icmp_port.

(** [term carve { address:: 10.0.0.0/8 192.168.0.0/16
    address-exclude:: 192.168.0.0/16  action:: accept }] *)
Definition carve : Term :=
  set_address_exclude [net192]
    (set_address [net10; net192]
       (set_action ["accept"] (set_name (Some "carve") new_Term))).

(** [term inner { address:: 10.0.0.0/9  action:: accept }] *)
Definition inner : Term :=
  set_address [net10_low] (set_action ["accept"] (set_name (Some "inner") new_Term)).

(** [term any { action:: accept }] and [term pass { action:: next }]. *)
Definition any : Term := set_action ["accept"] (set_name (Some "any") new_Term).
Definition pass : Term := set_action ["next"] (set_name (Some "pass") new_Term).

(** A term with [logging:: true] and [logging:: syslog]. *)
Definition two_loggings : Term :=
  set_logging [mkVarType VarType_LOGGING "true"; mkVarType VarType_LOGGING "syslog"]
    any.

(** [term dual { address:: 10.0.0.0/8 2001:db8::/32  action:: accept }]:
    a term whose address list holds the two versions. *)
Definition net2001 : IPNet := mkIPNet 6 42540766411282592856903984951653826560 32.
Definition dual_stack : Term :=
  set_address [net10; net2001] (set_action ["accept"] (set_name (Some "dual") new_Term)).

(** [term text { verbatim:: juniper "deny all" }]: verbatim content only. *)
Definition verbatim_only : Term :=
  set_verbatim [("juniper", "deny all")] (set_name (Some "text") new_Term).

(** [term vrf { routing-instance:: customer }]: a routing instance and no
    action. *)
Definition only_vrf : Term :=
  set_routing_instance (Some "customer") (set_name (Some "vrf") new_Term).

(** [term bounded { protocol:: 6  ttl:: 64  action:: accept }]. *)
Definition bounded : Term := set_ttl (Some 64) (set_protocol ["6"] any).

(** [term arp { ether-type:: arp  port:: 80  action:: accept }], after
    translation of the port. *)
Definition arp_port : Term :=
  set_port [PRange (80, 80)] (set_ether_type ["arp"] any).

(** A term already marked translated. *)
Definition done : Term :=
  set_translated true (set_port [PRange (80, 80)] (set_protocol ["tcp"] any)).

Definition header : Header.t := Header.mk [Target.mk "juniper" ["filter"]] [] [] [].
Definition policy : Policy := mkPolicy [(header, [done])] "sample.pol".

(** Collaborators for the samples: the address model above, and a naming
    service that knows no service. *)
Definition no_service (port : PortVal) (proto : string) : Exc (list string) := Return [].
Definition keep (l : list IPNet) : list IPNet := l.
Definition keep2 (l : list IPNet) (c : option (list IPNet)) : list IPNet := l.
End Samples.

(* ================================================================== *)
(** * Relations between terms used in the statements *)
(* ================================================================== *)

(** [t'] is [t] except, at most, in the seven fields that
    [Term.FlattenAll] assigns. *)
Definition flattening_only (t t' : Term) : Prop :=
  t' = with_flattening (address t') (destination_address t') (source_address t')
         (flattened t') (flattened_addr t') (flattened_saddr t') (flattened_daddr t') t.

Definition no_excludes (t : Term) : bool :=
  is_empty (source_address_exclude t) && is_empty (destination_address_exclude t)
  && is_empty (address_exclude t).

Definition keeps_addresses (t t' : Term) : Prop :=
  address t' = address t /\ source_address t' = source_address t
  /\ destination_address t' = destination_address t.

(** What a shading pass may do to a term: write the flattening fields, and
    leave the three address fields alone when the term has no exclude
    list. *)
Definition flatten_frame (t t' : Term) : Prop :=
  flattening_only t t' /\ (no_excludes t = true -> keeps_addresses t t').

(** What a shading pass does to a term: nothing, or, to a term that was not
    flattened before, what the call [FlattenAll()] of [Term.__contains__]
    does, with [mutate] at its default. *)
Definition kept_or_flattened
    (AddressListExclude : list IPNet -> list IPNet -> list IPNet)
    (t t' : Term) : Prop :=
  t' = t \/ (flattened t = false /\ t' = FlattenAll AddressListExclude true t).

(** [t'] is [t] except, at most, in the fourteen fields that [Term.__eq__]
    does not read. *)
Definition same_compared (t t' : Term) : Prop :=
  t' = with_uncompared (name t') (address_exclude t') (restrict_address_family t')
         (comment t') (counter t') (loss_priority t') (owner t') (routing_instance t')
         (dscp_set t') (dscp_match t') (dscp_except t') (priority t')
         (target_resources t') (target_service_accounts t') t.

(** The operands on which [Term.__eq__] sorts without a [TypeError]: each
    of the five address lists it sorts holds one IP version, each port list
    holds names only or tuples only, and the logging list has at most one
    entry. *)
Definition comparable (t : Term) : bool :=
  one_version (address t) && one_version (source_address t)
  && one_version (source_address_exclude t) && one_version (destination_address t)
  && one_version (destination_address_exclude t)
  && one_kind (port t) && one_kind (source_port t) && one_kind (destination_port t)
  && Nat.leb (List.length (logging t)) 1.

(** ** The port and protocol rule of [SanityCheck] *)

Definition declares_ports (t : Term) : bool :=
  nonempty (source_port t) || nonempty (destination_port t) || nonempty (port t).

Definition port_bearing (p : string) : bool := py_in String.eqb p PROTOS_WITH_PORTS.

(** The term gets as far as the port and protocol rule: it has no verbatim
    content, it names an action of some kind, and it does not name both a
    filter-term and an action. *)
Definition reaches_port_rule (t : Term) : bool :=
  is_empty (verbatim t)
  && negb (is_empty (action t) && negb (truthy_str (routing_instance t))
           && falsy_list (next_ip t) && negb (truthy_str (encapsulate t))
           && negb (truthy_str (filter_term t)) && negb (truthy_str (port_mirror t)))
  && negb (truthy_str (filter_term t) && nonempty (action t)).

(** The two errors of the port and protocol rule, and a computation that
    raises neither of them. *)
Definition port_rule_error (e : PyError) : bool :=
  match e with
  | MixedPortandNonPortProtos | TermPortProtocolError => true
  | _ => false
  end.

Definition no_port_rule_error {A : Type} (m : Exc A) : Prop :=
  match m with Raise e => port_rule_error e = false | Return _ => True end.

(* ================================================================== *)
(** * Further relations used in the statements *)
(* ================================================================== *)

(** A range whose low end is not above its high end. *)
Definition well_formed (r : PortRange) : Prop := fst r <= snd r.

(** A term that holds a value in one of the six attributes that
    [Term.__contains__] compares by object identity (lines 676-698). *)
Definition identity_compared (t : Term) : bool :=
  nonempty (icmp_type t) || nonempty (icmp_code t) || nonempty (platform t)
  || nonempty (platform_exclude t) || nonempty (source_zone t)
  || nonempty (destination_zone t).

(** The term [t] with the four [flattened*] attributes replaced. *)
Definition with_flatten_cache
    (v_flattened : bool) (v_flattened_addr : option (list IPNet))
    (v_flattened_saddr : option (list IPNet))
    (v_flattened_daddr : option (list IPNet)) (t : Term) : Term :=
  mkTerm (name t) (action t) (address t) (address_exclude t)
  (restrict_address_family t) (comment t) (counter t) (expiration t)
  (destination_address t) (destination_address_exclude t) (destination_port t)
  (destination_prefix t) (filter_term t) (forwarding_class t)
  (forwarding_class_except t) (logging t) (log_limit t) (log_name t)
  (loss_priority t) (option_ t) (owner t) (policer t) (port t) (precedence t)
  (protocol t) (protocol_except t) (qos t) (pan_application t)
  (routing_instance t) (source_address t) (source_address_exclude t)
  (source_port t) (source_prefix t) (ttl t) (verbatim t) (packet_length t)
  (fragment_offset t) (hop_limit t) (icmp_type t) (icmp_code t) (ether_type t)
  (traffic_class_count t) (traffic_type t) (translated t) (dscp_set t)
  (dscp_match t) (dscp_except t) (next_ip t) (flexible_match_range t)
  (source_prefix_except t) (destination_prefix_except t) (inactive t)
  (encapsulate t) (port_mirror t) (destination_zone t) (source_zone t) (vpn t)
  (source_tag t) (destination_tag t) (priority t) (source_interface t)
  (destination_interface t) (platform t) (platform_exclude t)
  (target_resources t) (target_service_accounts t) (timeout t) v_flattened
  v_flattened_addr v_flattened_saddr v_flattened_daddr (stateless_reply t).

(** The term [t] with the attributes that [_TranslateTerms] assigns replaced. *)
Definition with_translation
    (v_address : list IPNet) (v_destination_address : list IPNet)
    (v_destination_address_exclude : list IPNet)
    (v_destination_port : list PortVal) (v_port : list PortVal)
    (v_source_address : list IPNet) (v_source_address_exclude : list IPNet)
    (v_source_port : list PortVal) (v_translated : bool) (t : Term) : Term :=
  mkTerm (name t) (action t) v_address (address_exclude t)
  (restrict_address_family t) (comment t) (counter t) (expiration t)
  v_destination_address v_destination_address_exclude v_destination_port
  (destination_prefix t) (filter_term t) (forwarding_class t)
  (forwarding_class_except t) (logging t) (log_limit t) (log_name t)
  (loss_priority t) (option_ t) (owner t) (policer t) v_port (precedence t)
  (protocol t) (protocol_except t) (qos t) (pan_application t)
  (routing_instance t) v_source_address v_source_address_exclude v_source_port
  (source_prefix t) (ttl t) (verbatim t) (packet_length t) (fragment_offset t)
  (hop_limit t) (icmp_type t) (icmp_code t) (ether_type t)
  (traffic_class_count t) (traffic_type t) v_translated (dscp_set t)
  (dscp_match t) (dscp_except t) (next_ip t) (flexible_match_range t)
  (source_prefix_except t) (destination_prefix_except t) (inactive t)
  (encapsulate t) (port_mirror t) (destination_zone t) (source_zone t) (vpn t)
  (source_tag t) (destination_tag t) (priority t) (source_interface t)
  (destination_interface t) (platform t) (platform_exclude t)
  (target_resources t) (target_service_accounts t) (timeout t) (flattened t)
  (flattened_addr t) (flattened_saddr t) (flattened_daddr t)
  (stateless_reply t).

(** [t'] is [t] except, at most, in the four [flattened*] attributes. *)
Definition cache_only (t t' : Term) : Prop :=
  t' = with_flatten_cache (flattened t') (flattened_addr t') (flattened_saddr t')
         (flattened_daddr t') t.

(** [t'] is [t] except, at most, in the address, exclude and port lists
    and the [translated] mark. *)
Definition translation_only (t t' : Term) : Prop :=
  t' = with_translation (address t') (destination_address t')
         (destination_address_exclude t') (destination_port t') (port t')
         (source_address t') (source_address_exclude t') (source_port t')
         (translated t') t.

(** A port list as [AddressCleanup] leaves it: the tuples of a collapsed
    list. *)
Definition collapsed_ports (l : list PortVal) : Prop :=
  exists ranges, l = map PRange (CollapsePortList ranges).

(* ================================================================== *)
(** * Building a policy (lines 188-212) *)
(* ================================================================== *)

Section PolicyConstruction.
Variable AddressListExclude : list IPNet -> list IPNet -> list IPNet.
Variable SortAddrList : list IPNet -> list IPNet.
Variable CollapseAddrListPreserveTokens : list IPNet -> list IPNet.
Variable CollapseAddrList : list IPNet -> option (list IPNet) -> list IPNet.
Variable GetServiceByProto : PortVal -> string -> Exc (list string).

(** The module flags [_PRESERVE_ORIGINAL], [_SHADE_CHECK] and [_OPTIMIZE],
    fixed for one parse. *)
Variables _PRESERVE_ORIGINAL _SHADE_CHECK _OPTIMIZE : bool.

(** [Policy.AddFilter] (lines 206-212).  The pair is appended first, so
    [_NeedsAddressBook] already sees the new header.  The filter holds the
    term objects themselves: what translation and the shading pass write to
    them is what the filter holds afterwards.  The result is the policy and
    the warnings that were logged; an exception leaves no result. *)
Definition AddFilter (heap : nat) (self : Policy) (header : Header.t)
    (terms : list Term) : Exc (Policy * list Warning) :=
  let appended := mkPolicy (filters self ++ [(header, terms)]) (filename self) in
  terms <- (if negb _PRESERVE_ORIGINAL
            then _TranslateTerms SortAddrList CollapseAddrListPreserveTokens
                   CollapseAddrList GetServiceByProto _OPTIMIZE appended terms
            else Return terms) ;;
  if _SHADE_CHECK then
    match _DetectShading AddressListExclude heap terms with
    | (Return _, (terms, log)) =>
        Return (mkPolicy (filters self ++ [(header, terms)]) (filename self), log)
    | (Raise e, _) => Raise e
    end
  else Return (mkPolicy (filters self ++ [(header, terms)]) (filename self), []).

(** [Policy.__init__] (lines 188-204). *)
Definition Policy_init (heap : nat) (header : Header.t) (terms : list Term)
    : Exc (Policy * list Warning) :=
  AddFilter heap (mkPolicy [] EmptyString) header terms.
End PolicyConstruction.

(* ================================================================== *)
(** * Further methods of [Header], [Target] and [Term] *)
(* ================================================================== *)

(** [l[i]]. *)
Definition getitem {A : Type} (l : list A) (i : nat) : Exc A :=
  match nth_error l i with
  | Some x => Return x
  | None => Raise IndexError
  end.

(** [Target.__init__] (lines 1756-1758), on the list the parser hands
    over: [target[0]] and [target[1:]]. *)
Definition Target_init (target : list string) : Exc Target.t :=
  platform <- getitem target 0 ;;
  Return (Target.mk platform (tl target)).

(** [Header.FilterName] (lines 1689-1711).  A target of the platform that
    has no option does not end the loop.  The options are strings, on which
    ['%s>%s' % (a, b)] is [a], [>] and [b] in a row. *)
Fixpoint FilterName_loop (targets : list Target.t) (platform : string)
    : Exc (option string) :=
  match targets with
  | [] => Return None
  | target :: rest =>
      if String.eqb (Target.platform target) platform then
        if nonempty (Target.options target) then
          if py_in String.eqb platform ["srx"; "paloalto"]%string then
            if (3 <=? List.length (Target.options target))%nat then
              a <- getitem (Target.options target) 1 ;;
              b <- getitem (Target.options target) 3 ;;
              Return (Some (a ++ ">" ++ b)%string)
            else Return None
          else
            x <- getitem (Target.options target) 0 ;;
            Return (Some x)
        else FilterName_loop rest platform
      else FilterName_loop rest platform
  end.

Definition FilterName (self : Header.t) (platform : string) : Exc (option string) :=
  FilterName_loop (Header.target self) platform.

(** [Term.GetAddressOfVersion] (lines 1066-1081).  [addr_type] names an
    address attribute; it is given here as the attribute's getter.  [af] is
    [None] or an integer, and zero is as good as [None] to [not af]. *)
Definition GetAddressOfVersion (self : Term) (addr_type : Term -> list IPNet)
    (af : option Z) : list IPNet :=
  match af with
  | None => addr_type self
  | Some af =>
      if af =? 0 then addr_type self
      else filter (fun x => version x =? af) (addr_type self)
  end.

(** [Term._SortAddressesByFamily] (lines 982-1001). *)
Definition _SortAddressesByFamily (self : Term) (addr_type : Term -> list IPNet)
    : list IPNet :=
  let sort_v4 := sorted addr_leb (GetAddressOfVersion self addr_type (Some 4)) in
  let sort_v6 := sorted addr_leb (GetAddressOfVersion self addr_type (Some 6)) in
  sort_v4 ++ sort_v6.

(** [Term.AddressesByteLength] (lines 1003-1025), with the class constants
    of lines 420-421. *)
Definition _IPV4_BYTE_SIZE : Z := 1.
Definition _IPV6_BYTE_SIZE : Z := 4.

Definition count_address (address_family : list Z) (counter : Z) (i : IPNet) : Z :=
  if (version i =? 6) && py_in Z.eqb (version i) address_family
  then counter + _IPV6_BYTE_SIZE
  else if (version i =? 4) && py_in Z.eqb (version i) address_family
  then counter + _IPV4_BYTE_SIZE
  else counter.

Definition AddressesByteLength (self : Term) (address_family : list Z) : Z :=
  let counter := 0 in
  let counter := fold_left (count_address address_family) (source_address self) counter in
  let counter := fold_left (count_address address_family) (destination_address self) counter in
  counter.

(* ================================================================== *)
(** * The text behind the lexer's events *)
(* ================================================================== *)

(** The characters an event stands for: the value of a token, or the
    character that [t_error] reported. *)
Definition event_text (ev : Lexer.LexEvent) : string :=
  match ev with
  | Lexer.Token tok => Lexer.value tok
  | Lexer.IllegalCharacter c _ => String c EmptyString
  end.

(** A text of characters of [t_ignore] only. *)
Fixpoint blank (s : string) : bool :=
  match s with
  | EmptyString => true
  | String c s' => Lexer.member c Lexer.t_ignore && blank s'
  end.

(** [s] from its first character that is not in [t_ignore]. *)
Fixpoint skip_blanks (s : string) : string :=
  match s with
  | EmptyString => EmptyString
  | String c s' => if Lexer.member c Lexer.t_ignore then skip_blanks s' else s
  end.

(** The events spell the text: behind blanks the text goes on with the
    characters of the first event, which are not none, and the rest of the
    text is spelled by the other events; when no event is left, the text
    holds blanks only. *)
Fixpoint spells (evs : list Lexer.LexEvent) (input : string) : bool :=
  match evs with
  | [] => blank input
  | ev :: evs' =>
      let s := skip_blanks input in
      negb (String.eqb (event_text ev) EmptyString)
      && String.prefix (event_text ev) s
      && spells evs' (Lexer.drop (String.length (event_text ev)) s)
  end.

(** A character that ends a [t_STRING] match: no word character and none
    of the joining characters of the rule. *)
Definition ends_word (c : ascii) : bool :=
  negb (Lexer.word c
        || Lexer.member c ["-"; "_"; "+"; "."; "@"; "/"]%char).

(** The last character of [s], or [prev] for the empty string. *)
Fixpoint last_char (prev : option ascii) (s : string) : option ascii :=
  match s with
  | EmptyString => prev
  | String c s' => last_char (Some c) s'
  end.

(** A rest of the text that ends a [t_STRING] match in front of it: the end
    of the text, or a character that ends a word. *)
Definition stops_word (rest : string) : bool :=
  match rest with
  | EmptyString => true
  | String c _ => ends_word c
  end.

(* ================================================================== *)
(** * tools/pol2yaml.py: classifying files and planning the run *)
(* ================================================================== *)

Module Pol2yaml.

(** The enumerations of lines 51-84 and 496-503.  [_Operation.REFORMAT] is
    [REFORMAT_YAML] here; [REFORMAT] is the member of [_FilePlan]. *)
Inductive _InputMode : Type := RECURSIVE | FILES.
Inductive _Operation : Type := CONVERT | REFORMAT_YAML.
Inductive _ConverterOutputMode : Type := NORMAL | FORCE.
Inductive _FilePlan : Type :=
| INPUT | OUTPUT | OUTPUT_MKDIR | OUTPUT_CONFLICT | OUTPUT_FORCE | REFORMAT.
Inductive FileType : Type := POL | INC | SVC | NET | YAML_POL | YAML_INC | YAML_DEF.

(** ** [classify_yaml_content] and [classify_file] (lines 506-545) *)

(** What [yaml.safe_load] hands over, as far as the classification looks at
    it: a dict, of which only the keys are read, or any other value. *)
Inductive YamlData : Type :=
| YamlDict (keys : list string)
| YamlOther.

(** [data.keys() == l] for a list [l].  The left side is a key view.  A key
    view is equal to another set-like object with the same elements; a list
    is none, neither operand knows the comparison, and Python falls back on
    identity: the result is [False] whatever the keys are. *)
Definition keys_eq_list (keys l : list string) : bool := false.

Definition classify_yaml_content (data : YamlData) : option FileType :=
  match data with
  | YamlOther => None
  | YamlDict keys =>
      if keys_eq_list keys ["filters"%string] then Some YAML_POL
      else if keys_eq_list keys ["terms"%string] then Some YAML_INC
      else if py_in String.eqb "networks"%string keys
              || py_in String.eqb "services"%string keys
      then Some YAML_DEF
      else None
  end.

(** Opening and loading the file: the loaded value, an [IOError], which
    [classify_file] catches, or an error of the YAML loader, which it does
    not. *)
Inductive Loading : Type :=
| Loaded (yaml_data : YamlData)
| IOError
| YAMLError.

(** What a call of [classify_file] ends in. *)
Inductive Classified : Type :=
| Returns (file_type : option FileType)
| RaisesYAMLError.

(** [classify_file], on the suffix of the path and on what reading the file
    would give. *)
Definition classify_file (suffix : string) (loading : Loading) : Classified :=
  if String.eqb suffix ".pol" then Returns (Some POL)
  else if String.eqb suffix ".inc" then Returns (Some INC)
  else if String.eqb suffix ".svc" then Returns (Some SVC)
  else if String.eqb suffix ".net" then Returns (Some NET)
  else if String.eqb suffix ".yaml" || String.eqb suffix ".yml" then
    match loading with
    | Loaded yaml_data => Returns (classify_yaml_content yaml_data)
    | IOError => Returns None
    | YAMLError => RaisesYAMLError
    end
  else Returns None.

(** ** [_get_file_plan] and [_get_output_target] (lines 348-493) *)

Section FilePlan.
(** Paths, [pathlib] and the file system are taken as they are: equality of
    paths, [suffix], [exists], [resolve], [with_suffix], [relative_to]
    (which raises [ValueError] for a path outside the directory), [parent],
    [joinpath], the files that [rglob('*')] finds, and [pathlib.Path] on a
    string. *)
Variable Path : Type.
Variable Path_eqb : Path -> Path -> bool.
Variable suffix : Path -> string.
Variable exists_ : Path -> bool.
Variable resolve : Path -> Path.
Variable with_suffix : Path -> string -> Path.
Variable relative_to : Path -> Path -> Exc Path.
Variable parent : Path -> Path.
Variable joinpath : Path -> Path -> Path.
Variable rglob : Path -> list Path.
Variable Path_of : string -> Path.

(** The two options the plan reads: [options['file']] and
    [options['output_directory']]. *)
Record Options : Type := mkOptions {
  file : list string;
  output_directory : option string
}.

(** A dict with paths as keys, in insertion order.  [d[k] = v] keeps the
    place and the key of an entry that is already there. *)
Definition Plan : Type := list (Path * _FilePlan).

Fixpoint dict_set (k : Path) (v : _FilePlan) (d : Plan) : Plan :=
  match d with
  | [] => [(k, v)]
  | (k', v') :: d' =>
      if Path_eqb k k' then (k', v) :: d' else (k', v') :: dict_set k v d'
  end.

Fixpoint dict_lookup (k : Path) (d : Plan) : option _FilePlan :=
  match d with
  | [] => None
  | (k', v') :: d' => if Path_eqb k k' then Some v' else dict_lookup k d'
  end.

(** [d.update(other)]. *)
Definition dict_update (d other : Plan) : Plan :=
  fold_left (fun d kv => dict_set (fst kv) (snd kv) d) other d.

(** [d.keys()]. *)
Definition keys (d : Plan) : list Path := map fst d.

(** A loop whose body may raise. *)
Fixpoint foldM {S I : Type} (body : S -> I -> Exc S) (items : list I) (s : S)
    : Exc S :=
  match items with
  | [] => Return s
  | i :: items' => s' <- body s i ;; foldM body items' s'
  end.

Definition target_suffixes (operation : _Operation) : list string :=
  match operation with
  | CONVERT => [".pol"; ".inc"; ".svc"; ".net"]%string
  | REFORMAT_YAML => [".yaml"; ".yml"]%string
  end.

(** The first part (lines 377-403): the input files.  The warnings about
    skipped files are left out. *)
Definition input_files (directory : Path) (input_mode : _InputMode)
    (operation : _Operation) (options : Options) : Plan :=
  match input_mode with
  | FILES =>
      fold_left
        (fun files file =>
           let file := Path_of file in
           if negb (py_in String.eqb (suffix file) (target_suffixes operation))
           then files
           else if negb (exists_ file) then files
           else let file := resolve file in dict_set file INPUT files)
        (file options) []
  | RECURSIVE =>
      fold_left
        (fun files file =>
           if negb (py_in String.eqb (suffix file) (target_suffixes operation))
           then files
           else dict_set file INPUT files)
        (rglob directory) []
  end.

(** The body of the loop for a separate output directory (lines 410-437). *)
Definition plan_in_output_directory (directory : Path) (input_mode : _InputMode)
    (operation : _Operation) (output_mode : _ConverterOutputMode)
    (options : Options) (output_files : Plan) (file : Path) : Exc Plan :=
  let file := match operation with
              | CONVERT => with_suffix file ".yaml"
              | REFORMAT_YAML => file
              end in
  file <- match input_mode with
          | FILES => relative_to file directory
          | RECURSIVE => relative_to file (parent directory)
          end ;;
  let file := resolve (joinpath (Path_of (str_of (output_directory options))) file) in
  if negb (exists_ (parent file)) then Return (dict_set file OUTPUT_MKDIR output_files)
  else
    match operation with
    | CONVERT =>
        if exists_ file then
          match output_mode with
          | FORCE => Return (dict_set file OUTPUT_FORCE output_files)
          | NORMAL => Return (dict_set file OUTPUT_CONFLICT output_files)
          end
        else Return (dict_set file OUTPUT output_files)
    | REFORMAT_YAML => Return (dict_set file OUTPUT output_files)
    end.

(** The body of the loop that converts in place (lines 446-458). *)
Definition plan_in_place (output_mode : _ConverterOutputMode) (output_files : Plan)
    (file : Path) : Plan :=
  let file := with_suffix file ".yaml" in
  if exists_ file then
    match output_mode with
    | FORCE => dict_set file OUTPUT_FORCE output_files
    | NORMAL => dict_set file OUTPUT_CONFLICT output_files
    end
  else dict_set file OUTPUT output_files.

(** The second part (lines 405-458): the output files. *)
Definition output_files (directory : Path) (input_mode : _InputMode)
    (operation : _Operation) (output_mode : _ConverterOutputMode)
    (options : Options) (files : Plan) : Exc Plan :=
  if truthy_str (output_directory options) then
    foldM (plan_in_output_directory directory input_mode operation output_mode options)
      (keys files) []
  else
    match operation with
    | REFORMAT_YAML =>
        Return (fold_left (fun output_files file => dict_set file REFORMAT output_files)
                  (keys files) [])
    | CONVERT => Return (fold_left (plan_in_place output_mode) (keys files) [])
    end.

Definition _get_file_plan (directory : Path) (input_mode : _InputMode)
    (operation : _Operation) (output_mode : _ConverterOutputMode)
    (options : Options) : Exc Plan :=
  let files := input_files directory input_mode operation options in
  output_files <- output_files directory input_mode operation output_mode options files ;;
  Return (dict_update files output_files).

Definition _get_output_target (directory input_file : Path) (input_mode : _InputMode)
    (operation : _Operation) (output_mode : _ConverterOutputMode)
    (options : Options) : Exc Path :=
  if truthy_str (output_directory options) then
    let input_file := match operation with
                      | CONVERT => with_suffix input_file ".yaml"
                      | REFORMAT_YAML => input_file
                      end in
    input_file <- match input_mode with
                  | FILES => relative_to input_file directory
                  | RECURSIVE => relative_to input_file (parent directory)
                  end ;;
    Return (resolve (joinpath (Path_of (str_of (output_directory options))) input_file))
  else
    match operation with
    | REFORMAT_YAML => Return input_file
    | CONVERT => Return (with_suffix input_file ".yaml")
    end.
End FilePlan.
End Pol2yaml.

(** A small file system for the samples: paths are strings, the directory
    holds [a.pol], [a.yaml] and [notes.txt], and every path is already
    resolved and relative. *)
Module PathSamples.
Definition suffix (p : string) : string :=
  if String.eqb p "a.pol" then ".pol"%string
  else if String.eqb p "a.yaml" then ".yaml"%string
  else EmptyString.
Definition exists_ (p : string) : bool :=
  String.eqb p "a.pol" || String.eqb p "a.yaml" || String.eqb p "notes.txt".
Definition resolve (p : string) : string := p.
Definition with_suffix (p s : string) : string :=
  if String.eqb p "a.pol" then ("a" ++ s)%string else p.
Definition relative_to (p d : string) : Exc string := Return p.
Definition parent (p : string) : string := "."%string.
Definition joinpath (a b : string) : string := b.
Definition rglob (d : string) : list string := ["a.pol"; "a.yaml"; "notes.txt"]%string.
Definition Path_of (s : string) : string := s.
Definition options : Pol2yaml.Options := Pol2yaml.mkOptions [] None.
End PathSamples.

(* ================================================================== *)
(** * Properties *)
(* ================================================================== *)

Section SortedFacts.
Context {A : Type} (leb : A -> A -> bool).

Lemma chain_tail (x : A) (l : list A) :
  chain leb (x :: l) = true -> chain leb l = true.
Proof.
  simpl. destruct l as [|y l']; [reflexivity|].
  intros H. apply andb_true_iff in H. exact (proj2 H).
Qed.

Lemma sorted_of_chain (l : list A) :
  chain leb l = true -> sorted leb l = l.
Proof.
  induction l as [|x l IH]; intros Hc; [reflexivity|].
  simpl. rewrite (IH (chain_tail _ _ Hc)).
  destruct l as [|y l']; [reflexivity|].
  simpl in Hc. apply andb_true_iff in Hc. destruct Hc as [Hxy _].
  simpl. now rewrite Hxy.
Qed.

Hypothesis leb_total : forall a b, leb a b = true \/ leb b a = true.

Lemma insert_sorted_chain (x : A) (l : list A) :
  chain leb l = true -> chain leb (insert_sorted leb x l) = true.
Proof.
  induction l as [|y l IH]; intros Hc; [reflexivity|].
  simpl. destruct (leb x y) eqn:Hxy.
  - simpl. rewrite Hxy. exact Hc.
  - assert (Hyx : leb y x = true) by (destruct (leb_total x y); congruence).
    specialize (IH (chain_tail _ _ Hc)).
    destruct l as [|z l'].
    + simpl. now rewrite Hyx.
    + simpl in Hc. apply andb_true_iff in Hc. destruct Hc as [Hyz Hc].
      simpl in IH |- *. destruct (leb x z); simpl.
      * rewrite Hyx. exact IH.
      * rewrite Hyz. exact IH.
Qed.

Lemma sorted_chain (l : list A) : chain leb (sorted leb l) = true.
Proof.
  induction l as [|x l IH]; [reflexivity|].
  simpl. now apply insert_sorted_chain.
Qed.

Lemma insert_sorted_In (x y : A) (l : list A) :
  In y (insert_sorted leb x l) <-> y = x \/ In y l.
Proof.
  induction l as [|z l IH]; simpl.
  - intuition congruence.
  - destruct (leb x z); simpl; rewrite ?IH; intuition congruence.
Qed.

Lemma sorted_In (y : A) (l : list A) : In y (sorted leb l) <-> In y l.
Proof.
  induction l as [|x l IH]; simpl; [tauto|].
  rewrite insert_sorted_In, IH. intuition congruence.
Qed.
End SortedFacts.

Section ChainFacts.
Context {A : Type}.

Lemma chain_impl (R R' : A -> A -> bool) (l : list A) :
  (forall a b, R a b = true -> R' a b = true) ->
  chain R l = true -> chain R' l = true.
Proof.
  intros HR. induction l as [|x l IH]; [reflexivity|].
  destruct l as [|y l']; [reflexivity|].
  intros H. change (R x y && chain R (y :: l') = true) in H.
  change (R' x y && chain R' (y :: l') = true).
  apply andb_true_iff in H. destruct H as [Hxy Hc].
  rewrite (HR _ _ Hxy). exact (IH Hc).
Qed.

Lemma chain_snoc (R : A -> A -> bool) (pre : list A) (l p : A) :
  chain R (pre ++ [l]) = true -> R l p = true ->
  chain R ((pre ++ [l]) ++ [p]) = true.
Proof.
  induction pre as [|x pre IH]; intros Hc Hlp.
  - simpl. now rewrite Hlp.
  - specialize (IH (chain_tail R _ _ Hc) Hlp).
    destruct pre as [|y pre'].
    + simpl in Hc |- *. apply andb_true_iff in Hc. destruct Hc as [Hxl _].
      now rewrite Hxl, Hlp.
    + change (R x y && chain R ((y :: pre') ++ [l]) = true) in Hc.
      change (R x y && chain R (((y :: pre') ++ [l]) ++ [p]) = true).
      apply andb_true_iff in Hc. destruct Hc as [Hxy _].
      now rewrite Hxy.
Qed.

Lemma chain_replace_last (R : A -> A -> bool) (pre : list A) (l l' : A) :
  (forall a, R a l = true -> R a l' = true) ->
  chain R (pre ++ [l]) = true -> chain R (pre ++ [l']) = true.
Proof.
  intros HR. induction pre as [|x pre IH]; intros Hc; [reflexivity|].
  specialize (IH (chain_tail R _ _ Hc)).
  destruct pre as [|y pre'].
  - simpl in Hc |- *. apply andb_true_iff in Hc. destruct Hc as [Hxl _].
    now rewrite (HR _ Hxl).
  - change (R x y && chain R ((y :: pre') ++ [l]) = true) in Hc.
    change (R x y && chain R ((y :: pre') ++ [l']) = true).
    apply andb_true_iff in Hc. destruct Hc as [Hxy _].
    now rewrite Hxy.
Qed.

Lemma chain_middle (R : A -> A -> bool) (pre suf : list A) (l p : A) :
  chain R (pre ++ l :: p :: suf) = true -> R l p = true.
Proof.
  induction pre as [|x pre IH]; intros Hc.
  - simpl in Hc. apply andb_true_iff in Hc. exact (proj1 Hc).
  - apply IH. exact (chain_tail R _ _ Hc).
Qed.

Lemma last_opt_nil : @last_opt A [] = None.
Proof. reflexivity. Qed.

Lemma last_opt_snoc (l : list A) (x : A) : last_opt (l ++ [x]) = Some x.
Proof. unfold last_opt. now rewrite rev_unit. Qed.

Lemma set_last_snoc (l : list A) (x v : A) : set_last (l ++ [x]) v = l ++ [v].
Proof. unfold set_last. now rewrite removelast_last. Qed.
End ChainFacts.

(** ** Port collapsing *)

Lemma port_leb_total (a b : PortRange) :
  port_leb a b = true \/ port_leb b a = true.
Proof.
  unfold port_leb, pair_leb.
  destruct (Z.ltb_spec (fst a) (fst b)); [now left|].
  destruct (Z.ltb_spec (fst b) (fst a)); [now right|].
  replace (fst a =? fst b) with true by (symmetry; apply Z.eqb_eq; lia).
  replace (fst b =? fst a) with true by (symmetry; apply Z.eqb_eq; lia).
  simpl. destruct (Z.leb_spec (snd a) (snd b)); [now left|].
  right. apply Z.leb_le. lia.
Qed.

Lemma port_leb_low (a b : PortRange) : port_leb a b = true -> fst a <= fst b.
Proof.
  unfold port_leb, pair_leb. intros H. apply orb_true_iff in H.
  destruct H as [H|H]; [apply Z.ltb_lt in H; lia|].
  apply andb_true_iff in H. destruct H as [H _]. apply Z.eqb_eq in H. lia.
Qed.

Lemma separated_port_leb (a b : PortRange) :
  separated a b = true -> port_leb a b = true.
Proof.
  unfold separated, port_leb, pair_leb. intros H.
  repeat (apply andb_true_iff in H; destruct H as [H ?]).
  apply Z.leb_le in H. apply Z.ltb_lt in H2.
  destruct (Z.ltb_spec (fst a) (fst b)); [reflexivity|].
  replace (fst a =? fst b) with true by (symmetry; apply Z.eqb_eq; lia).
  simpl. apply Z.leb_le. lia.
Qed.

Lemma chain_lows (p : PortRange) (l : list PortRange) :
  chain port_leb (p :: l) = true -> Forall (fun q => fst p <= fst q) l.
Proof.
  revert p. induction l as [|q l IH]; intros p Hc; [constructor|].
  change (port_leb p q && chain port_leb (q :: l) = true) in Hc.
  apply andb_true_iff in Hc. destruct Hc as [Hpq Hc].
  apply port_leb_low in Hpq. constructor; [exact Hpq|].
  eapply Forall_impl; [|exact (IH q Hc)]. simpl. intros; lia.
Qed.

Lemma collapse_step_nil (port : PortRange) : collapse_step [] port = [port].
Proof. reflexivity. Qed.

Lemma collapse_step_snoc (pre : list PortRange) (l port : PortRange) :
  collapse_step (pre ++ [l]) port =
    if snd l >=? snd port then pre ++ [l]
    else if (fst port <? snd l) && (snd l <? snd port)
         then pre ++ [(fst l, snd port)]
    else if snd l + 1 =? fst port then pre ++ [(fst l, snd port)]
    else (pre ++ [l]) ++ [port].
Proof.
  unfold collapse_step. rewrite last_opt_snoc, !set_last_snoc. reflexivity.
Qed.

Lemma collapse_loop_separated (ports ret : list PortRange) :
  chain port_leb ports = true ->
  chain separated ret = true ->
  (forall l, last_opt ret = Some l -> Forall (fun q => fst l <= fst q) ports) ->
  chain separated (fold_left collapse_step ports ret) = true.
Proof.
  revert ret. induction ports as [|p ports IH]; intros ret Hs Hc Hl; [exact Hc|].
  simpl. pose proof (chain_lows _ _ Hs) as Hp.
  pose proof (chain_tail _ _ _ Hs) as Hs'.
  destruct ret as [|r0 ret0] using rev_ind.
  - rewrite collapse_step_nil. apply IH; [exact Hs'|reflexivity|].
    intros l Hlast. injection Hlast as <-. exact Hp.
  - clear IHret0. specialize (Hl r0 (last_opt_snoc _ _)).
    inversion Hl as [|? ? Hr0p Hrest]; subst.
    rewrite collapse_step_snoc.
    destruct (Z.geb_spec (snd r0) (snd p)) as [Hge|Hlt].
    + apply IH; [exact Hs'|exact Hc|].
      intros l Hlast. rewrite last_opt_snoc in Hlast. injection Hlast as <-.
      exact Hrest.
    + assert (Hmerge : chain separated (ret0 ++ [(fst r0, snd p)]) = true).
      { eapply chain_replace_last; [|exact Hc].
        intros a. unfold separated. simpl.
        rewrite !andb_true_iff, !Z.leb_le, !Z.ltb_lt. intuition lia. }
      assert (Hlast' : forall l, last_opt (ret0 ++ [(fst r0, snd p)]) = Some l ->
                                 Forall (fun q => fst l <= fst q) ports).
      { intros l Hlast. rewrite last_opt_snoc in Hlast. injection Hlast as <-.
        exact Hrest. }
      destruct ((fst p <? snd r0) && (snd r0 <? snd p)) eqn:Hov;
        [now apply IH|].
      destruct (Z.eqb_spec (snd r0 + 1) (fst p)) as [Hadj|Hadj];
        [now apply IH|].
      apply IH; [exact Hs'| |].
      * apply chain_snoc; [exact Hc|].
        unfold separated.
        apply andb_false_iff in Hov.
        assert (snd r0 <= fst p).
        { destruct Hov as [H|H]; [apply Z.ltb_ge in H|apply Z.ltb_ge in H]; lia. }
        repeat (apply andb_true_iff; split);
          [apply Z.leb_le; lia|apply Z.ltb_lt; lia|apply Z.leb_le; lia|].
        apply negb_true_iff. apply Z.eqb_neq. exact Hadj.
      * intros l Hlast. rewrite last_opt_snoc in Hlast. injection Hlast as <-.
        exact Hp.
Qed.

Lemma CollapsePortList_separated (ports : list PortRange) :
  chain separated (CollapsePortList ports) = true.
Proof.
  unfold CollapsePortList. apply collapse_loop_separated.
  - apply sorted_chain. exact port_leb_total.
  - reflexivity.
  - intros l Hl. discriminate Hl.
Qed.

Lemma collapse_loop_fixed (suffix pre : list PortRange) :
  chain separated (pre ++ suffix) = true ->
  fold_left collapse_step suffix pre = pre ++ suffix.
Proof.
  revert pre. induction suffix as [|p suffix IH]; intros pre Hc.
  - now rewrite app_nil_r.
  - simpl.
    assert (Hstep : collapse_step pre p = pre ++ [p]).
    { destruct pre as [|l pre0] using rev_ind; [reflexivity|].
      rewrite <- app_assoc in Hc. simpl in Hc.
      pose proof (chain_middle _ _ _ _ _ Hc) as Hsep.
      rewrite collapse_step_snoc. unfold separated in Hsep.
      repeat (apply andb_true_iff in Hsep; destruct Hsep as [Hsep ?]).
      apply Z.leb_le in Hsep, H0. apply Z.ltb_lt in H1.
      apply negb_true_iff in H.
      destruct (Z.geb_spec (snd l) (snd p)); [lia|].
      replace (fst p <? snd l) with false by (symmetry; apply Z.ltb_ge; lia).
      simpl. now rewrite H. }
    rewrite Hstep, IH; rewrite <- app_assoc; [reflexivity|exact Hc].
Qed.

Lemma CollapsePortList_idempotent (ports : list PortRange) :
  CollapsePortList (CollapsePortList ports) = CollapsePortList ports.
Proof.
  pose proof (CollapsePortList_separated ports) as Hsep.
  unfold CollapsePortList at 1.
  rewrite sorted_of_chain.
  - now apply (collapse_loop_fixed _ []).
  - eapply chain_impl; [|exact Hsep]. exact separated_port_leb.
Qed.

(** ** Address containment *)

Lemma CheckAddressIsContained_unset (subset : option (list IPNet)) :
  CheckAddressIsContained None subset = true.
Proof. reflexivity. Qed.

Lemma addr_contained_iff (b : IPNet) (A : list IPNet) :
  addr_contained b A = true <-> exists a, In a A /\ subnet_of b a = true.
Proof. unfold addr_contained. apply existsb_exists. Qed.

(** C1, as the code has it: [CheckAddressIsContained(A, B)] is true exactly
    when the superset [A] is empty, or the subset [B] is not empty and every
    element of [B] is a sub-network of some element of [A].  An empty
    superset gives true for any subset, and an empty subset gives false for
    a superset that is not empty. *)
Theorem CheckAddressIsContained_iff (A B : list IPNet) :
  CheckAddressIsContained (Some A) (Some B) = true <->
  A = [] \/ (B <> [] /\ every_subnet_covered A B).
Proof.
  unfold CheckAddressIsContained, every_subnet_covered.
  destruct A as [|a A]; simpl.
  - split; [now left|reflexivity].
  - destruct B as [|b B]; simpl.
    + split; [discriminate|].
      intros [H|[H _]]; [discriminate|now elim H].
    + set (sup := a :: A). set (sub := b :: B).
      change (forallb (fun s => addr_contained s sup) sub = true <->
              sup = [] \/ (sub <> [] /\ forall x, In x sub ->
                                         exists y, In y sup /\ subnet_of x y = true)).
      rewrite forallb_forall. subst sup sub. split.
      * intros H. right. split; [discriminate|].
        intros x Hx. apply addr_contained_iff. now apply H.
      * intros [H|[_ H]]; [discriminate|].
        intros x Hx. apply addr_contained_iff. now apply H.
Qed.

(** C1, against the claim: with the superset [10.0.0.0/8] and an empty
    subset every element of the subset is covered, yet the result is false;
    and an empty superset gives true for a subset that is not empty. *)
Lemma CheckAddressIsContained_empty_operands :
  every_subnet_covered [Samples.net10] []
  /\ CheckAddressIsContained (Some [Samples.net10]) (Some []) = false
  /\ CheckAddressIsContained (Some []) (Some [Samples.net10]) = true.
Proof.
  split; [|split]; [|reflexivity|reflexivity].
  intros b Hb. destruct Hb.
Qed.

(** ** Identity comparison of sorted lists *)

Lemma new_object_fresh {A : Type} (heap : nat) (v w : A) :
  py_is (fst (new_object heap v)) (fst (new_object (snd (new_object heap v)) w)) = false.
Proof. unfold py_is, new_object. simpl. apply Nat.eqb_neq. lia. Qed.

Lemma sorted_is_not_always {A : Type} (leb : A -> A -> bool) (heap : nat) (a b : list A) :
  sorted_is_not leb heap a b = true.
Proof.
  unfold sorted_is_not. simpl. unfold py_is. simpl.
  apply negb_true_iff, Nat.eqb_neq. lia.
Qed.

(** C2, on the code: [ping] and [ping_again] carry the same icmp-type list,
    and the containment check answers [False], because
    [sorted(self.icmp_type) is not sorted(other.icmp_type)] compares two new
    list objects.  Without the icmp-type list the same two terms are in
    containment, so it is this field's check that fails. *)
Theorem contains_same_icmp_type_False
    (AddressListExclude : list IPNet -> list IPNet -> list IPNet) (heap : nat) :
  icmp_type Samples.ping = icmp_type Samples.ping_again
  /\ nonempty (icmp_type Samples.ping) = true
  /\ sorted_ne String.leb String.eqb (icmp_type Samples.ping)
       (icmp_type Samples.ping_again) = false
  /\ fst (fst (contains AddressListExclude heap Samples.ping Samples.ping_again))
     = Return false
  /\ fst (fst (contains AddressListExclude heap (set_icmp_type [] Samples.ping)
                 (set_icmp_type [] Samples.ping_again)))
     = Return true.
Proof.
  repeat split.
  unfold contains. simpl. unfold contains_flattened. simpl.
  now rewrite sorted_is_not_always.
Qed.

(** ** Port collapsing on a shared boundary *)

(** C4, on the code: [(10,20)] and [(20,30)] share port 20 and come back
    unmerged. *)
Theorem CollapsePortList_shared_boundary :
  CollapsePortList [(10, 20); (20, 30)] = [(10, 20); (20, 30)]
  /\ overlap (10, 20) (20, 30).
Proof.
  split; [reflexivity|].
  exists 20. simpl. lia.
Qed.

(** ** ICMP codes *)

(** C6, on the code: with [icmp-type:: echo-request] and [icmp-code:: 5] the
    lookup [ICMP_CODE[type_name]] has no entry, and the check ends in
    [KeyError]. *)
Theorem SanityCheck_echo_request_code :
  icmp_type Samples.ping_code5 = ["echo-request"%string]
  /\ icmp_code Samples.ping_code5 = [5]
  /\ dict_has ICMP_CODE "echo-request" = false
  /\ SanityCheck Samples.ping_code5 = Raise KeyError.
Proof. repeat split. Qed.

(** ** Frame of flattening and of the shading pass *)

Lemma flattening_only_refl (t : Term) : flattening_only t t.
Proof. destruct t. reflexivity. Qed.

Lemma flattening_only_trans (t u v : Term) :
  flattening_only t u -> flattening_only u v -> flattening_only t v.
Proof.
  unfold flattening_only. intros Hu Hv. rewrite Hv at 1. rewrite Hu at 1.
  reflexivity.
Qed.

Lemma flattening_only_excludes (t t' : Term) :
  flattening_only t t' -> no_excludes t' = no_excludes t.
Proof.
  intros H. unfold no_excludes.
  rewrite (f_equal source_address_exclude H), (f_equal destination_address_exclude H),
    (f_equal address_exclude H).
  reflexivity.
Qed.

Lemma flattening_only_name_action (t t' : Term) :
  flattening_only t t' -> name t' = name t /\ action t' = action t.
Proof.
  intros H. rewrite (f_equal name H), (f_equal action H). now split.
Qed.

Lemma flatten_frame_refl (t : Term) : flatten_frame t t.
Proof.
  split; [apply flattening_only_refl|]. intros _. repeat split.
Qed.

Lemma flatten_frame_trans (t u v : Term) :
  flatten_frame t u -> flatten_frame u v -> flatten_frame t v.
Proof.
  intros [Hu Ku] [Hv Kv]. split; [now apply flattening_only_trans with u|].
  intros Hne. specialize (Ku Hne).
  rewrite (flattening_only_excludes _ _ Hu) in Kv. specialize (Kv Hne).
  destruct Ku as (a & b & c), Kv as (a' & b' & c').
  repeat split; congruence.
Qed.

Section FrameOfShading.
Variable AddressListExclude : list IPNet -> list IPNet -> list IPNet.

Lemma FlattenAll_frame (mutate : bool) (t : Term) :
  flatten_frame t (FlattenAll AddressListExclude mutate t).
Proof.
  unfold flatten_frame, flattening_only, no_excludes, keeps_addresses, FlattenAll,
    nonempty.
  cbn.
  destruct (source_address_exclude t) eqn:E1;
    destruct (destination_address_exclude t) eqn:E2;
    destruct (address_exclude t) eqn:E3; destruct mutate; cbn;
    rewrite ?E1, ?E2, ?E3; cbn; rewrite ?E1, ?E2, ?E3; cbn;
    rewrite ?E1, ?E2, ?E3; cbn.
  all: split; [try reflexivity|].
  all: try (intros H; try discriminate H; repeat split).
  all: destruct t; reflexivity.
Qed.

Lemma contains_frame (heap : nat) (self other : Term) :
  flatten_frame self (snd (fst (contains AddressListExclude heap self other)))
  /\ flatten_frame other (snd (contains AddressListExclude heap self other)).
Proof.
  unfold contains.
  destruct (verbatim_differs self other); [split; apply flatten_frame_refl|].
  destruct (protocol_excludes self other); [split; apply flatten_frame_refl|].
  simpl. split.
  - destruct (flattened self); simpl;
      [apply flatten_frame_refl|apply FlattenAll_frame].
  - destruct (flattened other); simpl;
      [apply flatten_frame_refl|apply FlattenAll_frame].
Qed.

Lemma Forall2_nth_error_r {A B : Type} (R : A -> B -> Prop) (l0 : list A) (l : list B)
    (i : nat) (y : B) :
  Forall2 R l0 l -> nth_error l i = Some y ->
  exists x, nth_error l0 i = Some x /\ R x y.
Proof.
  intros H. revert i. induction H as [|x0 y0 l0 l Hxy _ IH]; intros i Hi.
  - destruct i; discriminate Hi.
  - destruct i as [|i]; simpl in Hi.
    + injection Hi as <-. now exists x0.
    + apply IH. exact Hi.
Qed.

Lemma Forall2_list_set {A B : Type} (R : A -> B -> Prop) (l0 : list A) (l : list B)
    (i : nat) (y : B) :
  Forall2 R l0 l -> (forall x, nth_error l0 i = Some x -> R x y) ->
  Forall2 R l0 (list_set l i y).
Proof.
  intros H. revert i. induction H as [|x0 y0 l0 l Hxy Hl IH]; intros i Hy.
  - constructor.
  - destruct i as [|i]; simpl.
    + constructor; [now apply Hy|exact Hl].
    + constructor; [exact Hxy|]. apply IH. exact Hy.
Qed.

Lemma for_each_invariant {S I : Type} (P : S -> Prop) (body : I -> S -> Exc unit * S)
    (items : list I) (s : S) :
  (forall i s, P s -> P (snd (body i s))) -> P s ->
  P (snd (for_each body items s)).
Proof.
  intros Hbody. revert s. induction items as [|i items IH]; intros s Hs; [exact Hs|].
  simpl. specialize (Hbody i s Hs).
  destruct (body i s) as [[u|e] s']; simpl in *; [now apply IH|exact Hbody].
Qed.

Lemma shade_pair_frame (terms0 : list Term) (heap index prior_index : nat)
    (st : ShadeState) :
  Forall2 flatten_frame terms0 (fst st) ->
  Forall2 flatten_frame terms0
    (fst (snd (shade_pair AddressListExclude heap index prior_index st))).
Proof.
  destruct st as [terms log]. simpl. intros H. unfold shade_pair.
  destruct (nth_error terms prior_index) as [prior|] eqn:Hp; [|exact H].
  destruct (nth_error terms index) as [term|] eqn:Ht; [|exact H].
  pose proof (contains_frame heap prior term) as [Fp Ft].
  destruct (contains AddressListExclude heap prior term) as [[r prior'] term'].
  simpl in Fp, Ft.
  assert (H' : Forall2 flatten_frame terms0
                 (list_set (list_set terms prior_index prior') index term')).
  { apply Forall2_list_set.
    - apply Forall2_list_set; [exact H|].
      intros x Hx. destruct (Forall2_nth_error_r _ _ _ _ _ H Hp) as (x' & Hx' & Rx).
      assert (x' = x) by congruence. subst x'.
      now apply flatten_frame_trans with prior.
    - intros x Hx. destruct (Forall2_nth_error_r _ _ _ _ _ H Ht) as (x' & Hx' & Rx).
      assert (x' = x) by congruence. subst x'.
      now apply flatten_frame_trans with term. }
  destruct r as [shaded|e]; [|exact H'].
  destruct (shaded && negb (py_in String.eqb "next"%string (action prior'))); exact H'.
Qed.

Lemma Forall2_flatten_frame_refl (terms : list Term) :
  Forall2 flatten_frame terms terms.
Proof. induction terms; constructor; [apply flatten_frame_refl|assumption]. Qed.
End FrameOfShading.

Section KeptOrFlattened.
Variable AddressListExclude : list IPNet -> list IPNet -> list IPNet.

Lemma FlattenAll_flattened (mutate : bool) (t : Term) :
  flattened (FlattenAll AddressListExclude mutate t) = true.
Proof.
  unfold FlattenAll, nonempty. cbn.
  destruct (source_address_exclude t) eqn:E1;
    destruct (destination_address_exclude t) eqn:E2;
    destruct (address_exclude t) eqn:E3; destruct mutate; cbn;
    rewrite ?E1, ?E2, ?E3; cbn; rewrite ?E1, ?E2, ?E3; cbn;
    rewrite ?E1, ?E2, ?E3; cbn; reflexivity.
Qed.

Lemma kept_or_flattened_refl (t : Term) : kept_or_flattened AddressListExclude t t.
Proof. left. reflexivity. Qed.

Lemma kept_or_flattened_step (t0 t t' : Term) :
  kept_or_flattened AddressListExclude t0 t ->
  kept_or_flattened AddressListExclude t t' ->
  kept_or_flattened AddressListExclude t0 t'.
Proof.
  intros [->|[H0 ->]] H; [exact H|].
  destruct H as [->|[H _]]; [right; split; [exact H0|reflexivity]|].
  rewrite FlattenAll_flattened in H. discriminate H.
Qed.

Lemma contains_kept_or_flattened (heap : nat) (self other : Term) :
  kept_or_flattened AddressListExclude self
    (snd (fst (contains AddressListExclude heap self other)))
  /\ kept_or_flattened AddressListExclude other
       (snd (contains AddressListExclude heap self other)).
Proof.
  unfold contains.
  destruct (verbatim_differs self other); [split; apply kept_or_flattened_refl|].
  destruct (protocol_excludes self other); [split; apply kept_or_flattened_refl|].
  simpl. split.
  - destruct (flattened self) eqn:E; simpl; [now left|right; now split].
  - destruct (flattened other) eqn:E; simpl; [now left|right; now split].
Qed.

Lemma shade_pair_kept_or_flattened (terms0 : list Term) (heap index prior_index : nat)
    (st : ShadeState) :
  Forall2 (kept_or_flattened AddressListExclude) terms0 (fst st) ->
  Forall2 (kept_or_flattened AddressListExclude) terms0
    (fst (snd (shade_pair AddressListExclude heap index prior_index st))).
Proof.
  destruct st as [terms log]. simpl. intros H. unfold shade_pair.
  destruct (nth_error terms prior_index) as [prior|] eqn:Hp; [|exact H].
  destruct (nth_error terms index) as [term|] eqn:Ht; [|exact H].
  pose proof (contains_kept_or_flattened heap prior term) as [Kp Kt].
  destruct (contains AddressListExclude heap prior term) as [[r prior'] term'].
  simpl in Kp, Kt.
  assert (H' : Forall2 (kept_or_flattened AddressListExclude) terms0
                 (list_set (list_set terms prior_index prior') index term')).
  { apply Forall2_list_set.
    - apply Forall2_list_set; [exact H|].
      intros x Hx. destruct (Forall2_nth_error_r _ _ _ _ _ H Hp) as (x' & Hx' & Rx).
      assert (x' = x) by congruence. subst x'.
      now apply kept_or_flattened_step with prior.
    - intros x Hx. destruct (Forall2_nth_error_r _ _ _ _ _ H Ht) as (x' & Hx' & Rx).
      assert (x' = x) by congruence. subst x'.
      now apply kept_or_flattened_step with term. }
  destruct r as [shaded|e]; [|exact H'].
  destruct (shaded && negb (py_in String.eqb "next"%string (action prior'))); exact H'.
Qed.

Lemma Forall2_kept_or_flattened_refl (terms : list Term) :
  Forall2 (kept_or_flattened AddressListExclude) terms terms.
Proof. induction terms; constructor; [apply kept_or_flattened_refl|assumption]. Qed.

Lemma terms_after_kept_or_flattened (heap : nat) (terms : list Term) :
  Forall2 (kept_or_flattened AddressListExclude) terms
    (terms_after AddressListExclude heap terms).
Proof.
  unfold terms_after, _DetectShading.
  apply (for_each_invariant
           (fun st : ShadeState =>
              Forall2 (kept_or_flattened AddressListExclude) terms (fst st))).
  - intros index st Hst.
    apply (for_each_invariant
             (fun st : ShadeState =>
                Forall2 (kept_or_flattened AddressListExclude) terms (fst st)));
      [|exact Hst].
    intros prior_index st' Hst'. now apply shade_pair_kept_or_flattened.
  - apply Forall2_kept_or_flattened_refl.
Qed.
End KeptOrFlattened.

Lemma Forall2_conj {A B : Type} (P Q : A -> B -> Prop) (l : list A) (l' : list B) :
  Forall2 P l l' -> Forall2 Q l l' -> Forall2 (fun x y => P x y /\ Q x y) l l'.
Proof.
  intros H. induction H as [|x y l l' Hxy _ IH]; intros HQ.
  - constructor.
  - inversion HQ; subst. constructor; [split; assumption|now apply IH].
Qed.

(** C3, as the code has it: a shading pass keeps the list of terms in
    place and leaves each term either as it was or, when the term was not
    flattened before, as the call [FlattenAll()] of [Term.__contains__]
    leaves it.  So in each term it writes nothing but the fields
    [flattened], [flattened_addr], [flattened_saddr], [flattened_daddr],
    [address], [source_address] and [destination_address], and a term that
    has no exclude list keeps its three address fields as well.  Everything
    else it does is logging. *)
Theorem DetectShading_frame
    (AddressListExclude : list IPNet -> list IPNet -> list IPNet)
    (heap : nat) (terms : list Term) :
  Forall2 (fun t t' => kept_or_flattened AddressListExclude t t'
                       /\ flatten_frame t t')
    terms (terms_after AddressListExclude heap terms).
Proof.
  apply Forall2_conj; [apply terms_after_kept_or_flattened|].
  unfold terms_after, _DetectShading.
  apply (for_each_invariant
           (fun st : ShadeState => Forall2 flatten_frame terms (fst st))).
  - intros index st Hst.
    apply (for_each_invariant
             (fun st : ShadeState => Forall2 flatten_frame terms (fst st)));
      [|exact Hst].
    intros prior_index st' Hst'. now apply shade_pair_frame.
  - apply Forall2_flatten_frame_refl.
Qed.

(** C3, against the claim: the pass over [carve] and [inner] replaces the
    address list of [carve], which has an address-exclude list, by its
    flattened form, and marks both terms as flattened. *)
Lemma DetectShading_rewrites_address :
  map address [Samples.carve; Samples.inner]
  = [[Samples.net10; Samples.net192]; [Samples.net10_low]]
  /\ map address (terms_after AddressListExclude_model 0 [Samples.carve; Samples.inner])
     = [[Samples.net10]; [Samples.net10_low]]
  /\ map flattened [Samples.carve; Samples.inner] = [false; false]
  /\ map flattened (terms_after AddressListExclude_model 0 [Samples.carve; Samples.inner])
     = [true; true].
Proof. repeat split; vm_compute; reflexivity. Qed.

(** ** Shading of a pair *)

(** C5: over the list [[A; B]] the pass logs at most the one warning that
    [B] is shaded by [A], and it logs it exactly when [B in A] is true and
    ['next'] is not among the actions of [A]. *)
Theorem DetectShading_pair
    (AddressListExclude : list IPNet -> list IPNet -> list IPNet)
    (heap : nat) (A B : Term) :
  let shaded := warnings_of AddressListExclude heap [A; B] in
  (shaded = [(name B, name A)] \/ shaded = [])
  /\ (shaded = [(name B, name A)] <->
      fst (fst (contains AddressListExclude heap A B)) = Return true
      /\ py_in String.eqb "next"%string (action A) = false).
Proof.
  unfold warnings_of, _DetectShading. simpl. unfold shade_pair. simpl.
  pose proof (contains_frame AddressListExclude heap A B) as [FA FB].
  destruct (contains AddressListExclude heap A B) as [[r A'] B'].
  simpl in FA, FB |- *.
  destruct (flattening_only_name_action _ _ (proj1 FA)) as [HnA HaA].
  destruct (flattening_only_name_action _ _ (proj1 FB)) as [HnB _].
  rewrite HaA, HnA, HnB.
  destruct r as [[|]|e]; simpl.
  - destruct (py_in String.eqb "next"%string (action A)); simpl.
    + split; [now right|]. split; [discriminate|]. intros [_ H]. discriminate H.
    + split; [now left|]. split; [now split|reflexivity].
  - split; [now right|]. split; [discriminate|]. intros [H _]. discriminate H.
  - split; [now right|]. split; [discriminate|]. intros [H _]. discriminate H.
Qed.

(** ** The port and protocol rule of [SanityCheck] *)

Lemma no_port_rule_error_bind {A B : Type} (m : Exc A) (k : A -> Exc B) :
  no_port_rule_error m -> (forall a, no_port_rule_error (k a)) ->
  no_port_rule_error (bind m k).
Proof. destruct m; simpl; auto. Qed.

Lemma raise_when_no_port_rule_error (c : bool) (e : PyError) :
  port_rule_error e = false -> no_port_rule_error (raise_when c e).
Proof. intros H. unfold raise_when. destruct c; simpl; auto. Qed.

Lemma dict_get_no_port_rule_error {V : Type} (d : list (string * V)) (k : string) :
  no_port_rule_error (dict_get d k).
Proof.
  induction d as [|[k' v] d IH]; simpl; [reflexivity|].
  destruct (String.eqb k k'); simpl; auto.
Qed.

Lemma py_int_no_port_rule_error (s : string) : no_port_rule_error (py_int s).
Proof.
  unfold py_int. destruct s as [|c s']; [reflexivity|].
  destruct (NilZero.uint_of_string (String c s')); simpl; auto.
Qed.

Lemma check_icmp_code_no_port_rule_error (t : Term) :
  no_port_rule_error (check_icmp_code t).
Proof.
  unfold check_icmp_code. destruct (nonempty (icmp_code t)); [|exact I].
  apply no_port_rule_error_bind; [now apply raise_when_no_port_rule_error|].
  intros _. apply no_port_rule_error_bind.
  { destruct (icmp_type t); simpl; auto. }
  intros type_name. apply no_port_rule_error_bind.
  - generalize (@nil Z) as bad. induction (icmp_code t) as [|code rest IH]; intros bad.
    + exact I.
    + change (no_port_rule_error
                (valid <- dict_get ICMP_CODE type_name ;;
                 if negb (py_in Z.eqb code valid)
                 then collect_bad_codes type_name rest (bad ++ [code])
                 else collect_bad_codes type_name rest bad)).
      apply no_port_rule_error_bind; [apply dict_get_no_port_rule_error|].
      intros valid. destruct (negb (py_in Z.eqb code valid)); apply IH.
  - intros bad. now apply raise_when_no_port_rule_error.
Qed.

Lemma check_numeric_protocols_no_port_rule_error (l : list string) :
  no_port_rule_error (check_numeric_protocols l).
Proof.
  induction l as [|p l IH]; [exact I|]. simpl.
  apply no_port_rule_error_bind; [|intros _; exact IH].
  destruct (isnumeric p); [|exact I].
  apply no_port_rule_error_bind; [apply py_int_no_port_rule_error|].
  intros n. now apply raise_when_no_port_rule_error.
Qed.

Lemma check_ttl_no_port_rule_error (t : Term) : no_port_rule_error (check_ttl t).
Proof.
  unfold check_ttl. destruct (ttl t); [|exact I].
  now apply raise_when_no_port_rule_error.
Qed.

Lemma filter_negb_nil {A : Type} (f : A -> bool) (l : list A) :
  forallb f l = true -> filter (fun p => negb (f p)) l = [].
Proof.
  induction l as [|p l IH]; [reflexivity|]. simpl. intros H.
  apply andb_true_iff in H. destruct H as [Hp Hl].
  rewrite Hp. simpl. now apply IH.
Qed.

Lemma filter_negb_nonempty {A : Type} (f : A -> bool) (l : list A) :
  existsb (fun p => negb (f p)) l = true ->
  nonempty (filter (fun p => negb (f p)) l) = true.
Proof.
  induction l as [|p l IH]; [discriminate|]. simpl.
  destruct (f p); simpl; [exact IH|reflexivity].
Qed.

Lemma filter_not_port_bearing_nil (l : list string) :
  forallb port_bearing l = true ->
  filter (fun p => negb (py_in String.eqb p PROTOS_WITH_PORTS)) l = [].
Proof. apply (filter_negb_nil port_bearing). Qed.

Lemma filter_not_port_bearing_nonempty (l : list string) :
  existsb (fun p => negb (port_bearing p)) l = true ->
  nonempty (filter (fun p => negb (py_in String.eqb p PROTOS_WITH_PORTS)) l) = true.
Proof. apply (filter_negb_nonempty port_bearing). Qed.

Lemma py_in_filter (f : string -> bool) (p : string) (l : list string) :
  py_in String.eqb p (filter f l) = py_in String.eqb p l && f p.
Proof.
  induction l as [|q l IH]; [reflexivity|]. simpl.
  destruct (String.eqb_spec p q) as [->|Hpq].
  - destruct (f q) eqn:Hf; simpl.
    + rewrite String.eqb_refl. reflexivity.
    + rewrite IH, ?Hf. now rewrite !andb_false_r.
  - destruct (f q); simpl; [|exact IH].
    apply String.eqb_neq in Hpq. now rewrite Hpq.
Qed.

Lemma py_in_self (p : string) (l : list string) : In p l -> py_in String.eqb p l = true.
Proof.
  induction l as [|q l IH]; [intros []|]. intros [->|H]; simpl.
  - now rewrite String.eqb_refl.
  - rewrite (IH H). apply orb_true_r.
Qed.

(** The protocols left after the ones without ports are taken away. *)
Lemma remaining_nonempty (f : string -> bool) (l : list string) :
  nonempty (filter (fun p => negb (py_in String.eqb p (filter (fun p => negb (f p)) l))) l)
  = existsb f l.
Proof.
  set (no_ports := filter (fun p => negb (f p)) l).
  assert (H : forall l', (forall p, In p l' -> In p l) ->
            nonempty (filter (fun p => negb (py_in String.eqb p no_ports)) l')
            = existsb f l').
  { induction l' as [|p l' IH]; intros Hsub; [reflexivity|]. simpl.
    unfold no_ports at 1. rewrite py_in_filter.
    rewrite (py_in_self p l) by (apply Hsub; now left). simpl.
    rewrite negb_involutive.
    destruct (f p); [reflexivity|].
    apply IH. intros q Hq. apply Hsub. now right. }
  apply H. auto.
Qed.

Lemma remaining_protocols (l : list string) :
  nonempty (filter (fun p => negb (py_in String.eqb p
                               (filter (fun p => negb (py_in String.eqb p PROTOS_WITH_PORTS)) l)))
              l)
  = existsb port_bearing l.
Proof. apply (remaining_nonempty port_bearing). Qed.

Lemma reaches_port_rule_checks (t : Term) :
  reaches_port_rule t = true ->
  check_verbatim_action_ports t =
    (let protos_no_ports :=
       filter (fun p => negb (py_in String.eqb p PROTOS_WITH_PORTS)) (protocol t) in
     if nonempty protos_no_ports && declares_ports t
     then if nonempty (filter (fun p => negb (py_in String.eqb p protos_no_ports))
                         (protocol t))
          then Raise MixedPortandNonPortProtos
          else Raise TermPortProtocolError
     else Return tt).
Proof.
  unfold reaches_port_rule, check_verbatim_action_ports, declares_ports, nonempty.
  intros H. apply andb_true_iff in H. destruct H as [H H3].
  apply andb_true_iff in H. destruct H as [H1 H2].
  rewrite H1. simpl.
  apply negb_true_iff in H2. rewrite H2.
  apply negb_true_iff in H3. unfold nonempty in H3. rewrite H3.
  reflexivity.
Qed.

(** C7, as the code has it.  For a term that gets as far as the rule (no
    verbatim content, an action of some kind, not both filter-term and
    action), that declares a port attribute and has a protocol outside
    tcp, udp, udplite and sctp: [SanityCheck] raises
    [MixedPortandNonPortProtos] when a port-bearing protocol is present as
    well, and [TermPortProtocolError] when none is.  For any term whose
    protocols are all port-bearing, or that has none, [SanityCheck] raises
    neither of the two. *)
Theorem SanityCheck_port_rule (t : Term) :
  (reaches_port_rule t = true -> declares_ports t = true ->
   existsb (fun p => negb (port_bearing p)) (protocol t) = true ->
   SanityCheck t =
     if existsb port_bearing (protocol t)
     then Raise MixedPortandNonPortProtos
     else Raise TermPortProtocolError)
  /\ (forallb port_bearing (protocol t) = true ->
      SanityCheck t <> Raise MixedPortandNonPortProtos
      /\ SanityCheck t <> Raise TermPortProtocolError).
Proof.
  split.
  - intros Hr Hd Hn. unfold SanityCheck.
    rewrite (reaches_port_rule_checks t Hr). cbv zeta.
    rewrite (filter_not_port_bearing_nonempty _ Hn), Hd, remaining_protocols. simpl.
    destruct (existsb port_bearing (protocol t)); reflexivity.
  - intros Hall.
    assert (H : no_port_rule_error (SanityCheck t)).
    { unfold SanityCheck.
      apply no_port_rule_error_bind.
      { unfold check_verbatim_action_ports.
        destruct (nonempty (verbatim t));
          [now apply raise_when_no_port_rule_error|].
        apply no_port_rule_error_bind; [now apply raise_when_no_port_rule_error|].
        intros _.
        apply no_port_rule_error_bind; [now apply raise_when_no_port_rule_error|].
        intros _. cbv zeta. rewrite (filter_not_port_bearing_nil _ Hall). exact I. }
      intros _. apply no_port_rule_error_bind.
      { now apply raise_when_no_port_rule_error. }
      intros _. apply no_port_rule_error_bind.
      { apply check_icmp_code_no_port_rule_error. }
      intros _. apply no_port_rule_error_bind.
      { now apply raise_when_no_port_rule_error. }
      intros _. apply no_port_rule_error_bind.
      { apply check_ttl_no_port_rule_error. }
      intros _. apply check_numeric_protocols_no_port_rule_error. }
    split; intros E; rewrite E in H; discriminate H.
Qed.

(** The rule at [tcp, icmp], at [icmp] and at [tcp], each with a port and
    an action. *)
Lemma SanityCheck_port_rule_witness :
  SanityCheck Samples.mixed_port = Raise MixedPortandNonPortProtos
  /\ SanityCheck Samples.icmp_port = Raise TermPortProtocolError
  /\ SanityCheck Samples.tcp_port <> Raise MixedPortandNonPortProtos
  /\ SanityCheck Samples.tcp_port <> Raise TermPortProtocolError.
Proof.
  split; [|split].
  - exact (proj1 (SanityCheck_port_rule Samples.mixed_port)
             eq_refl eq_refl eq_refl).
  - exact (proj1 (SanityCheck_port_rule Samples.icmp_port)
             eq_refl eq_refl eq_refl).
  - exact (proj2 (SanityCheck_port_rule Samples.tcp_port) eq_refl).
Defined.

(** C7, against the claim: a term with [protocol:: icmp] and a port but no
    action declares a port and has a protocol outside the port-bearing
    ones, and [SanityCheck] ends in [TermNoActionError]. *)
Lemma SanityCheck_port_rule_not_reached :
  declares_ports Samples.icmp_port_no_action = true
  /\ protocol Samples.icmp_port_no_action = ["icmp"%string]
  /\ port_bearing "icmp" = false
  /\ SanityCheck Samples.icmp_port_no_action = Raise TermNoActionError.
Proof. repeat split. Qed.

(** ** The lexer on characters it does not recognize *)

Lemma scan_returns (input : string) :
  forall prev inside lineno, exists evs, Lexer.scan input prev inside lineno = Return evs.
Proof.
  induction input as [|c rest IH]; intros prev inside lineno.
  - now exists [].
  - cbn [Lexer.scan]. destruct inside as [|k]; [|apply IH].
    destruct (Lexer.member c Lexer.t_ignore); [apply IH|].
    destruct (Lexer.first_match (Lexer.rules prev) (String c rest)) as [[r n]|].
    + destruct (Lexer.rule_action r (substring 0 n (String c rest)) lineno)
        as [tok lineno'].
      destruct (IH (Some c) (Nat.pred n) lineno') as [evs ->].
      cbn [bind]. eauto.
    + destruct (Lexer.member c Lexer.literals).
      * destruct (IH (Some c) 0%nat lineno) as [evs ->]. cbn [bind]. eauto.
      * cbn [Lexer.t_error].
        destruct (IH (Some c) 0%nat lineno) as [evs ->]. cbn [bind]. eauto.
Qed.

(** C8, as the code has it.  Tokenizing never fails.  At a character that
    is not ignored, that no rule matches and that is no literal, the lexer
    prints the character with the current line number, skips that one
    character, and goes on with the rest of the text. *)
Theorem scan_skips_unrecognized :
  (forall input, exists evs, Lexer.tokenize input = Return evs)
  /\ (forall prev c rest lineno,
        Lexer.unrecognized prev (String c rest) = true ->
        exists evs,
          Lexer.scan rest (Some c) 0 lineno = Return evs
          /\ Lexer.scan (String c rest) prev 0 lineno
             = Return (Lexer.IllegalCharacter c lineno :: evs)).
Proof.
  split.
  - intros input. apply scan_returns.
  - intros prev c rest lineno H.
    destruct (scan_returns rest (Some c) 0%nat lineno) as [evs Hevs].
    exists evs. split; [exact Hevs|].
    unfold Lexer.unrecognized in H.
    apply andb_true_iff in H. destruct H as [H Hlit].
    apply andb_true_iff in H. destruct H as [Hign Hrule].
    apply negb_true_iff in Hign, Hlit.
    cbn [Lexer.scan]. rewrite Hign.
    destruct (Lexer.first_match (Lexer.rules prev) (String c rest)); [discriminate|].
    rewrite Hlit. cbn [Lexer.t_error]. rewrite Hevs. reflexivity.
Qed.

(** The scan at the dollar sign of the text [$ x]. *)
Lemma scan_skips_unrecognized_witness :
  exists evs,
    Lexer.scan " x"%string (Some "$"%char) 0 1 = Return evs
    /\ Lexer.scan "$ x"%string None 0 1 = Return (Lexer.IllegalCharacter "$" 1 :: evs).
Proof.
  exact (proj2 scan_skips_unrecognized None "$"%char " x"%string 1%nat eq_refl).
Defined.

(** C8, against the claim: the text [term $ x] holds a character the lexer
    does not recognize, and tokenizing it succeeds; the character is
    reported for line 1 and the token after it is still produced. *)
Lemma tokenize_goes_on_after_illegal_character :
  Lexer.unrecognized (Some " "%char) "$ x"%string = true
  /\ Lexer.tokenize "term $ x"%string
     = Return [Lexer.Token (Lexer.mkLexToken "TERM"%string "term"%string 1);
               Lexer.IllegalCharacter "$" 1;
               Lexer.Token (Lexer.mkLexToken "STRING"%string "x"%string 1)].
Proof. split; reflexivity. Qed.

(** ** Idempotence of normalization *)

Lemma mapM_fixed {A : Type} (f : A -> Exc A) (l : list A) :
  (forall x, In x l -> f x = Return x) -> mapM f l = Return l.
Proof.
  induction l as [|x l IH]; intros H; [reflexivity|].
  simpl. rewrite (H x (or_introl eq_refl)). simpl.
  rewrite IH; [reflexivity|]. intros y Hy. apply H. now right.
Qed.

Section TranslatedTerms.
Variable SortAddrList : list IPNet -> list IPNet.
Variable CollapseAddrListPreserveTokens : list IPNet -> list IPNet.
Variable CollapseAddrList : list IPNet -> option (list IPNet) -> list IPNet.
Variable GetServiceByProto : PortVal -> string -> Exc (list string).

Lemma translate_term_translated (optimize : bool) (self : Policy) (term : Term) :
  translated term = true ->
  translate_term SortAddrList CollapseAddrListPreserveTokens CollapseAddrList
    GetServiceByProto optimize self term = Return term.
Proof. intros H. unfold translate_term. now rewrite H. Qed.

Lemma TranslateTerms_translated (optimize : bool) (self : Policy) (terms : list Term) :
  terms <> [] -> forallb translated terms = true ->
  _TranslateTerms SortAddrList CollapseAddrListPreserveTokens CollapseAddrList
    GetServiceByProto optimize self terms = Return terms.
Proof.
  intros Hne Hall. unfold _TranslateTerms.
  destruct terms as [|t terms]; [now elim Hne|].
  cbn [is_empty]. apply mapM_fixed. intros x Hx.
  apply translate_term_translated.
  rewrite forallb_forall in Hall. now apply Hall.
Qed.
End TranslatedTerms.

(** C9: [CollapsePortList] returns its own output unchanged, and
    [_TranslateTerms] passes over a term that is marked translated: a list
    of such terms comes back as it is, with every address and port field
    untouched. *)
Theorem normalization_idempotent :
  (forall ports, CollapsePortList (CollapsePortList ports) = CollapsePortList ports)
  /\ (forall SortAddrList CollapseAddrListPreserveTokens CollapseAddrList
        GetServiceByProto optimize self term,
        translated term = true ->
        translate_term SortAddrList CollapseAddrListPreserveTokens CollapseAddrList
          GetServiceByProto optimize self term = Return term)
  /\ (forall SortAddrList CollapseAddrListPreserveTokens CollapseAddrList
        GetServiceByProto optimize self terms,
        terms <> [] -> forallb translated terms = true ->
        _TranslateTerms SortAddrList CollapseAddrListPreserveTokens CollapseAddrList
          GetServiceByProto optimize self terms = Return terms).
Proof.
  split; [exact CollapsePortList_idempotent|].
  split; [exact translate_term_translated|exact TranslateTerms_translated].
Qed.

(** Three ranges collapsed twice, and a policy whose one term is marked
    translated. *)
Lemma normalization_idempotent_witness :
  CollapsePortList (CollapsePortList [(80, 80); (10, 20); (15, 30)])
  = CollapsePortList [(80, 80); (10, 20); (15, 30)]
  /\ _TranslateTerms Samples.keep Samples.keep Samples.keep2 Samples.no_service true
       Samples.policy [Samples.done] = Return [Samples.done].
Proof.
  split.
  - exact (proj1 normalization_idempotent [(80, 80); (10, 20); (15, 30)]).
  - apply (proj2 (proj2 normalization_idempotent)); [discriminate|reflexivity].
Defined.

(** ** What [Term.__eq__] reads *)

Lemma same_compared_refl (t : Term) : same_compared t t.
Proof. destruct t. reflexivity. Qed.

Lemma Term_eq_same_compared (s s' o o' : Term) :
  same_compared s s' -> same_compared o o' -> Term_eq s' o' = Term_eq s o.
Proof.
  unfold same_compared. intros Hs Ho. rewrite Hs, Ho. reflexivity.
Qed.

Lemma list_eqb_refl {A : Type} (eqb : A -> A -> bool) (l : list A) :
  (forall x, eqb x x = true) -> list_eqb eqb l l = true.
Proof.
  intros H. induction l as [|x l IH]; [reflexivity|]. simpl. now rewrite H, IH.
Qed.

Lemma sorted_ne_refl {A : Type} (leb eqb : A -> A -> bool) (l : list A) :
  (forall x, eqb x x = true) -> sorted_ne leb eqb l l = false.
Proof. intros H. unfold sorted_ne. now rewrite list_eqb_refl. Qed.

Lemma addr_eqb_refl (a : IPNet) : addr_eqb a a = true.
Proof. unfold addr_eqb. now rewrite !Z.eqb_refl. Qed.

Lemma str_pair_eqb_refl (a : string * string) : str_pair_eqb a a = true.
Proof. unfold str_pair_eqb. now rewrite !String.eqb_refl. Qed.

Lemma portval_eqb_refl (a : PortVal) : portval_eqb a a = true.
Proof.
  destruct a as [s|r]; simpl; [apply String.eqb_refl|].
  unfold port_eqb. now rewrite !Z.eqb_refl.
Qed.

Lemma VarType_eqb_refl (a : VarType) : VarType_eqb a a = true.
Proof. unfold VarType_eqb. now rewrite Z.eqb_refl, String.eqb_refl. Qed.

Lemma option_eqb_refl {A : Type} (eqb : A -> A -> bool) (a : option A) :
  (forall x, eqb x x = true) -> option_eqb eqb a a = true.
Proof. intros H. destruct a; simpl; auto. Qed.

Lemma ports_equal_refl (l : list PortVal) :
  one_kind l = true -> ports_equal l l = Return true.
Proof.
  intros H. unfold ports_equal, sorted_ports. rewrite H. simpl.
  now rewrite (list_eqb_refl _ _ portval_eqb_refl).
Qed.

Lemma logging_differs_refl (l : list VarType) :
  Nat.leb (List.length l) 1 = true -> logging_differs l l = Return false.
Proof.
  intros H. unfold logging_differs.
  destruct l as [|x [|y l]]; [reflexivity| |discriminate H].
  simpl. now rewrite VarType_eqb_refl.
Qed.

Lemma addrs_equal_refl (l : list IPNet) :
  one_version l = true -> addrs_equal l l = Return true.
Proof.
  intros H. unfold addrs_equal, sorted_addrs. rewrite H. simpl.
  now rewrite (list_eqb_refl _ _ addr_eqb_refl).
Qed.

Lemma Term_eq_refl (t : Term) : comparable t = true -> Term_eq t t = Return true.
Proof.
  unfold comparable. intros H.
  apply andb_true_iff in H. destruct H as [H Hlog].
  apply andb_true_iff in H. destruct H as [H Hd].
  apply andb_true_iff in H. destruct H as [H Hs].
  apply andb_true_iff in H. destruct H as [H Hp].
  apply andb_true_iff in H. destruct H as [H Ha5].
  apply andb_true_iff in H. destruct H as [H Ha4].
  apply andb_true_iff in H. destruct H as [H Ha3].
  apply andb_true_iff in H. destruct H as [Ha1 Ha2].
  unfold Term_eq, opt_str_ne.
  rewrite (addrs_equal_refl _ Ha1), (addrs_equal_refl _ Ha2), (addrs_equal_refl _ Ha3),
    (addrs_equal_refl _ Ha4), (addrs_equal_refl _ Ha5).
  rewrite !(sorted_ne_refl _ _ _ String.eqb_refl).
  rewrite !(sorted_ne_refl _ _ _ Z.eqb_refl).
  rewrite !(option_eqb_refl _ _ String.eqb_refl).
  rewrite !(option_eqb_refl _ _ Z.eqb_refl).
  rewrite !(option_eqb_refl _ _ str_pair_eqb_refl).
  rewrite !(list_eqb_refl _ _ str_pair_eqb_refl).
  rewrite (list_eqb_refl _ _ Z.eqb_refl).
  rewrite (option_eqb_refl _ _ (fun l => list_eqb_refl addr_eqb l addr_eqb_refl)).
  rewrite (ports_equal_refl _ Hp), (ports_equal_refl _ Hs), (ports_equal_refl _ Hd).
  rewrite (logging_differs_refl _ Hlog).
  reflexivity.
Qed.

(** X30: [Term.__eq__] reads none of the fields [name], [comment],
    [owner], [routing_instance], [counter], [priority], [dscp_set],
    [dscp_match], [dscp_except], [restrict_address_family],
    [address_exclude], [target_resources], [target_service_accounts] and
    [loss_priority]: changing them in either operand does not change its
    outcome, value or exception.  Two terms that differ in those fields
    only compare equal when the comparison can sort its operands: each
    address list of one version, each port list of one kind, at most one
    logging entry. *)
Theorem Term_eq_ignores_uncompared_fields :
  (forall s s' o o',
      same_compared s s' -> same_compared o o' -> Term_eq s' o' = Term_eq s o)
  /\ (forall t t',
        same_compared t t' -> comparable t = true -> Term_eq t t' = Return true).
Proof.
  split; [exact Term_eq_same_compared|].
  intros t t' Ht Hc.
  rewrite (Term_eq_same_compared t t t t' (same_compared_refl t) Ht).
  now apply Term_eq_refl.
Qed.

(** The term [any] against itself with all fourteen fields changed. *)
Lemma Term_eq_ignores_uncompared_fields_witness :
  Term_eq Samples.any
    (with_uncompared (Some "other"%string) [Samples.net10] (Some "inet"%string)
       ["a comment"%string] (Some (mkVarType VarType_COUNTER "hits")) (Some "low"%string)
       (Some "someone"%string) (Some "vrf"%string) (Some "af11"%string) ["af12"%string]
       ["af13"%string] (Some "7"%string) [("project", "network")%string]
       ["account"%string] Samples.any)
  = Return true.
Proof.
  apply (proj2 Term_eq_ignores_uncompared_fields); reflexivity.
Defined.

(** C10: the claim on the code, at two pairs of terms that differ in
    [name] only.  The claim has each pair compare equal.  With two logging
    entries in each term [Term.__eq__] raises [TypeError] at
    [sorted(self.logging)] (line 899): the entries are [VarType] objects,
    which have no order.  With an address list that holds an IPv4 and an
    IPv6 network it raises [TypeError] at [sorted(self.address)]
    (line 829): networks of two versions do not compare. *)
Theorem Term_eq_renamed_raises :
  same_compared Samples.two_loggings
    (set_name (Some "renamed"%string) Samples.two_loggings)
  /\ Term_eq Samples.two_loggings
       (set_name (Some "renamed"%string) Samples.two_loggings)
     = Raise TypeError
  /\ same_compared Samples.dual_stack
       (set_name (Some "renamed"%string) Samples.dual_stack)
  /\ Term_eq Samples.dual_stack
       (set_name (Some "renamed"%string) Samples.dual_stack)
     = Raise TypeError.
Proof. repeat split. Qed.

(* ================================================================== *)
(** * Further properties of the code *)
(* ================================================================== *)

(** ** What [CollapsePortList] returns *)

Lemma chain_nth_error {A : Type} (R : A -> A -> bool) (l : list A) (i : nat) (a b : A) :
  chain R l = true -> nth_error l i = Some a -> nth_error l (S i) = Some b ->
  R a b = true.
Proof.
  revert i. induction l as [|x l IH]; intros i Hc Ha Hb.
  - destruct i; discriminate Ha.
  - destruct i as [|i].
    + simpl in Ha, Hb. injection Ha as <-. destruct l as [|y l]; [discriminate Hb|].
      simpl in Hb. injection Hb as <-.
      change (R x y && chain R (y :: l) = true) in Hc.
      apply andb_true_iff in Hc. exact (proj1 Hc).
    + simpl in Ha. apply (IH i); [exact (chain_tail R _ _ Hc)|exact Ha|exact Hb].
Qed.

Lemma separated_spec (a b : PortRange) :
  separated a b = true <->
  fst a <= fst b /\ snd a < snd b /\ snd a <= fst b /\ snd a + 1 <> fst b.
Proof.
  unfold separated.
  rewrite !andb_true_iff, negb_true_iff, !Z.leb_le, Z.ltb_lt, Z.eqb_neq. tauto.
Qed.

(** X1: two neighbours of the list that [CollapsePortList] returns, for any
    input: their lows ascend, their highs ascend strictly, the first ends
    no later than the second starts, and the two are not contiguous. *)
Theorem CollapsePortList_neighbours (ports : list PortRange) (i : nat) (a b : PortRange) :
  nth_error (CollapsePortList ports) i = Some a ->
  nth_error (CollapsePortList ports) (S i) = Some b ->
  fst a <= fst b /\ snd a < snd b /\ snd a <= fst b /\ snd a + 1 <> fst b.
Proof.
  intros Ha Hb. apply separated_spec.
  exact (chain_nth_error _ _ _ _ _ (CollapsePortList_separated ports) Ha Hb).
Qed.

Lemma CollapsePortList_neighbours_witness :
  fst (10, 20) <= fst (22, 30) /\ snd (10, 20) < snd (22, 30)
  /\ snd (10, 20) <= fst (22, 30) /\ snd (10, 20) + 1 <> fst (22, 30).
Proof.
  exact (CollapsePortList_neighbours [(22, 30); (12, 13); (10, 20)] 0 (10, 20) (22, 30)
           eq_refl eq_refl).
Defined.

Lemma covers_app (a b : list PortRange) (p : Z) :
  covers (a ++ b) p <-> covers a p \/ covers b p.
Proof.
  unfold covers. split.
  - intros (r & Hr & Hp). apply in_app_or in Hr.
    destruct Hr; [left|right]; eauto.
  - intros [(r & Hr & Hp)|(r & Hr & Hp)]; exists r; split; auto;
      apply in_or_app; auto.
Qed.

Lemma covers_nil (p : Z) : covers [] p <-> False.
Proof. unfold covers. split; [intros (r & [] & _)|intros []]. Qed.

Lemma covers_cons (r : PortRange) (l : list PortRange) (p : Z) :
  covers (r :: l) p <-> fst r <= p <= snd r \/ covers l p.
Proof.
  unfold covers. split.
  - intros (x & [<-|Hx] & Hp); [now left|right; eauto].
  - intros [Hp|(x & Hx & Hp)]; [exists r|exists x]; split; auto; [now left|now right].
Qed.

Ltac covers_norm := rewrite ?covers_app, ?covers_cons, ?covers_nil.

Lemma collapse_loop_covers (ports ret : list PortRange) :
  chain port_leb ports = true ->
  Forall well_formed ports -> Forall well_formed ret ->
  (forall l, last_opt ret = Some l -> Forall (fun q => fst l <= fst q) ports) ->
  Forall well_formed (fold_left collapse_step ports ret)
  /\ forall p, covers (fold_left collapse_step ports ret) p
               <-> covers ret p \/ covers ports p.
Proof.
  revert ret. induction ports as [|q ports IH]; intros ret Hs Hwp Hwr Hl.
  - simpl. split; [exact Hwr|]. intros p. covers_norm. tauto.
  - simpl. pose proof (chain_lows _ _ Hs) as Hq.
    pose proof (chain_tail _ _ _ Hs) as Hs'.
    inversion Hwp as [|? ? Hwq Hwp']; subst.
    destruct ret as [|l pre _] using rev_ind.
    + rewrite collapse_step_nil.
      destruct (IH [q] Hs' Hwp') as [Hw Hc].
      * now constructor.
      * intros l Hlast. injection Hlast as <-. exact Hq.
      * split; [exact Hw|]. intros p. rewrite Hc. covers_norm. tauto.
    + specialize (Hl l (last_opt_snoc _ _)).
      inversion Hl as [|? ? Hlq Hrest]; subst.
      apply Forall_app in Hwr. destruct Hwr as [Hwpre Hwl].
      inversion Hwl as [|? ? Hwl' _]; subst. unfold well_formed in Hwl', Hwq.
      rewrite collapse_step_snoc.
      destruct (Z.geb_spec (snd l) (snd q)) as [Hge|Hlt].
      * destruct (IH (pre ++ [l]) Hs' Hwp') as [Hw Hc].
        { apply Forall_app. split; [exact Hwpre|now constructor]. }
        { intros x Hlast. rewrite last_opt_snoc in Hlast. injection Hlast as <-.
          exact Hrest. }
        split; [exact Hw|]. intros p.
        rewrite Hc. covers_norm. intuition lia.
      * assert (Hmerge : fst q <= snd l + 1 ->
                  Forall well_formed (fold_left collapse_step ports (pre ++ [(fst l, snd q)]))
                  /\ forall p, covers (fold_left collapse_step ports (pre ++ [(fst l, snd q)])) p
                               <-> covers (pre ++ [l]) p \/ covers (q :: ports) p).
        { intros Hnear.
          destruct (IH (pre ++ [(fst l, snd q)]) Hs' Hwp') as [Hw Hc].
          { apply Forall_app. split; [exact Hwpre|].
            constructor; [|constructor]. unfold well_formed. simpl. lia. }
          { intros x Hlast. rewrite last_opt_snoc in Hlast. injection Hlast as <-.
            exact Hrest. }
          split; [exact Hw|]. intros p.
          rewrite Hc. covers_norm. simpl. intuition lia. }
        destruct ((fst q <? snd l) && (snd l <? snd q)) eqn:Hov.
        { apply Hmerge. apply andb_true_iff in Hov. destruct Hov as [H _].
          apply Z.ltb_lt in H. lia. }
        destruct (Z.eqb_spec (snd l + 1) (fst q)) as [Hadj|Hadj].
        { apply Hmerge. lia. }
        destruct (IH ((pre ++ [l]) ++ [q]) Hs' Hwp') as [Hw Hc].
        { apply Forall_app. split; [|now constructor].
          apply Forall_app. split; [exact Hwpre|now constructor]. }
        { intros x Hlast. rewrite last_opt_snoc in Hlast. injection Hlast as <-.
          exact Hq. }
        split; [exact Hw|]. intros p.
        rewrite Hc. covers_norm. tauto.
Qed.

Lemma covers_sorted (ports : list PortRange) (p : Z) :
  covers (sorted port_leb ports) p <-> covers ports p.
Proof.
  unfold covers. split; intros (r & Hr & Hp); exists r; split; auto;
    now apply (sorted_In port_leb).
Qed.

Lemma Forall_sorted {A : Type} (leb : A -> A -> bool) (P : A -> Prop) (l : list A) :
  Forall P l -> Forall P (sorted leb l).
Proof.
  rewrite !Forall_forall. intros H x Hx. apply H. now apply (sorted_In leb).
Qed.

Lemma CollapsePortList_well_formed_covers (ports : list PortRange) :
  Forall well_formed ports ->
  Forall well_formed (CollapsePortList ports)
  /\ forall p, covers (CollapsePortList ports) p <-> covers ports p.
Proof.
  intros Hw. unfold CollapsePortList.
  destruct (collapse_loop_covers (sorted port_leb ports) []) as [Hwf Hc].
  - apply sorted_chain. exact port_leb_total.
  - now apply Forall_sorted.
  - constructor.
  - intros l Hl. discriminate Hl.
  - split; [exact Hwf|]. intros p. rewrite Hc, covers_sorted, covers_nil. tauto.
Qed.

(** X2: on ranges with [low <= high], [CollapsePortList] returns ranges
    with [low <= high] that stand for exactly the same ports. *)
Theorem CollapsePortList_covers (ports : list PortRange) :
  Forall well_formed ports ->
  Forall well_formed (CollapsePortList ports)
  /\ forall p, covers (CollapsePortList ports) p <-> covers ports p.
Proof. exact (CollapsePortList_well_formed_covers ports). Qed.

Lemma CollapsePortList_covers_witness :
  Forall well_formed (CollapsePortList [(80, 80); (10, 20); (15, 30)])
  /\ forall p, covers (CollapsePortList [(80, 80); (10, 20); (15, 30)]) p
               <-> covers [(80, 80); (10, 20); (15, 30)] p.
Proof.
  apply CollapsePortList_covers.
  repeat constructor; unfold well_formed; simpl; lia.
Defined.

Lemma separated_after (x : PortRange) (l : list PortRange) :
  chain separated (x :: l) = true -> Forall well_formed l ->
  Forall (fun b => snd x <= fst b /\ snd x < snd b) l.
Proof.
  revert x. induction l as [|y l IH]; intros x Hc Hw; [constructor|].
  change (separated x y && chain separated (y :: l) = true) in Hc.
  apply andb_true_iff in Hc. destruct Hc as [Hxy Hc].
  apply separated_spec in Hxy.
  inversion Hw as [|? ? Hwy Hwl]; subst. unfold well_formed in Hwy.
  constructor; [lia|].
  eapply Forall_impl; [|exact (IH y Hc Hwl)]. simpl. intros b. lia.
Qed.

Lemma separated_pairs (l : list PortRange) (i j : nat) (a b : PortRange) :
  chain separated l = true -> Forall well_formed l -> (i < j)%nat ->
  nth_error l i = Some a -> nth_error l j = Some b ->
  snd a <= fst b /\ snd a < snd b.
Proof.
  revert i j. induction l as [|x l IH]; intros i j Hc Hw Hij Ha Hb.
  - destruct i; discriminate Ha.
  - inversion Hw as [|? ? Hwx Hwl]; subst.
    destruct j as [|j]; [lia|]. simpl in Hb.
    destruct i as [|i].
    + simpl in Ha. injection Ha as <-.
      pose proof (separated_after x l Hc Hwl) as Hall.
      rewrite Forall_forall in Hall. apply Hall. eapply nth_error_In. exact Hb.
    + simpl in Ha. apply (IH i j); auto; [exact (chain_tail _ _ _ Hc)|lia].
Qed.

(** X3: on ranges with [low <= high], any two ranges that
    [CollapsePortList] returns one after the other, neighbours or not, share
    no port except, at most, the one where the earlier ends and the later
    starts. *)
Theorem CollapsePortList_share_at_most_boundary (ports : list PortRange)
    (i j : nat) (a b : PortRange) (p : Z) :
  Forall well_formed ports -> (i < j)%nat ->
  nth_error (CollapsePortList ports) i = Some a ->
  nth_error (CollapsePortList ports) j = Some b ->
  fst a <= p <= snd a -> fst b <= p <= snd b ->
  p = snd a /\ p = fst b.
Proof.
  intros Hw Hij Ha Hb Hpa Hpb.
  destruct (separated_pairs _ i j a b (CollapsePortList_separated ports)
              (proj1 (CollapsePortList_well_formed_covers ports Hw)) Hij Ha Hb)
    as [H _].
  lia.
Qed.

Lemma CollapsePortList_share_at_most_boundary_witness :
  20 = snd (10, 20) /\ 20 = fst (20, 30).
Proof.
  apply (CollapsePortList_share_at_most_boundary [(20, 30); (10, 20)] 0 1
           (10, 20) (20, 30) 20).
  - repeat constructor; unfold well_formed; simpl; lia.
  - lia.
  - reflexivity.
  - reflexivity.
  - simpl; lia.
  - simpl; lia.
Defined.

(** ** The containment helpers *)

Lemma py_in_string_iff (p : string) (l : list string) :
  py_in String.eqb p l = true <-> In p l.
Proof.
  induction l as [|q l IH]; simpl; [split; [discriminate|tauto]|].
  rewrite orb_true_iff, IH, String.eqb_eq. split; intros [H|H]; auto.
Qed.

Lemma py_in_Z_iff (p : Z) (l : list Z) : py_in Z.eqb p l = true <-> In p l.
Proof.
  induction l as [|q l IH]; simpl; [split; [discriminate|tauto]|].
  rewrite orb_true_iff, IH, Z.eqb_eq. split; intros [H|H]; auto.
Qed.

(** X4: [CheckProtocolIsContained(superset, subset)] is true exactly when
    the superset is empty, or the subset is not empty and each of its
    protocols is in the superset. *)
Theorem CheckProtocolIsContained_iff (superset subset : list string) :
  CheckProtocolIsContained superset subset = true <->
  superset = [] \/ (subset <> [] /\ forall p, In p subset -> In p superset).
Proof.
  unfold CheckProtocolIsContained.
  destruct superset as [|a A]; [split; [now left|reflexivity]|].
  cbn [is_empty]. set (sup := a :: A).
  assert (Hsup : sup <> []) by discriminate. clearbody sup.
  destruct subset as [|b B]; cbn [is_empty].
  - split; [discriminate|]. intros [H|[H _]]; [contradiction|now elim H].
  - rewrite forallb_forall. split.
    + intros H. right. split; [discriminate|].
      intros p Hp. apply py_in_string_iff. now apply H.
    + intros [H|[_ H]]; [contradiction|].
      intros p Hp. apply py_in_string_iff. now apply H.
Qed.

Lemma port_enclosed_ranges (r : PortRange) (A : list PortRange) :
  port_enclosed (PRange r) (map PRange A)
  = Return (existsb (fun s => (fst s <=? fst r) && (snd r <=? snd s)) A).
Proof.
  induction A as [|s A IH]; [reflexivity|].
  simpl. rewrite Z.geb_leb.
  destruct (fst s <=? fst r); simpl; [|exact IH].
  destruct (snd r <=? snd s); simpl; [reflexivity|exact IH].
Qed.

Lemma all_enclosed_ranges (B A : list PortRange) :
  all_enclosed (map PRange B) (map PRange A)
  = Return (forallb (fun r => existsb (fun s => (fst s <=? fst r) && (snd r <=? snd s)) A) B).
Proof.
  induction B as [|r B IH]; [reflexivity|].
  cbn [map all_enclosed forallb]. rewrite port_enclosed_ranges. cbn [bind].
  destruct (existsb (fun s => (fst s <=? fst r) && (snd r <=? snd s)) A);
    [exact IH|reflexivity].
Qed.

(** X5: on translated port lists (tuples only) [CheckPortIsContained]
    raises nothing, and it is true exactly when the superset is empty, or
    the subset is not empty and each of its ranges lies inside one range of
    the superset. *)
Theorem CheckPortIsContained_ranges (superset subset : list PortRange) :
  exists b,
    CheckPortIsContained (map PRange superset) (map PRange subset) = Return b
    /\ (b = true <->
        superset = []
        \/ (subset <> []
            /\ forall r, In r subset ->
                 exists s, In s superset /\ fst s <= fst r /\ snd r <= snd s)).
Proof.
  unfold CheckPortIsContained.
  destruct superset as [|a A].
  - exists true. split; [reflexivity|]. split; [now left|reflexivity].
  - destruct subset as [|b B].
    + exists false. split; [reflexivity|].
      split; [discriminate|]. intros [H|[H _]]; [discriminate|now elim H].
    + cbn [map is_empty].
      change (PRange b :: map PRange B) with (map PRange (b :: B)).
      change (PRange a :: map PRange A) with (map PRange (a :: A)).
      rewrite all_enclosed_ranges. eexists. split; [reflexivity|].
      rewrite forallb_forall. split.
      * intros H. right. split; [discriminate|].
        intros r Hr. specialize (H r Hr). apply existsb_exists in H.
        destruct H as (s & Hs & Hle). exists s. split; [exact Hs|].
        apply andb_true_iff in Hle. rewrite !Z.leb_le in Hle. exact Hle.
      * intros [H|[_ H]]; [discriminate|].
        intros r Hr. destruct (H r Hr) as (s & Hs & Hle).
        apply existsb_exists. exists s. split; [exact Hs|].
        apply andb_true_iff. now rewrite !Z.leb_le.
Qed.

(** X6: a port list that still holds a service name cannot be compared.
    With a superset that is not empty and a subset that starts with a name
    whose first character is no digit, [CheckPortIsContained] raises
    [ValueError]. *)
Theorem CheckPortIsContained_name (sup : PortVal) (superset subset : list PortVal)
    (c : ascii) (s : string) :
  is_digit c = false ->
  CheckPortIsContained (sup :: superset) (PName (String c s) :: subset)
  = Raise ValueError.
Proof.
  intros Hc. unfold CheckPortIsContained. cbn [is_empty all_enclosed port_enclosed].
  cbn [port_component String.get]. unfold int_of_char.
  unfold is_digit in Hc.
  replace ((48 <=? Z.of_nat (nat_of_ascii c)) && (Z.of_nat (nat_of_ascii c) <=? 57))
    with false; [reflexivity|].
  symmetry. apply andb_false_iff. apply andb_false_iff in Hc.
  destruct Hc as [H|H]; [left|right]; apply Nat.leb_gt in H; apply Z.leb_gt; lia.
Qed.

Lemma CheckPortIsContained_name_witness :
  CheckPortIsContained [PRange (80, 80)] [PName "HTTP"] = Raise ValueError.
Proof.
  exact (CheckPortIsContained_name (PRange (80, 80)) [] [] "H"%char "TTP"%string eq_refl).
Defined.

(** ** What a term that passes [SanityCheck] satisfies *)

Lemma bind_Return {A B : Type} (m : Exc A) (k : A -> Exc B) (v : B) :
  bind m k = Return v -> exists a, m = Return a /\ k a = Return v.
Proof. destruct m as [a|e]; simpl; [eauto|discriminate]. Qed.

Lemma raise_when_Return (c : bool) (e : PyError) :
  raise_when c e = Return tt -> c = false.
Proof. destruct c; [discriminate|reflexivity]. Qed.

Lemma nonempty_false {A : Type} (l : list A) : nonempty l = false -> l = [].
Proof. destruct l; [reflexivity|discriminate]. Qed.

Lemma SanityCheck_passes (t : Term) :
  SanityCheck t = Return tt ->
  check_verbatim_action_ports t = Return tt /\ check_ether_type t = Return tt
  /\ check_icmp_code t = Return tt /\ check_icmp_type t = Return tt
  /\ check_ttl t = Return tt /\ check_numeric_protocols (protocol t) = Return tt.
Proof.
  unfold SanityCheck. intros H.
  apply bind_Return in H. destruct H as ([] & H1 & H).
  apply bind_Return in H. destruct H as ([] & H2 & H).
  apply bind_Return in H. destruct H as ([] & H3 & H).
  apply bind_Return in H. destruct H as ([] & H4 & H).
  apply bind_Return in H. destruct H as ([] & H5 & H).
  repeat split; assumption.
Qed.

Lemma filter_negb_nil_inv {A : Type} (f : A -> bool) (l : list A) :
  filter (fun p => negb (f p)) l = [] -> forallb f l = true.
Proof.
  induction l as [|p l IH]; [reflexivity|]. simpl.
  destruct (f p); simpl; [exact IH|discriminate].
Qed.

(** X7: the action and port rules on a term that passes [SanityCheck].  A
    term with verbatim content has no [action], [source_port],
    [destination_port], [port], [protocol] or [option].  A term without it
    has at least one of [action], [routing_instance], [next_ip],
    [encapsulate], [filter_term] and [port_mirror]; it does not have both a
    [filter_term] and an [action]; and, when it declares a port, its
    protocols are port-bearing ones only. *)
Theorem SanityCheck_passed_actions_ports (t : Term) :
  SanityCheck t = Return tt ->
  (verbatim t <> [] ->
   action t = [] /\ source_port t = [] /\ destination_port t = [] /\ port t = []
   /\ protocol t = [] /\ option_ t = [])
  /\ (verbatim t = [] ->
      (action t <> [] \/ truthy_str (routing_instance t) = true
       \/ falsy_list (next_ip t) = false \/ truthy_str (encapsulate t) = true
       \/ truthy_str (filter_term t) = true \/ truthy_str (port_mirror t) = true)
      /\ (truthy_str (filter_term t) = true -> action t = [])
      /\ (declares_ports t = true -> forallb port_bearing (protocol t) = true)).
Proof.
  intros H. apply SanityCheck_passes in H. destruct H as (H & _).
  unfold check_verbatim_action_ports in H. split.
  - intros Hv. destruct (verbatim t) as [|v vs]; [now elim Hv|].
    cbn [nonempty is_empty negb] in H. apply raise_when_Return in H.
    repeat (apply orb_false_iff in H; destruct H as [H ?]).
    repeat split; now apply nonempty_false.
  - intros Hv. rewrite Hv in H. cbn [nonempty is_empty negb] in H.
    apply bind_Return in H. destruct H as ([] & H1 & H).
    apply bind_Return in H. destruct H as ([] & H2 & H).
    apply raise_when_Return in H1, H2. cbv zeta in H.
    split; [|split].
    + destruct (action t) as [|a l]; [|left; discriminate].
      right. cbn [is_empty andb] in H1.
      destruct (truthy_str (routing_instance t)); [left; reflexivity|right].
      destruct (falsy_list (next_ip t)); [right|left; reflexivity].
      destruct (truthy_str (encapsulate t)); [left; reflexivity|right].
      destruct (truthy_str (filter_term t)); [left; reflexivity|right].
      destruct (truthy_str (port_mirror t)); [reflexivity|discriminate H1].
    + intros Hf. rewrite Hf in H2. cbn [andb] in H2. now apply nonempty_false.
    + intros Hd. fold (declares_ports t) in H. rewrite Hd, andb_true_r in H.
      apply (filter_negb_nil_inv port_bearing).
      destruct (filter (fun p => negb (py_in String.eqb p PROTOS_WITH_PORTS)) (protocol t))
        as [|p ps] eqn:E; [exact E|].
      cbn [nonempty is_empty negb] in H.
      destruct (nonempty _) in H; discriminate H.
Qed.

(** The three parts at three terms that pass: [verbatim_only] has none of
    the six attributes; [only_vrf] has a routing instance and no action;
    [tcp_port] declares a port and names [tcp]. *)
Lemma SanityCheck_passed_actions_ports_witness :
  (action Samples.verbatim_only = [] /\ source_port Samples.verbatim_only = []
   /\ destination_port Samples.verbatim_only = [] /\ port Samples.verbatim_only = []
   /\ protocol Samples.verbatim_only = [] /\ option_ Samples.verbatim_only = [])
  /\ ((action Samples.only_vrf <> []
       \/ truthy_str (routing_instance Samples.only_vrf) = true
       \/ falsy_list (next_ip Samples.only_vrf) = false
       \/ truthy_str (encapsulate Samples.only_vrf) = true
       \/ truthy_str (filter_term Samples.only_vrf) = true
       \/ truthy_str (port_mirror Samples.only_vrf) = true)
      /\ action Samples.only_vrf = [])
  /\ forallb port_bearing (protocol Samples.tcp_port) = true.
Proof.
  split; [|split; [split|]].
  - apply (proj1 (SanityCheck_passed_actions_ports Samples.verbatim_only eq_refl)).
    discriminate.
  - exact (proj1 (proj2 (SanityCheck_passed_actions_ports Samples.only_vrf eq_refl)
                    eq_refl)).
  - reflexivity.
  - exact (proj2 (proj2 (proj2 (SanityCheck_passed_actions_ports Samples.tcp_port
                                  eq_refl) eq_refl)) eq_refl).
Defined.

Lemma collect_bad_codes_Return (type_name : string) (codes bad result : list Z) :
  collect_bad_codes type_name codes bad = Return result ->
  codes = []
  \/ exists valid, dict_get ICMP_CODE type_name = Return valid
       /\ result = bad ++ filter (fun c => negb (py_in Z.eqb c valid)) codes.
Proof.
  revert bad. induction codes as [|code rest IH]; intros bad H; [now left|].
  right.
  change (valid <- dict_get ICMP_CODE type_name ;;
          (if negb (py_in Z.eqb code valid)
           then collect_bad_codes type_name rest (bad ++ [code])
           else collect_bad_codes type_name rest bad) = Return result) in H.
  apply bind_Return in H. destruct H as (valid & Hv & H).
  exists valid. split; [exact Hv|]. cbn [filter].
  destruct (negb (py_in Z.eqb code valid)).
  - destruct (IH _ H) as [->|(valid' & Hv' & ->)].
    + simpl in H. now injection H as <-.
    + assert (valid' = valid) by congruence. subst valid'.
      now rewrite <- app_assoc.
  - destruct (IH _ H) as [->|(valid' & Hv' & ->)].
    + simpl in H. injection H as <-. now rewrite app_nil_r.
    + assert (valid' = valid) by congruence. now subst valid'.
Qed.

(** X8: the ICMP rules on a term that passes [SanityCheck].  Every
    icmp-type is a name of the IPv4 or of the IPv6 table.  A term with
    icmp-codes has exactly one icmp-type, that type has an entry in the
    code table, and every code of the term is in the entry. *)
Theorem SanityCheck_passed_icmp (t : Term) :
  SanityCheck t = Return tt ->
  (forall ty, In ty (icmp_type t) ->
     dict_has ICMP_TYPE_4 ty = true \/ dict_has ICMP_TYPE_6 ty = true)
  /\ (icmp_code t <> [] ->
      exists ty valid,
        icmp_type t = [ty] /\ dict_get ICMP_CODE ty = Return valid
        /\ forall c, In c (icmp_code t) -> In c valid).
Proof.
  intros H. apply SanityCheck_passes in H. destruct H as (_ & _ & Hc & Ht & _).
  split.
  - intros ty Hty. unfold check_icmp_type in Ht. apply raise_when_Return in Ht.
    destruct (dict_has ICMP_TYPE_4 ty) eqn:E4; [now left|].
    destruct (dict_has ICMP_TYPE_6 ty) eqn:E6; [now right|].
    assert (existsb (fun icmptype => negb (dict_has ICMP_TYPE_4 icmptype)
                                     && negb (dict_has ICMP_TYPE_6 icmptype))
              (icmp_type t) = true).
    { apply existsb_exists. exists ty. split; [exact Hty|]. now rewrite E4, E6. }
    congruence.
  - intros Hne. unfold check_icmp_code in Hc.
    destruct (icmp_code t) as [|c0 cs] eqn:Ecodes; [now elim Hne|].
    cbn [nonempty is_empty negb] in Hc.
    apply bind_Return in Hc. destruct Hc as ([] & Hlen & Hc).
    apply raise_when_Return in Hlen. apply negb_false_iff, Nat.eqb_eq in Hlen.
    apply bind_Return in Hc. destruct Hc as (ty & Hty & Hc).
    apply bind_Return in Hc. destruct Hc as (bad & Hbad & Hc).
    apply raise_when_Return, nonempty_false in Hc. subst bad.
    destruct (icmp_type t) as [|ty0 [|ty1 tys]]; try discriminate Hlen.
    simpl in Hty. injection Hty as ->.
    destruct (collect_bad_codes_Return _ _ _ _ Hbad) as [E|(valid & Hv & E)];
      [discriminate E|].
    exists ty, valid. repeat split; [exact Hv|].
    intros c Hin. apply py_in_Z_iff.
    destruct (py_in Z.eqb c valid) eqn:Ein; [reflexivity|].
    assert (Hf : In c (filter (fun c => negb (py_in Z.eqb c valid)) (c0 :: cs))).
    { apply filter_In. split; [exact Hin|]. now rewrite Ein. }
    cbn [app] in E. rewrite <- E in Hf. destruct Hf.
Qed.

Lemma SanityCheck_passed_icmp_witness :
  let t := set_icmp_code [3; 4] (set_icmp_type ["unreachable"%string] Samples.any) in
  (forall ty, In ty (icmp_type t) ->
     dict_has ICMP_TYPE_4 ty = true \/ dict_has ICMP_TYPE_6 ty = true)
  /\ (icmp_code t <> [] ->
      exists ty valid,
        icmp_type t = [ty] /\ dict_get ICMP_CODE ty = Return valid
        /\ forall c, In c (icmp_code t) -> In c valid).
Proof.
  exact (SanityCheck_passed_icmp
           (set_icmp_code [3; 4] (set_icmp_type ["unreachable"%string] Samples.any))
           eq_refl).
Defined.

Lemma check_numeric_protocols_Return (l : list string) :
  check_numeric_protocols l = Return tt ->
  forall p, In p l -> isnumeric p = true ->
  exists n, py_int p = Return n /\ 0 <= n <= 255.
Proof.
  induction l as [|q l IH]; intros H p Hp Hnum; [destruct Hp|].
  cbn [check_numeric_protocols] in H.
  apply bind_Return in H. destruct H as ([] & Hq & H).
  destruct Hp as [->|Hp]; [|now apply IH].
  rewrite Hnum in Hq. apply bind_Return in Hq. destruct Hq as (n & Hn & Hq).
  apply raise_when_Return, orb_false_iff in Hq. destruct Hq as [H0 H255].
  exists n. split; [exact Hn|]. apply Z.ltb_ge in H0, H255. lia.
Qed.

(** X9: the bounds on a term that passes [SanityCheck].  A TTL is within
    0..255, every protocol written as a number is within 0..255, and a term
    with an ether-type has none of the twelve attributes that the ether-type
    rule names: [protocol], [address], [destination_address],
    [destination_address_exclude], [destination_port],
    [destination_prefix], [destination_prefix_except], [source_address],
    [source_address_exclude], [source_port], [source_prefix] and
    [source_prefix_except].  The rule does not name [port] or
    [address_exclude]: a term with an ether-type may have them. *)
Theorem SanityCheck_passed_bounds (t : Term) :
  SanityCheck t = Return tt ->
  (forall v, ttl t = Some v -> 0 <= v <= 255)
  /\ (forall p, In p (protocol t) -> isnumeric p = true ->
        exists n, py_int p = Return n /\ 0 <= n <= 255)
  /\ (ether_type t <> [] ->
      protocol t = [] /\ address t = [] /\ destination_address t = []
      /\ destination_address_exclude t = [] /\ destination_port t = []
      /\ destination_prefix t = [] /\ destination_prefix_except t = []
      /\ source_address t = [] /\ source_address_exclude t = []
      /\ source_port t = [] /\ source_prefix t = []
      /\ source_prefix_except t = []).
Proof.
  intros H. apply SanityCheck_passes in H.
  destruct H as (_ & He & _ & _ & Httl & Hnum).
  split; [|split].
  - intros v Hv. unfold check_ttl in Httl. rewrite Hv in Httl.
    apply raise_when_Return in Httl. unfold _MIN_TTL, _MAX_TTL in Httl.
    destruct (Z.eqb_spec v 0) as [E0|Hv0]; [lia|].
    simpl in Httl. apply negb_false_iff, andb_true_iff in Httl.
    rewrite !Z.leb_le in Httl. exact Httl.
  - now apply check_numeric_protocols_Return.
  - intros Hne. unfold check_ether_type in He. apply raise_when_Return in He.
    destruct (ether_type t); [now elim Hne|].
    cbn [nonempty is_empty negb andb] in He.
    repeat (apply orb_false_iff in He; destruct He as [He ?]).
    repeat split; now apply nonempty_false.
Qed.

(** The three parts at two terms that pass: [bounded] has the TTL 64 and
    the protocol [6]; [arp_port] has an ether-type, and a port. *)
Lemma SanityCheck_passed_bounds_witness :
  0 <= 64 <= 255
  /\ (exists n, py_int "6" = Return n /\ 0 <= n <= 255)
  /\ (protocol Samples.arp_port = [] /\ address Samples.arp_port = []
      /\ destination_address Samples.arp_port = []
      /\ destination_address_exclude Samples.arp_port = []
      /\ destination_port Samples.arp_port = []
      /\ destination_prefix Samples.arp_port = []
      /\ destination_prefix_except Samples.arp_port = []
      /\ source_address Samples.arp_port = []
      /\ source_address_exclude Samples.arp_port = []
      /\ source_port Samples.arp_port = [] /\ source_prefix Samples.arp_port = []
      /\ source_prefix_except Samples.arp_port = [])
  /\ port Samples.arp_port = [PRange (80, 80)].
Proof.
  split; [|split; [|split]].
  - exact (proj1 (SanityCheck_passed_bounds Samples.bounded eq_refl) 64 eq_refl).
  - exact (proj1 (proj2 (SanityCheck_passed_bounds Samples.bounded eq_refl))
             "6"%string (or_introl eq_refl) eq_refl).
  - apply (proj2 (proj2 (SanityCheck_passed_bounds Samples.arp_port eq_refl))).
    discriminate.
  - reflexivity.
Defined.

(** ** Symmetry of [Term.__eq__] *)

Lemma list_eqb_sym {A : Type} (eqb : A -> A -> bool) :
  (forall x y, eqb x y = eqb y x) ->
  forall a b, list_eqb eqb a b = list_eqb eqb b a.
Proof.
  intros H. induction a as [|x a IH]; intros [|y b]; simpl; try reflexivity.
  now rewrite H, IH.
Qed.

Lemma sorted_ne_sym {A : Type} (leb eqb : A -> A -> bool) :
  (forall x y, eqb x y = eqb y x) ->
  forall a b, sorted_ne leb eqb a b = sorted_ne leb eqb b a.
Proof. intros H a b. unfold sorted_ne. now rewrite (list_eqb_sym eqb H). Qed.

Lemma option_eqb_sym {A : Type} (eqb : A -> A -> bool) :
  (forall x y, eqb x y = eqb y x) ->
  forall a b, option_eqb eqb a b = option_eqb eqb b a.
Proof. intros H [x|] [y|]; simpl; auto. Qed.

Lemma addr_eqb_sym (a b : IPNet) : addr_eqb a b = addr_eqb b a.
Proof.
  unfold addr_eqb.
  now rewrite (Z.eqb_sym (version a)), (Z.eqb_sym (network_address a)),
    (Z.eqb_sym (prefixlen a)).
Qed.

Lemma str_pair_eqb_sym (a b : string * string) : str_pair_eqb a b = str_pair_eqb b a.
Proof.
  unfold str_pair_eqb. now rewrite (String.eqb_sym (fst a)), (String.eqb_sym (snd a)).
Qed.

Lemma portval_eqb_sym (a b : PortVal) : portval_eqb a b = portval_eqb b a.
Proof.
  destruct a as [s|r], b as [s'|r']; simpl; try reflexivity.
  - apply String.eqb_sym.
  - unfold port_eqb. now rewrite (Z.eqb_sym (fst r)), (Z.eqb_sym (snd r)).
Qed.

Lemma VarType_eqb_sym (a b : VarType) : VarType_eqb a b = VarType_eqb b a.
Proof.
  unfold VarType_eqb. now rewrite (Z.eqb_sym (var_type a)), (String.eqb_sym (value a)).
Qed.

Lemma ports_equal_sym (a b : list PortVal) : ports_equal a b = ports_equal b a.
Proof.
  unfold ports_equal, sorted_ports.
  destruct (one_kind a), (one_kind b); simpl; try reflexivity.
  now rewrite (list_eqb_sym portval_eqb portval_eqb_sym).
Qed.

Lemma addrs_equal_sym (a b : list IPNet) : addrs_equal a b = addrs_equal b a.
Proof.
  unfold addrs_equal, sorted_addrs.
  destruct (one_version a), (one_version b); simpl; try reflexivity.
  now rewrite (list_eqb_sym addr_eqb addr_eqb_sym).
Qed.

Lemma logging_differs_sym (a b : list VarType) :
  logging_differs a b = logging_differs b a.
Proof.
  unfold logging_differs.
  destruct (sorted_VarTypes a) as [x|e] eqn:Ea, (sorted_VarTypes b) as [y|e'] eqn:Eb;
    simpl; try reflexivity.
  - now rewrite (list_eqb_sym VarType_eqb VarType_eqb_sym).
  - destruct a as [|? [|? ?]], b as [|? [|? ?]]; simpl in Ea, Eb; congruence.
Qed.

(** X10: [Term.__eq__] gives the same outcome, value or exception, with
    its operands exchanged. *)
Theorem Term_eq_sym (self other : Term) : Term_eq self other = Term_eq other self.
Proof.
  unfold Term_eq, opt_str_ne.
  repeat match goal with
         | |- context [sorted_ne ?l String.eqb (?f other) (?g self)] =>
             rewrite (sorted_ne_sym l String.eqb String.eqb_sym (f other) (g self))
         | |- context [addrs_equal (?f other) (?g self)] =>
             rewrite (addrs_equal_sym (f other) (g self))
         | |- context [sorted_ne ?l Z.eqb (?f other) (?g self)] =>
             rewrite (sorted_ne_sym l Z.eqb Z.eqb_sym (f other) (g self))
         | |- context [option_eqb String.eqb (?f other) (?g self)] =>
             rewrite (option_eqb_sym String.eqb String.eqb_sym (f other) (g self))
         | |- context [option_eqb Z.eqb (?f other) (?g self)] =>
             rewrite (option_eqb_sym Z.eqb Z.eqb_sym (f other) (g self))
         | |- context [option_eqb str_pair_eqb (?f other) (?g self)] =>
             rewrite (option_eqb_sym str_pair_eqb str_pair_eqb_sym (f other) (g self))
         | |- context [option_eqb (list_eqb addr_eqb) (?f other) (?g self)] =>
             rewrite (option_eqb_sym (list_eqb addr_eqb)
                        (list_eqb_sym addr_eqb addr_eqb_sym) (f other) (g self))
         | |- context [list_eqb str_pair_eqb (?f other) (?g self)] =>
             rewrite (list_eqb_sym str_pair_eqb str_pair_eqb_sym (f other) (g self))
         | |- context [list_eqb Z.eqb (?f other) (?g self)] =>
             rewrite (list_eqb_sym Z.eqb Z.eqb_sym (f other) (g self))
         | |- context [ports_equal (?f other) (?g self)] =>
             rewrite (ports_equal_sym (f other) (g self))
         | |- context [logging_differs (?f other) (?g self)] =>
             rewrite (logging_differs_sym (f other) (g self))
         end.
  reflexivity.
Qed.

(** ** Equality of terms across a shading pass *)


Lemma terms_after_frame
    (AddressListExclude : list IPNet -> list IPNet -> list IPNet)
    (heap : nat) (terms : list Term) :
  Forall2 flatten_frame terms (terms_after AddressListExclude heap terms).
Proof.
  unfold terms_after, _DetectShading.
  apply (for_each_invariant
           (fun st : ShadeState => Forall2 flatten_frame terms (fst st))).
  - intros index st Hst.
    apply (for_each_invariant
             (fun st : ShadeState => Forall2 flatten_frame terms (fst st)));
      [|exact Hst].
    intros prior_index st' Hst'. now apply shade_pair_frame.
  - apply Forall2_flatten_frame_refl.
Qed.


(** ** Containment and the attributes compared by identity *)

Lemma flattening_only_identity_compared (t t' : Term) :
  flattening_only t t' -> identity_compared t' = identity_compared t.
Proof.
  intros H. unfold identity_compared.
  rewrite (f_equal icmp_type H), (f_equal icmp_code H), (f_equal platform H),
    (f_equal platform_exclude H), (f_equal source_zone H),
    (f_equal destination_zone H).
  reflexivity.
Qed.

Lemma contains_flattened_identity (heap : nat) (self other : Term) :
  identity_compared self = true -> contains_flattened heap self other <> Return true.
Proof.
  unfold identity_compared, contains_flattened. intros H.
  rewrite !sorted_is_not_always, !andb_true_r.
  repeat match goal with
         | |- (if ?c then Return false else _) <> Return true =>
             destruct c eqn:?; [discriminate|]
         | |- bind ?m _ <> Return true =>
             destruct m as [[|]|?]; cbn [bind]; [discriminate| |discriminate]
         end.
  repeat match goal with
         | E : nonempty _ = false |- _ => rewrite E in H; clear E
         end.
  discriminate H.
Qed.

(** X12: a term that holds a value in [icmp_type], [icmp_code],
    [platform], [platform_exclude], [source_zone] or [destination_zone]
    contains no term: [other in self] is never true, whatever [other] is. *)
Theorem contains_never_with_identity_compared
    (AddressListExclude : list IPNet -> list IPNet -> list IPNet)
    (heap : nat) (self other : Term) :
  identity_compared self = true ->
  fst (fst (contains AddressListExclude heap self other)) <> Return true.
Proof.
  intros H. unfold contains.
  destruct (verbatim_differs self other); [discriminate|].
  destruct (protocol_excludes self other); [discriminate|].
  cbn [fst]. apply contains_flattened_identity.
  destruct (negb (flattened self)); [|exact H].
  rewrite (flattening_only_identity_compared _ _
             (proj1 (FlattenAll_frame AddressListExclude true self))).
  exact H.
Qed.

Lemma contains_never_with_identity_compared_witness :
  fst (fst (contains AddressListExclude_model 0 Samples.ping Samples.ping))
  <> Return true.
Proof.
  exact (contains_never_with_identity_compared AddressListExclude_model 0
           Samples.ping Samples.ping eq_refl).
Defined.

(** ** What [FlattenAll] writes *)

Section FlattenAllFacts.
Variable AddressListExclude : list IPNet -> list IPNet -> list IPNet.

Lemma FlattenAll_false_cache_only (t : Term) :
  cache_only t (FlattenAll AddressListExclude false t)
  /\ flattened (FlattenAll AddressListExclude false t) = true.
Proof.
  unfold cache_only, FlattenAll, nonempty. cbn.
  destruct (source_address_exclude t) eqn:E1;
    destruct (destination_address_exclude t) eqn:E2;
    destruct (address_exclude t) eqn:E3; cbn;
    rewrite ?E1, ?E2, ?E3; cbn; rewrite ?E1, ?E2, ?E3; cbn;
    rewrite ?E1, ?E2, ?E3; cbn.
  all: split; [|reflexivity].
  all: destruct t; reflexivity.
Qed.

Lemma FlattenAll_unset_daddr (mutate : bool) (t : Term) :
  no_excludes t = false -> destination_address_exclude t = [] ->
  flattened_daddr (FlattenAll AddressListExclude mutate t) = flattened_daddr t.
Proof.
  unfold no_excludes, FlattenAll, nonempty. cbn. intros Hne E2. rewrite E2 in *.
  destruct (source_address_exclude t) eqn:E1; destruct (address_exclude t) eqn:E3;
    destruct mutate; cbn; rewrite ?E1, ?E2, ?E3; cbn; rewrite ?E1, ?E2, ?E3; cbn;
    rewrite ?E1, ?E2, ?E3; cbn; try reflexivity; discriminate Hne.
Qed.
End FlattenAllFacts.

(** X13: [FlattenAll(mutate=False)] marks the term as flattened and writes
    nothing but the four attributes [flattened], [flattened_addr],
    [flattened_saddr] and [flattened_daddr]. *)
Theorem FlattenAll_without_mutate
    (AddressListExclude : list IPNet -> list IPNet -> list IPNet) (t : Term) :
  cache_only t (FlattenAll AddressListExclude false t)
  /\ flattened (FlattenAll AddressListExclude false t) = true.
Proof. apply FlattenAll_false_cache_only. Qed.

(** X14: when a term has some exclude list but none for the destination,
    [FlattenAll] does not assign [flattened_daddr].  On a term that was
    never flattened the attribute stays [None], whatever the
    destination-address list holds, and [CheckAddressIsContained] then
    takes it for an unrestricted superset. *)
Theorem FlattenAll_leaves_daddr_unset
    (AddressListExclude : list IPNet -> list IPNet -> list IPNet)
    (mutate : bool) (t : Term) :
  no_excludes t = false -> destination_address_exclude t = [] ->
  flattened_daddr t = None ->
  flattened_daddr (FlattenAll AddressListExclude mutate t) = None
  /\ forall subset,
       CheckAddressIsContained
         (flattened_daddr (FlattenAll AddressListExclude mutate t)) subset = true.
Proof.
  intros Hne Hd Hnone.
  rewrite (FlattenAll_unset_daddr AddressListExclude mutate t Hne Hd), Hnone.
  split; reflexivity.
Qed.

Lemma FlattenAll_leaves_daddr_unset_witness :
  let t := set_destination_address [Samples.net10] Samples.carve in
  flattened_daddr (FlattenAll AddressListExclude_model true t) = None
  /\ forall subset,
       CheckAddressIsContained
         (flattened_daddr (FlattenAll AddressListExclude_model true t)) subset = true.
Proof.
  exact (FlattenAll_leaves_daddr_unset AddressListExclude_model true
           (set_destination_address [Samples.net10] Samples.carve)
           eq_refl eq_refl eq_refl).
Defined.

(** ** What translation leaves behind *)

Lemma translation_only_refl (t : Term) : translation_only t t.
Proof. destruct t. reflexivity. Qed.

Lemma translation_only_trans (t u v : Term) :
  translation_only t u -> translation_only u v -> translation_only t v.
Proof.
  unfold translation_only. intros Hu Hv. rewrite Hv at 1. rewrite Hu at 1.
  reflexivity.
Qed.

Lemma mapM_Forall2 {A B : Type} (f : A -> Exc B) (l : list A) (l' : list B) :
  mapM f l = Return l' -> Forall2 (fun x y => f x = Return y) l l'.
Proof.
  revert l'. induction l as [|x l IH]; intros l' H.
  - simpl in H. injection H as <-. constructor.
  - simpl in H. apply bind_Return in H. destruct H as (y & Hy & H).
    apply bind_Return in H. destruct H as (ys & Hys & H).
    injection H as <-. constructor; [exact Hy|now apply IH].
Qed.

Lemma collapse_ports_collapsed (l p : list PortVal) :
  collapse_ports l = Return p -> collapsed_ports p.
Proof.
  unfold collapse_ports. intros H. apply bind_Return in H.
  destruct H as (r & _ & H). injection H as <-. now exists r.
Qed.

Lemma collapsed_ports_nil : collapsed_ports [].
Proof. now exists []. Qed.

Section TranslationFacts.
Variable SortAddrList : list IPNet -> list IPNet.
Variable CollapseAddrListPreserveTokens : list IPNet -> list IPNet.
Variable CollapseAddrList : list IPNet -> option (list IPNet) -> list IPNet.
Variable GetServiceByProto : PortVal -> string -> Exc (list string).

Lemma AddressCleanup_post (optimize addressbook : bool) (t r : Term) :
  AddressCleanup SortAddrList CollapseAddrListPreserveTokens CollapseAddrList
    optimize addressbook t = Return r ->
  translation_only t r /\ collapsed_ports (port r)
  /\ collapsed_ports (source_port r) /\ collapsed_ports (destination_port r).
Proof.
  unfold AddressCleanup.
  set (t1 := if nonempty (address t) then _ else t).
  set (t2 := if nonempty (source_address t1) then _ else t1).
  set (t3 := if nonempty (source_address_exclude t2) then _ else t2).
  set (t4 := if nonempty (destination_address t3) then _ else t3).
  set (t5 := if nonempty (destination_address_exclude t4) then _ else t4).
  cbv zeta.
  assert (H1 : translation_only t t1).
  { subst t1. destruct (nonempty (address t));
      [destruct t; reflexivity|apply translation_only_refl]. }
  assert (H2 : translation_only t1 t2).
  { subst t2. destruct (nonempty (source_address t1));
      [destruct t1; reflexivity|apply translation_only_refl]. }
  assert (H3 : translation_only t2 t3).
  { subst t3. destruct (nonempty (source_address_exclude t2));
      [destruct t2; reflexivity|apply translation_only_refl]. }
  assert (H4 : translation_only t3 t4).
  { subst t4. destruct (nonempty (destination_address t3));
      [destruct t3; reflexivity|apply translation_only_refl]. }
  assert (H5 : translation_only t4 t5).
  { subst t5. destruct (nonempty (destination_address_exclude t4));
      [destruct t4; reflexivity|apply translation_only_refl]. }
  assert (H05 : translation_only t t5).
  { eapply translation_only_trans; [exact H1|].
    eapply translation_only_trans; [exact H2|].
    eapply translation_only_trans; [exact H3|].
    eapply translation_only_trans; [exact H4|exact H5]. }
  clearbody t5. clear t1 t2 t3 t4 H1 H2 H3 H4 H5.
  intros H. apply bind_Return in H. destruct H as (t6 & H6 & H).
  apply bind_Return in H. destruct H as (t7 & H7 & H).
  assert (P6 : translation_only t5 t6 /\ collapsed_ports (port t6)
               /\ source_port t6 = source_port t5
               /\ destination_port t6 = destination_port t5).
  { destruct (port t5) as [|x xs] eqn:E; cbn [nonempty is_empty negb] in H6.
    - injection H6 as <-. rewrite E.
      split; [apply translation_only_refl|].
      split; [apply collapsed_ports_nil|]. split; reflexivity.
    - apply bind_Return in H6. destruct H6 as (p & Hp & H6). injection H6 as <-.
      split; [destruct t5; reflexivity|].
      split; [exact (collapse_ports_collapsed _ _ Hp)|]. split; reflexivity. }
  destruct P6 as (F6 & C6 & S6 & D6).
  assert (P7 : translation_only t6 t7 /\ collapsed_ports (source_port t7)
               /\ port t7 = port t6
               /\ destination_port t7 = destination_port t6).
  { destruct (source_port t6) as [|x xs] eqn:E; cbn [nonempty is_empty negb] in H7.
    - injection H7 as <-. rewrite E.
      split; [apply translation_only_refl|].
      split; [apply collapsed_ports_nil|]. split; reflexivity.
    - apply bind_Return in H7. destruct H7 as (p & Hp & H7). injection H7 as <-.
      split; [destruct t6; reflexivity|].
      split; [exact (collapse_ports_collapsed _ _ Hp)|]. split; reflexivity. }
  destruct P7 as (F7 & C7 & S7 & D7).
  assert (P8 : translation_only t7 r /\ collapsed_ports (destination_port r)
               /\ port r = port t7 /\ source_port r = source_port t7).
  { destruct (destination_port t7) as [|x xs] eqn:E; cbn [nonempty is_empty negb] in H.
    - injection H as <-. rewrite E.
      split; [apply translation_only_refl|].
      split; [apply collapsed_ports_nil|]. split; reflexivity.
    - apply bind_Return in H. destruct H as (p & Hp & H). injection H as <-.
      split; [destruct t7; reflexivity|].
      split; [exact (collapse_ports_collapsed _ _ Hp)|]. split; reflexivity. }
  destruct P8 as (F8 & C8 & S8 & D8).
  split; [|split; [|split]].
  - eapply translation_only_trans; [exact H05|].
    eapply translation_only_trans; [exact F6|].
    eapply translation_only_trans; [exact F7|exact F8].
  - now rewrite S8, S7.
  - now rewrite D8.
  - exact C8.
Qed.

Lemma translate_ports_field_post (get : Term -> list PortVal)
    (set : list PortVal -> Term -> Term) (t r : Term) :
  (forall v u, translation_only u (set v u)) ->
  translate_ports_field GetServiceByProto get set t = Return r ->
  translation_only t r.
Proof.
  intros Hset. unfold translate_ports_field.
  destruct (nonempty (get t)).
  - intros H. apply bind_Return in H. destruct H as (p & _ & H).
    destruct (is_empty p); [discriminate H|]. injection H as <-. apply Hset.
  - intros H. injection H as <-. apply translation_only_refl.
Qed.

Lemma translate_term_post (optimize : bool) (self : Policy) (t r : Term) :
  translate_term SortAddrList CollapseAddrListPreserveTokens CollapseAddrList
    GetServiceByProto optimize self t = Return r ->
  translation_only t r /\ translated r = true
  /\ (translated t = false ->
      SanityCheck r = Return tt /\ collapsed_ports (port r)
      /\ collapsed_ports (source_port r) /\ collapsed_ports (destination_port r)).
Proof.
  unfold translate_term. destruct (translated t) eqn:Et.
  - intros H. injection H as <-.
    split; [apply translation_only_refl|]. split; [exact Et|discriminate].
  - intros H.
    apply bind_Return in H. destruct H as (t1 & H1 & H).
    apply bind_Return in H. destruct H as (t2 & H2 & H).
    apply bind_Return in H. destruct H as (t3 & H3 & H).
    apply bind_Return in H. destruct H as (t4 & H4 & H).
    apply bind_Return in H. destruct H as ([] & Hs & H).
    injection H as <-.
    apply translate_ports_field_post in H1; [|intros v u; destruct u; reflexivity].
    apply translate_ports_field_post in H2; [|intros v u; destruct u; reflexivity].
    apply translate_ports_field_post in H3; [|intros v u; destruct u; reflexivity].
    apply AddressCleanup_post in H4. destruct H4 as (F4 & Cp & Cs & Cd).
    split; [|split; [reflexivity|]].
    + eapply translation_only_trans; [exact H1|].
      eapply translation_only_trans; [exact H2|].
      eapply translation_only_trans; [exact H3|].
      eapply translation_only_trans; [exact F4|].
      destruct t4; reflexivity.
    + intros _. repeat split; assumption.
Qed.

Lemma TranslatePorts_no_protocol (ports : list PortVal) :
  TranslatePorts GetServiceByProto ports [] = Return [].
Proof. reflexivity. Qed.

Lemma translate_term_no_protocol (optimize : bool) (self : Policy) (t : Term) :
  translated t = false -> declares_ports t = true -> protocol t = [] ->
  translate_term SortAddrList CollapseAddrListPreserveTokens CollapseAddrList
    GetServiceByProto optimize self t = Raise TermPortProtocolError.
Proof.
  intros Et Hd Hp. unfold translate_term. rewrite Et.
  assert (F : forall get set,
             translate_ports_field GetServiceByProto get set t
             = if nonempty (get t) then Raise TermPortProtocolError else Return t).
  { intros get set. unfold translate_ports_field. rewrite Hp.
    destruct (nonempty (get t)); reflexivity. }
  rewrite (F port).
  destruct (nonempty (port t)) eqn:E1; [reflexivity|]. cbn [bind].
  rewrite (F source_port).
  destruct (nonempty (source_port t)) eqn:E2; [reflexivity|]. cbn [bind].
  rewrite (F destination_port).
  destruct (nonempty (destination_port t)) eqn:E3; [reflexivity|].
  unfold declares_ports in Hd. rewrite E1, E2, E3 in Hd. discriminate Hd.
Qed.
End TranslationFacts.

(** X15: what [_TranslateTerms] has done when it ends without an
    exception.  The terms come back in the same number and order; each
    differs from what it was in its address, exclude and port lists and its
    [translated] mark at most; each is marked translated; and each term that
    was not marked before passes [SanityCheck] and has, in each port
    attribute, the tuples of a collapsed list. *)
Theorem TranslateTerms_postcondition
    (SortAddrList CollapseAddrListPreserveTokens : list IPNet -> list IPNet)
    (CollapseAddrList : list IPNet -> option (list IPNet) -> list IPNet)
    (GetServiceByProto : PortVal -> string -> Exc (list string))
    (optimize : bool) (self : Policy) (terms terms' : list Term) :
  _TranslateTerms SortAddrList CollapseAddrListPreserveTokens CollapseAddrList
    GetServiceByProto optimize self terms = Return terms' ->
  Forall2 (fun t r =>
             translation_only t r /\ translated r = true
             /\ (translated t = false ->
                 SanityCheck r = Return tt /\ collapsed_ports (port r)
                 /\ collapsed_ports (source_port r)
                 /\ collapsed_ports (destination_port r)))
    terms terms'.
Proof.
  unfold _TranslateTerms. destruct (is_empty terms); [discriminate|].
  intros H. apply mapM_Forall2 in H.
  eapply Forall2_impl; [|exact H].
  intros t r Hr. exact (translate_term_post _ _ _ _ _ _ _ _ Hr).
Qed.

Lemma TranslateTerms_postcondition_witness :
  let t := set_port [PName "HTTP"; PName "HIGH"] (set_protocol ["tcp"%string] Samples.any) in
  let r := set_translated true (set_port [PRange (80, 80); PRange (1024, 65535)] t) in
  Forall2 (fun t r =>
             translation_only t r /\ translated r = true
             /\ (translated t = false ->
                 SanityCheck r = Return tt /\ collapsed_ports (port r)
                 /\ collapsed_ports (source_port r)
                 /\ collapsed_ports (destination_port r)))
    [t] [r].
Proof.
  exact (TranslateTerms_postcondition Samples.keep Samples.keep Samples.keep2
           (fun port _ =>
              match port with
              | PName "HTTP" => Return ["80"%string]
              | _ => Return ["1024-65535"%string; "2000-2009"%string]
              end)
           true Samples.policy
           [set_port [PName "HTTP"; PName "HIGH"]
              (set_protocol ["tcp"%string] Samples.any)]
           [set_translated true
              (set_port [PRange (80, 80); PRange (1024, 65535)]
                 (set_port [PName "HTTP"; PName "HIGH"]
                    (set_protocol ["tcp"%string] Samples.any)))]
           eq_refl).
Defined.

(** X16: a term that declares a port attribute and names no protocol
    cannot be translated: [TranslatePorts] finds no port for it and
    [_TranslateTerms] raises [TermPortProtocolError]. *)
Theorem TranslateTerms_port_without_protocol
    (SortAddrList CollapseAddrListPreserveTokens : list IPNet -> list IPNet)
    (CollapseAddrList : list IPNet -> option (list IPNet) -> list IPNet)
    (GetServiceByProto : PortVal -> string -> Exc (list string))
    (optimize : bool) (self : Policy) (t : Term) (terms : list Term) :
  translated t = false -> declares_ports t = true -> protocol t = [] ->
  _TranslateTerms SortAddrList CollapseAddrListPreserveTokens CollapseAddrList
    GetServiceByProto optimize self (t :: terms) = Raise TermPortProtocolError.
Proof.
  intros Et Hd Hp. unfold _TranslateTerms. cbn [is_empty mapM].
  now rewrite (translate_term_no_protocol _ _ _ _ optimize self t Et Hd Hp).
Qed.

Lemma TranslateTerms_port_without_protocol_witness :
  _TranslateTerms Samples.keep Samples.keep Samples.keep2 Samples.no_service true
    Samples.policy [set_port [PName "HTTP"] Samples.any; Samples.done]
  = Raise TermPortProtocolError.
Proof.
  exact (TranslateTerms_port_without_protocol Samples.keep Samples.keep Samples.keep2
           Samples.no_service true Samples.policy
           (set_port [PName "HTTP"] Samples.any) [Samples.done]
           eq_refl eq_refl eq_refl).
Defined.

(* ================================================================== *)
(** * Building a policy *)
(* ================================================================== *)

Lemma Forall2_compose {A : Type} (P Q : A -> A -> Prop) (l m r : list A) :
  Forall2 P l m -> Forall2 Q m r ->
  Forall2 (fun x z => exists y, P x y /\ Q y z) l r.
Proof.
  intros H. revert r. induction H as [|x y l m Hxy _ IH]; intros r Hr.
  - inversion Hr. constructor.
  - inversion Hr as [|y' z m' r' Hyz Hr' E1 E2]; subst.
    constructor; [exists y; split; assumption|now apply IH].
Qed.

Lemma Forall2_refl_on {A : Type} (P : A -> A -> Prop) (l : list A) :
  (forall x, P x x) -> Forall2 P l l.
Proof. intros H. induction l; constructor; auto. Qed.

Lemma flatten_frame_translated (t r : Term) :
  flatten_frame t r -> translated r = translated t.
Proof. intros [H _]. unfold flattening_only in H. rewrite H. reflexivity. Qed.

(** X17: what [AddFilter] has done when it ends without an exception.
    The policy holds its earlier filters and, after them, one new filter
    with the given header; the file name is kept.  The new filter holds as
    many terms as were given, in the same order; each went through
    translation, which wrote at most the address, port and [translated]
    attributes, and then through the shading pass, which wrote at most the
    flattening attributes and left the addresses of a term without exclude
    list alone.  Unless the original is preserved, every stored term is
    marked translated. *)
Theorem AddFilter_postcondition
    (AddressListExclude : list IPNet -> list IPNet -> list IPNet)
    (SortAddrList CollapseAddrListPreserveTokens : list IPNet -> list IPNet)
    (CollapseAddrList : list IPNet -> option (list IPNet) -> list IPNet)
    (GetServiceByProto : PortVal -> string -> Exc (list string))
    (_PRESERVE_ORIGINAL _SHADE_CHECK _OPTIMIZE : bool)
    (heap : nat) (self : Policy) (header : Header.t) (terms : list Term)
    (result : Policy) (log : list Warning) :
  AddFilter AddressListExclude SortAddrList CollapseAddrListPreserveTokens
    CollapseAddrList GetServiceByProto _PRESERVE_ORIGINAL _SHADE_CHECK _OPTIMIZE
    heap self header terms = Return (result, log) ->
  exists stored,
    filters result = filters self ++ [(header, stored)]
    /\ filename result = filename self
    /\ Forall2 (fun t r =>
                  exists m, translation_only t m /\ flatten_frame m r
                            /\ (_PRESERVE_ORIGINAL = false -> translated r = true))
         terms stored.
Proof.
  unfold AddFilter. intros H.
  apply bind_Return in H. destruct H as (translated_terms & Ht & H).
  assert (T : Forall2 (fun t m => translation_only t m
                                  /\ (_PRESERVE_ORIGINAL = false -> translated m = true))
                terms translated_terms).
  { destruct _PRESERVE_ORIGINAL; cbn [negb] in Ht.
    - injection Ht as <-. apply Forall2_refl_on.
      intros x. split; [apply translation_only_refl|discriminate].
    - unfold _TranslateTerms in Ht. destruct (is_empty terms); [discriminate Ht|].
      apply mapM_Forall2 in Ht. eapply Forall2_impl; [|exact Ht].
      intros t m Hm. apply translate_term_post in Hm.
      destruct Hm as (F & Tr & _). split; [exact F|intros _; exact Tr]. }
  assert (S : exists stored,
             Return (A:=Policy * list Warning) (result, log)
             = Return (mkPolicy (filters self ++ [(header, stored)]) (filename self), log)
             /\ Forall2 flatten_frame translated_terms stored).
  { destruct _SHADE_CHECK.
    - pose proof (terms_after_frame AddressListExclude heap translated_terms) as F.
      unfold terms_after in F.
      destruct (_DetectShading AddressListExclude heap translated_terms)
        as [[u|e] [stored log']]; [|discriminate H].
      cbn [fst snd] in F. injection H as <- <-.
      exists stored. split; [reflexivity|exact F].
    - injection H as <- <-. exists translated_terms.
      split; [reflexivity|]. apply Forall2_refl_on, flatten_frame_refl. }
  destruct S as (stored & E & F). injection E as ->.
  exists stored. split; [reflexivity|]. split; [reflexivity|].
  eapply Forall2_impl; [|exact (Forall2_compose _ _ _ _ _ T F)].
  intros t r (m & (Hm & Htr) & Hf). exists m.
  split; [exact Hm|]. split; [exact Hf|].
  intros Hp. rewrite (flatten_frame_translated _ _ Hf). now apply Htr.
Qed.

Lemma AddFilter_postcondition_witness :
  exists (result : Policy) (log : list Warning),
    AddFilter AddressListExclude_model Samples.keep Samples.keep Samples.keep2
      Samples.no_service false true true 0 (mkPolicy [] EmptyString)
      Samples.header [Samples.carve; Samples.inner]
    = Return (result, log)
    /\ exists stored,
         filters result = [] ++ [(Samples.header, stored)]
         /\ filename result = EmptyString
         /\ Forall2 (fun t r =>
                       exists m, translation_only t m /\ flatten_frame m r
                                 /\ (false = false -> translated r = true))
              [Samples.carve; Samples.inner] stored.
Proof.
  eexists. eexists. split; [vm_compute; reflexivity|].
  eapply (AddFilter_postcondition AddressListExclude_model Samples.keep Samples.keep
           Samples.keep2 Samples.no_service false true true 0
           (mkPolicy [] EmptyString) Samples.header [Samples.carve; Samples.inner]).
  vm_compute; reflexivity.
Defined.

(* ================================================================== *)
(** * Headers and targets *)
(* ================================================================== *)

Lemma list_eqb_eq {A : Type} (eqb : A -> A -> bool) :
  (forall x y, eqb x y = true <-> x = y) ->
  forall a b, list_eqb eqb a b = true <-> a = b.
Proof.
  intros Heq. induction a as [|x a IH]; intros [|y b]; simpl;
    try (split; [discriminate|discriminate]); [tauto|].
  rewrite andb_true_iff, Heq, IH. split.
  - intros [-> ->]. reflexivity.
  - intros E. injection E as -> ->. split; reflexivity.
Qed.

Lemma Target_eqb_eq (a b : Target.t) : Target.eqb a b = true <-> a = b.
Proof.
  unfold Target.eqb. rewrite andb_true_iff, String.eqb_eq.
  rewrite (list_eqb_eq String.eqb String.eqb_eq).
  destruct a, b; simpl. split.
  - intros [-> ->]. reflexivity.
  - intros E. injection E as -> ->. split; reflexivity.
Qed.

Lemma FilterName_loop_first_options (targets : list Target.t) (platform : string)
    (tg : Target.t) :
  find (fun tg => String.eqb (Target.platform tg) platform) targets = Some tg ->
  nonempty (Target.options tg) = true ->
  FilterName_loop targets platform
  = if py_in String.eqb platform ["srx"; "paloalto"]%string then
      if (3 <=? List.length (Target.options tg))%nat then
        a <- getitem (Target.options tg) 1 ;;
        b <- getitem (Target.options tg) 3 ;;
        Return (Some (a ++ ">" ++ b)%string)
      else Return None
    else
      x <- getitem (Target.options tg) 0 ;;
      Return (Some x).
Proof.
  intros Hf Hn. induction targets as [|t0 rest IH]; [discriminate Hf|].
  cbn [find] in Hf. cbn [FilterName_loop].
  destruct (String.eqb (Target.platform t0) platform).
  - injection Hf as ->. rewrite Hn. reflexivity.
  - exact (IH Hf).
Qed.

Lemma FilterOptions_first (self : Header.t) (platform : string) :
  nonempty (Header.FilterOptions self platform) = true ->
  exists tg,
    find (fun tg => String.eqb (Target.platform tg) platform) (Header.target self)
    = Some tg
    /\ Target.options tg = Header.FilterOptions self platform.
Proof.
  unfold Header.FilterOptions.
  destruct (find _ (Header.target self)) as [tg|]; [|discriminate].
  intros _. exists tg. split; reflexivity.
Qed.

(** X18: [Header.FilterName] on a platform [srx] or [paloalto] whose
    target has exactly three options.  The length test lets three options
    through and the name is then built from [options[3]], which does not
    exist: the call raises [IndexError]. *)
Theorem FilterName_three_options (self : Header.t) (platform : string) :
  py_in String.eqb platform ["srx"; "paloalto"]%string = true ->
  List.length (Header.FilterOptions self platform) = 3%nat ->
  FilterName self platform = Raise IndexError.
Proof.
  intros Hp Hl.
  destruct (FilterOptions_first self platform) as (tg & Hf & Ho).
  { destruct (Header.FilterOptions self platform); [discriminate Hl|reflexivity]. }
  unfold FilterName.
  rewrite (FilterName_loop_first_options _ _ tg Hf);
    [|rewrite Ho; destruct (Header.FilterOptions self platform);
      [discriminate Hl|reflexivity]].
  rewrite Hp, Ho.
  destruct (Header.FilterOptions self platform) as [|o0 [|o1 [|o2 [|o3 l]]]];
    try discriminate Hl.
  reflexivity.
Qed.

Lemma FilterName_three_options_witness :
  FilterName
    (Header.mk [Target.mk "srx" ["from-zone"; "trust"; "to-zone"]%string] [] [] [])
    "srx"
  = Raise IndexError.
Proof.
  apply FilterName_three_options; reflexivity.
Defined.

(** X19: on any other platform [Header.FilterName] agrees with
    [Header.FilterOptions]: when the options of the platform are not empty,
    the name is the first of them. *)
Theorem FilterName_first_option (self : Header.t) (platform o : string)
    (rest : list string) :
  py_in String.eqb platform ["srx"; "paloalto"]%string = false ->
  Header.FilterOptions self platform = o :: rest ->
  FilterName self platform = Return (Some o).
Proof.
  intros Hp Ho.
  destruct (FilterOptions_first self platform) as (tg & Hf & Hg).
  { rewrite Ho. reflexivity. }
  unfold FilterName.
  rewrite (FilterName_loop_first_options _ _ tg Hf); [|rewrite Hg, Ho; reflexivity].
  rewrite Hp, Hg, Ho. reflexivity.
Qed.

Lemma FilterName_first_option_witness :
  FilterName Samples.header "juniper" = Return (Some "filter"%string).
Proof.
  apply (FilterName_first_option Samples.header "juniper" "filter" []); reflexivity.
Defined.

(** X20: [Header.__eq__], with [Target.__eq__] under it, is true exactly
    when the two headers hold the same targets (platform and options), the
    same comments and the same apply groups, each list in the same order. *)
Theorem Header_eqb_eq (a b : Header.t) : Header.eqb a b = true <-> a = b.
Proof.
  unfold Header.eqb.
  pose proof (list_eqb_eq Target.eqb Target_eqb_eq (Header.target a) (Header.target b)) as Ht.
  pose proof (list_eqb_eq String.eqb String.eqb_eq (Header.comment a) (Header.comment b)) as Hc.
  pose proof (list_eqb_eq String.eqb String.eqb_eq
                (Header.apply_groups a) (Header.apply_groups b)) as Hg.
  pose proof (list_eqb_eq String.eqb String.eqb_eq
                (Header.apply_groups_except a) (Header.apply_groups_except b)) as He.
  destruct a as [ta ca ga ea], b as [tb cb gb eb]; cbn [Header.target Header.comment
    Header.apply_groups Header.apply_groups_except] in *.
  destruct (list_eqb Target.eqb ta tb); cbn [negb].
  2:{ split; [discriminate|]. intros E. injection E as E _ _ _.
      apply Ht in E. discriminate E. }
  destruct (list_eqb String.eqb ca cb); cbn [negb].
  2:{ split; [discriminate|]. intros E. injection E as _ E _ _.
      apply Hc in E. discriminate E. }
  destruct (list_eqb String.eqb ga gb); cbn [negb].
  2:{ split; [discriminate|]. intros E. injection E as _ _ E _.
      apply Hg in E. discriminate E. }
  destruct (list_eqb String.eqb ea eb); cbn [negb].
  2:{ split; [discriminate|]. intros E. injection E as _ _ _ E.
      apply He in E. discriminate E. }
  split; [intros _|reflexivity].
  rewrite (proj1 Ht eq_refl), (proj1 Hc eq_refl), (proj1 Hg eq_refl), (proj1 He eq_refl).
  reflexivity.
Qed.

(* ================================================================== *)
(** * Addresses of a term by family *)
(* ================================================================== *)

Lemma addr_leb_total (a b : IPNet) : addr_leb a b = true \/ addr_leb b a = true.
Proof.
  unfold addr_leb.
  destruct (Z.ltb_spec (version a) (version b)); [left; reflexivity|].
  destruct (Z.ltb_spec (version b) (version a)); [right; reflexivity|].
  assert (E : version a = version b) by lia.
  rewrite E, Z.eqb_refl. cbn [orb andb].
  destruct (Z.ltb_spec (network_address a) (network_address b)); [left; reflexivity|].
  destruct (Z.ltb_spec (network_address b) (network_address a)); [right; reflexivity|].
  assert (E' : network_address a = network_address b) by lia.
  rewrite E', Z.eqb_refl. cbn [orb andb].
  destruct (Z.leb_spec (prefixlen a) (prefixlen b)); [left; reflexivity|].
  right. apply Z.leb_le. lia.
Qed.

Lemma insert_sorted_Permutation {A : Type} (leb : A -> A -> bool) (x : A) (l : list A) :
  Permutation (insert_sorted leb x l) (x :: l).
Proof.
  induction l as [|y l IH]; simpl; [reflexivity|].
  destruct (leb x y); [reflexivity|].
  rewrite IH. apply perm_swap.
Qed.

Lemma sorted_Permutation {A : Type} (leb : A -> A -> bool) (l : list A) :
  Permutation (sorted leb l) l.
Proof.
  induction l as [|x l IH]; simpl; [reflexivity|].
  rewrite insert_sorted_Permutation. now constructor.
Qed.

(** X21: [_SortAddressesByFamily] loses and repeats no address of
    version 4 or 6.  Its result is the version 4 addresses of the attribute
    in ascending order followed by the version 6 addresses in ascending
    order; an address of neither version is not in it. *)
Theorem SortAddressesByFamily_partition (self : Term)
    (addr_type : Term -> list IPNet) :
  exists l4 l6,
    _SortAddressesByFamily self addr_type = l4 ++ l6
    /\ Permutation l4 (filter (fun x => version x =? 4) (addr_type self))
    /\ Permutation l6 (filter (fun x => version x =? 6) (addr_type self))
    /\ chain addr_leb l4 = true /\ chain addr_leb l6 = true.
Proof.
  exists (sorted addr_leb (GetAddressOfVersion self addr_type (Some 4))),
         (sorted addr_leb (GetAddressOfVersion self addr_type (Some 6))).
  split; [reflexivity|].
  split; [apply sorted_Permutation|].
  split; [apply sorted_Permutation|].
  split; apply sorted_chain, addr_leb_total.
Qed.

Lemma fold_count_address (address_family : list Z) (l : list IPNet) (counter : Z) :
  fold_left (count_address address_family) l counter
  = counter
    + (if py_in Z.eqb 4 address_family
       then _IPV4_BYTE_SIZE * Z.of_nat (List.length (filter (fun x => version x =? 4) l))
       else 0)
    + (if py_in Z.eqb 6 address_family
       then _IPV6_BYTE_SIZE * Z.of_nat (List.length (filter (fun x => version x =? 6) l))
       else 0).
Proof.
  revert counter. induction l as [|i l IH]; intros counter.
  - cbn [fold_left filter List.length]. destruct (py_in Z.eqb 4 address_family),
      (py_in Z.eqb 6 address_family); unfold _IPV4_BYTE_SIZE, _IPV6_BYTE_SIZE; lia.
  - cbn [fold_left filter]. rewrite IH. unfold count_address.
    unfold _IPV4_BYTE_SIZE, _IPV6_BYTE_SIZE.
    destruct (Z.eqb_spec (version i) 6) as [E6|N6].
    + rewrite E6. change (6 =? 4) with false. cbn [andb].
      destruct (py_in Z.eqb 6 address_family), (py_in Z.eqb 4 address_family);
        cbn [List.length]; lia.
    + cbn [andb]. destruct (Z.eqb_spec (version i) 4) as [E4|N4].
      * rewrite E4. cbn [andb].
        destruct (py_in Z.eqb 6 address_family), (py_in Z.eqb 4 address_family);
          cbn [List.length]; lia.
      * cbn [andb]. reflexivity.
Qed.

(** X22: [AddressesByteLength] counts one unit for each version 4 address
    and four for each version 6 address of the source and destination
    addresses, for the families asked for: it is what
    [GetAddressOfVersion] returns for the two attributes and the two
    versions, weighted.  Addresses of the other attributes do not count. *)
Theorem AddressesByteLength_by_family (self : Term) (address_family : list Z) :
  AddressesByteLength self address_family
  = (if py_in Z.eqb 4 address_family
     then Z.of_nat (List.length (GetAddressOfVersion self source_address (Some 4)))
          + Z.of_nat (List.length (GetAddressOfVersion self destination_address (Some 4)))
     else 0)
    + 4 * (if py_in Z.eqb 6 address_family
           then Z.of_nat (List.length (GetAddressOfVersion self source_address (Some 6)))
                + Z.of_nat (List.length
                              (GetAddressOfVersion self destination_address (Some 6)))
           else 0).
Proof.
  unfold AddressesByteLength. rewrite !fold_count_address.
  unfold GetAddressOfVersion, _IPV4_BYTE_SIZE, _IPV6_BYTE_SIZE.
  change (4 =? 0) with false. change (6 =? 0) with false. cbv iota.
  destruct (py_in Z.eqb 4 address_family), (py_in Z.eqb 6 address_family); lia.
Qed.

(** X23: two targets built by [Target.__init__] compare equal with
    [Target.__eq__] exactly when they were built from the same list; the
    platform and the options together are the list again. *)
Theorem Target_init_eqb (a b : list string) (ta tb : Target.t) :
  Target_init a = Return ta -> Target_init b = Return tb ->
  Target.platform ta :: Target.options ta = a
  /\ (Target.eqb ta tb = true <-> a = b).
Proof.
  unfold Target_init, getitem. intros Ha Hb.
  destruct a as [|pa oa]; [discriminate Ha|].
  destruct b as [|pb ob]; [discriminate Hb|].
  cbn in Ha, Hb. injection Ha as <-. injection Hb as <-.
  split; [reflexivity|]. rewrite Target_eqb_eq. split.
  - intros E. injection E as -> ->. reflexivity.
  - intros E. injection E as -> ->. reflexivity.
Qed.

Lemma Target_init_eqb_witness :
  Target.platform (Target.mk "juniper" ["filter"; "inet6"]%string)
  :: Target.options (Target.mk "juniper" ["filter"; "inet6"]%string)
  = ["juniper"; "filter"; "inet6"]%string
  /\ (Target.eqb (Target.mk "juniper" ["filter"; "inet6"]%string)
        (Target.mk "juniper" ["filter"]%string) = true
      <-> ["juniper"; "filter"; "inet6"]%string = ["juniper"; "filter"]%string).
Proof.
  apply Target_init_eqb; reflexivity.
Defined.

(* ================================================================== *)
(** * What the lexer does with the characters of a text *)
(* ================================================================== *)

Lemma rule_action_value (r : Lexer.Rule) (v : string) (lineno : nat) :
  Lexer.value (fst (Lexer.rule_action r v lineno)) = v.
Proof. destruct r; reflexivity. Qed.

Lemma spells_blank (evs : list Lexer.LexEvent) (c : ascii) (rest : string) :
  Lexer.member c Lexer.t_ignore = true ->
  spells evs (String c rest) = spells evs rest.
Proof.
  intros H. destruct evs as [|ev evs]; cbn [spells blank skip_blanks]; now rewrite H.
Qed.

Lemma prefix_substring (n : nat) (s : string) :
  String.prefix (substring 0 n s) s = true.
Proof.
  revert s. induction n as [|n IH]; intros [|c s]; cbn; try reflexivity.
  destruct (ascii_dec c c) as [_|N]; [apply IH|now elim N].
Qed.

Lemma drop_length_substring (n : nat) (s : string) :
  Lexer.drop (String.length (substring 0 n s)) s = Lexer.drop n s.
Proof.
  revert s. induction n as [|n IH]; intros [|c s]; cbn; try reflexivity.
  apply IH.
Qed.

Lemma first_match_positive (rs : list (Lexer.Rule * (string -> option nat)))
    (s : string) (r : Lexer.Rule) (n : nat) :
  Lexer.first_match rs s = Some (r, n) -> exists m, n = S m.
Proof.
  induction rs as [|[r0 re] rs IH]; cbn [Lexer.first_match]; [discriminate|].
  destruct (re s) as [[|m]|]; try exact IH.
  intros E. injection E as _ <-. now exists m.
Qed.

Lemma spells_event (ev : Lexer.LexEvent) (evs : list Lexer.LexEvent) (c : ascii)
    (rest : string) (n : nat) :
  Lexer.member c Lexer.t_ignore = false ->
  event_text ev = substring 0 (S n) (String c rest) ->
  spells evs (Lexer.drop n rest) = true ->
  spells (ev :: evs) (String c rest) = true.
Proof.
  intros Hign Hv H. cbn [spells skip_blanks]. rewrite Hign. cbv zeta. rewrite Hv.
  rewrite prefix_substring, drop_length_substring.
  cbn [substring Lexer.drop]. rewrite H. reflexivity.
Qed.

Lemma scan_spells (input : string) :
  forall prev inside lineno evs,
    Lexer.scan input prev inside lineno = Return evs ->
    spells evs (Lexer.drop inside input) = true.
Proof.
  induction input as [|c rest IH]; intros prev inside lineno evs H.
  - cbn in H. injection H as <-. destruct inside; reflexivity.
  - cbn [Lexer.scan] in H. destruct inside as [|k].
    2:{ cbn [Lexer.drop]. exact (IH _ _ _ _ H). }
    cbn [Lexer.drop].
    destruct (Lexer.member c Lexer.t_ignore) eqn:Hign.
    { rewrite (spells_blank _ _ _ Hign).
      apply IH in H. destruct rest; exact H. }
    destruct (Lexer.first_match (Lexer.rules prev) (String c rest)) as [[r n]|] eqn:Hm.
    + destruct (first_match_positive _ _ _ _ Hm) as [m ->].
      pose proof (rule_action_value r (substring 0 (S m) (String c rest)) lineno) as Hv.
      destruct (Lexer.rule_action r (substring 0 (S m) (String c rest)) lineno)
        as [tok lineno'].
      cbn [fst] in Hv.
      apply bind_Return in H. destruct H as (evs' & He & H). injection H as <-.
      apply IH in He. cbn [Nat.pred] in He.
      exact (spells_event (Lexer.Token tok) evs' c rest m Hign Hv He).
    + destruct (Lexer.member c Lexer.literals).
      * apply bind_Return in H. destruct H as (evs' & He & H). injection H as <-.
        apply IH in He.
        apply (spells_event _ evs' c rest 0 Hign); [destruct rest; reflexivity|exact He].
      * cbn [Lexer.t_error] in H.
        apply bind_Return in H. destruct H as (evs' & He & H). injection H as <-.
        apply IH in He.
        apply (spells_event _ evs' c rest 0 Hign); [destruct rest; reflexivity|exact He].
Qed.

(** X24: the lexer drops nothing but blanks between its events.  Every
    text is spelled by the events of its scan: the values of the tokens and
    the characters reported as illegal stand in the text in the order of
    the events, each of them whole and as it is, blanks inside a value
    included, with nothing but characters of [t_ignore] before, between
    and behind them. *)
Theorem tokenize_spells_the_text (input : string) :
  exists evs,
    Lexer.tokenize input = Return evs /\ spells evs input = true.
Proof.
  destruct (scan_returns input None 0%nat 1%nat) as [evs H].
  exists evs. split; [exact H|].
  apply scan_spells in H. destruct input; exact H.
Qed.

(** ** Keywords *)

Lemma scan_inside (u s : string) :
  forall prev lineno,
    Lexer.scan (u ++ s) prev (String.length u) lineno
    = Lexer.scan s (last_char prev u) 0 lineno.
Proof.
  induction u as [|c u IH]; intros prev lineno; [reflexivity|].
  cbn [append String.length last_char Lexer.scan]. apply IH.
Qed.

Lemma substring_prefix (u s : string) :
  substring 0 (String.length u) (u ++ s) = u.
Proof.
  induction u as [|c u IH]; cbn.
  - destruct s; reflexivity.
  - now rewrite IH.
Qed.

Lemma span_stops (p : ascii -> bool) (u rest : string) :
  forallb p (list_ascii_of_string u) = true ->
  match rest with EmptyString => true | String c _ => negb (p c) end = true ->
  Lexer.span p (u ++ rest) = String.length u.
Proof.
  intros Hu Hr. induction u as [|c u IH]; cbn in Hu |- *.
  - destruct rest as [|c rest]; [reflexivity|]. cbn.
    apply negb_true_iff in Hr. now rewrite Hr.
  - apply andb_true_iff in Hu. destruct Hu as [Hc Hu].
    rewrite Hc. now rewrite (IH Hu).
Qed.

Lemma first_match_STRING (prev : option ascii) (s : string) (n : nat) :
  Lexer.re_BLOCK_COMMENT s = None -> Lexer.re_ESCAPEDSTRING s = None ->
  Lexer.re_DQUOTEDSTRING s = None -> Lexer.re_NEWLINE s = None ->
  Lexer.dscp_name s = None -> Lexer.re_HEX s = None -> Lexer.re_INTEGER s = None ->
  Lexer.re_STRING s = Some (S n) ->
  Lexer.first_match (Lexer.rules prev) s = Some (Lexer.STRING, S n).
Proof.
  intros H1 H2 H3 H4 H5 H6 H7 H8.
  unfold Lexer.rules. cbn [Lexer.first_match].
  rewrite H1, H2, H3, H4.
  unfold Lexer.re_DSCP_RANGE, Lexer.re_DSCP. rewrite H5.
  destruct (Lexer.boundary_before prev); rewrite H6, H7, H8; reflexivity.
Qed.

(** The statement of the keyword rule for one entry of the table. *)
Lemma keyword_scan (w ty : string) (c0 : ascii) (w' : string) :
  w = String c0 w' ->
  Lexer.member c0 Lexer.t_ignore = false ->
  (forall rest, Lexer.re_BLOCK_COMMENT (w ++ rest) = None) ->
  (forall rest, Lexer.re_ESCAPEDSTRING (w ++ rest) = None) ->
  (forall rest, Lexer.re_DQUOTEDSTRING (w ++ rest) = None) ->
  (forall rest, Lexer.re_NEWLINE (w ++ rest) = None) ->
  (forall rest, Lexer.dscp_name (w ++ rest) = None) ->
  (forall rest, Lexer.re_HEX (w ++ rest) = None) ->
  (forall rest, Lexer.re_INTEGER (w ++ rest) = None) ->
  Lexer.word c0 = true ->
  forallb (fun c => Lexer.word c
                    || Lexer.member c ["-"; "_"; "+"; "."; "@"; "/"]%char)
    (list_ascii_of_string w') = true ->
  Lexer.reserved_get Lexer.reserved w "STRING" = ty ->
  forall prev rest lineno,
    stops_word rest = true ->
    Lexer.scan (w ++ rest) prev 0 lineno
    = (evs <- Lexer.scan rest (last_char prev w) 0 lineno ;;
       Return (Lexer.Token (Lexer.mkLexToken ty w lineno) :: evs)).
Proof.
  intros -> Hign H1 H2 H3 H4 H5 H6 H7 Hw Hall Hty prev rest lineno Hstop.
  assert (Hm : Lexer.first_match (Lexer.rules prev) (String c0 w' ++ rest)
               = Some (Lexer.STRING, S (String.length w'))).
  { apply first_match_STRING; auto.
    cbn [append Lexer.re_STRING]. rewrite Hw. f_equal. f_equal.
    apply span_stops; [exact Hall|].
    destruct rest as [|c rest]; [reflexivity|exact Hstop]. }
  change (String c0 w' ++ rest)%string with (String c0 (w' ++ rest)) in *.
  cbn [Lexer.scan]. rewrite Hign, Hm.
  change (String c0 (w' ++ rest)) with (String c0 w' ++ rest)%string.
  change (S (String.length w')) with (String.length (String c0 w')).
  rewrite substring_prefix.
  cbn [Lexer.rule_action]. rewrite Hty.
  cbn [String.length Nat.pred last_char]. now rewrite scan_inside.
Qed.

Ltac keyword_entry :=
  eapply keyword_scan;
  [ reflexivity | reflexivity | intros; reflexivity | intros; reflexivity
  | intros; reflexivity | intros; reflexivity | intros; reflexivity
  | intros; reflexivity | intros; reflexivity | reflexivity
  | vm_compute; reflexivity | vm_compute; reflexivity ].

Lemma keywords_scan :
  Forall (fun entry =>
            forall prev rest lineno,
              stops_word rest = true ->
              Lexer.scan (fst entry ++ rest) prev 0 lineno
              = (evs <- Lexer.scan rest (last_char prev (fst entry)) 0 lineno ;;
                 Return (Lexer.Token (Lexer.mkLexToken (snd entry) (fst entry) lineno)
                         :: evs)))
    Lexer.reserved.
Proof.
  unfold Lexer.reserved.
  repeat (apply Forall_cons; [cbn [fst snd]; keyword_entry|]).
  apply Forall_nil.
Qed.

(** X25: every keyword of the table [reserved] is lexed as its keyword.
    Where the text goes on with a keyword and then ends, or goes on with a
    character that cannot continue a word, the lexer hands over one token
    of the keyword's type whose value is the keyword, and goes on behind
    it; no other rule takes the keyword. *)
Theorem scan_keyword (w ty : string) (prev : option ascii) (rest : string)
    (lineno : nat) :
  In (w, ty) Lexer.reserved -> stops_word rest = true ->
  Lexer.scan (w ++ rest) prev 0 lineno
  = (evs <- Lexer.scan rest (last_char prev w) 0 lineno ;;
     Return (Lexer.Token (Lexer.mkLexToken ty w lineno) :: evs)).
Proof.
  intros Hin Hstop.
  exact (proj1 (Forall_forall _ _) keywords_scan (w, ty) Hin prev rest lineno Hstop).
Qed.

Lemma scan_keyword_witness :
  Lexer.scan ("action" ++ ":: accept")%string None 0 1
  = (evs <- Lexer.scan ":: accept"%string (last_char None "action"%string) 0 1 ;;
     Return (Lexer.Token (Lexer.mkLexToken "ACTION"%string "action"%string 1) :: evs)).
Proof.
  apply scan_keyword; [left; reflexivity|reflexivity].
Defined.

(* ================================================================== *)
(** * pol2yaml: classification and the file plan *)
(* ================================================================== *)

(** X26: [classify_file] never answers [YAML_POL] or [YAML_INC].  The two
    tests of [classify_yaml_content] that would give these answers compare
    a key view with a list and are never true.  A file type that is
    returned is one of the four suffix types or [YAML_DEF], and [YAML_DEF]
    stands for a loaded dict with the key [networks] or [services]. *)
Theorem classify_file_never_yaml_policy (suffix : string)
    (loading : Pol2yaml.Loading) (file_type : Pol2yaml.FileType) :
  Pol2yaml.classify_file suffix loading = Pol2yaml.Returns (Some file_type) ->
  In file_type [Pol2yaml.POL; Pol2yaml.INC; Pol2yaml.SVC; Pol2yaml.NET;
                Pol2yaml.YAML_DEF]
  /\ (file_type = Pol2yaml.YAML_DEF ->
      exists keys,
        loading = Pol2yaml.Loaded (Pol2yaml.YamlDict keys)
        /\ (In "networks"%string keys \/ In "services"%string keys)).
Proof.
  unfold Pol2yaml.classify_file.
  destruct (String.eqb suffix ".pol");
    [intros H; injection H as <-; split; [cbn; tauto|discriminate]|].
  destruct (String.eqb suffix ".inc");
    [intros H; injection H as <-; split; [cbn; tauto|discriminate]|].
  destruct (String.eqb suffix ".svc");
    [intros H; injection H as <-; split; [cbn; tauto|discriminate]|].
  destruct (String.eqb suffix ".net");
    [intros H; injection H as <-; split; [cbn; tauto|discriminate]|].
  destruct (String.eqb suffix ".yaml" || String.eqb suffix ".yml"); [|discriminate].
  destruct loading as [[keys|]| |]; try discriminate.
  unfold Pol2yaml.classify_yaml_content, Pol2yaml.keys_eq_list.
  destruct (py_in String.eqb "networks"%string keys
            || py_in String.eqb "services"%string keys) eqn:E; [|discriminate].
  intros H. injection H as <-. split; [cbn; tauto|].
  intros _. exists keys. split; [reflexivity|].
  apply orb_true_iff in E. now rewrite <- !py_in_string_iff.
Qed.

Lemma classify_file_never_yaml_policy_witness :
  In Pol2yaml.YAML_DEF [Pol2yaml.POL; Pol2yaml.INC; Pol2yaml.SVC; Pol2yaml.NET;
                        Pol2yaml.YAML_DEF]
  /\ (Pol2yaml.YAML_DEF = Pol2yaml.YAML_DEF ->
      exists keys,
        Pol2yaml.Loaded (Pol2yaml.YamlDict ["filters"; "networks"]%string)
        = Pol2yaml.Loaded (Pol2yaml.YamlDict keys)
        /\ (In "networks"%string keys \/ In "services"%string keys)).
Proof.
  apply (classify_file_never_yaml_policy ".yaml"
           (Pol2yaml.Loaded (Pol2yaml.YamlDict ["filters"; "networks"]%string))).
  reflexivity.
Defined.

Lemma fold_left_invariant {S I : Type} (P : S -> Prop) (f : S -> I -> S)
    (l : list I) (s : S) :
  P s -> (forall s i, P s -> In i l -> P (f s i)) -> P (fold_left f l s).
Proof.
  revert s. induction l as [|i l IH]; intros s Hs Hf; [exact Hs|].
  cbn [fold_left]. apply IH.
  - apply Hf; [exact Hs|left; reflexivity].
  - intros s' i' Hs' Hi'. apply Hf; [exact Hs'|right; exact Hi'].
Qed.

Lemma foldM_invariant {S I : Type} (P : S -> Prop) (body : S -> I -> Exc S)
    (l : list I) (s r : S) :
  P s -> (forall s i s', P s -> In i l -> body s i = Return s' -> P s') ->
  Pol2yaml.foldM body l s = Return r -> P r.
Proof.
  revert s. induction l as [|i l IH]; intros s Hs Hf H.
  - injection H as <-. exact Hs.
  - cbn [Pol2yaml.foldM] in H. apply bind_Return in H. destruct H as (s' & Hb & H).
    apply (IH s'); [|intros s0 i0 s1 H0 Hi0; apply Hf; [exact H0|right; exact Hi0]|exact H].
    apply (Hf s i s' Hs); [left; reflexivity|exact Hb].
Qed.

Lemma foldM_pure {S I : Type} (f : S -> I -> S) (l : list I) (s : S) :
  Pol2yaml.foldM (fun s i => Return (f s i)) l s = Return (fold_left f l s).
Proof.
  revert s. induction l as [|i l IH]; intros s; [reflexivity|].
  cbn [Pol2yaml.foldM fold_left bind]. apply IH.
Qed.

Ltac plan_value :=
  repeat split; try discriminate;
  try (let H := fresh in intros [H|H]; discriminate H).

Section FilePlanFacts.
Variable Path : Type.
Variable Path_eqb : Path -> Path -> bool.
Variable suffix : Path -> string.
Variable exists_ : Path -> bool.
Variable resolve : Path -> Path.
Variable with_suffix : Path -> string -> Path.
Variable relative_to : Path -> Path -> Exc Path.
Variable parent : Path -> Path.
Variable joinpath : Path -> Path -> Path.
Variable rglob : Path -> list Path.
Variable Path_of : string -> Path.

Local Abbreviation Plan := (Pol2yaml.Plan Path).
Local Abbreviation dict_set := (Pol2yaml.dict_set Path Path_eqb).
Local Abbreviation dict_update := (Pol2yaml.dict_update Path Path_eqb).
Local Abbreviation keys := (Pol2yaml.keys Path).
Local Abbreviation input_files :=
  (Pol2yaml.input_files Path Path_eqb suffix exists_ resolve rglob Path_of).
Local Abbreviation output_files :=
  (Pol2yaml.output_files Path Path_eqb exists_ resolve with_suffix relative_to parent
     joinpath Path_of).
Local Abbreviation _get_file_plan :=
  (Pol2yaml._get_file_plan Path Path_eqb suffix exists_ resolve with_suffix relative_to
     parent joinpath rglob Path_of).
Local Abbreviation _get_output_target :=
  (Pol2yaml._get_output_target Path resolve with_suffix relative_to parent joinpath
     Path_of).

Lemma In_dict_set (k : Path) (v : Pol2yaml._FilePlan) (d : Plan)
    (kv : Path * Pol2yaml._FilePlan) :
  In kv (dict_set k v d) -> snd kv = v \/ In kv d.
Proof.
  induction d as [|[k' v'] d IH]; cbn [Pol2yaml.dict_set].
  - intros [<-|[]]. left. reflexivity.
  - destruct (Path_eqb k k').
    + intros [<-|H]; [left; reflexivity|right; right; exact H].
    + intros [<-|H]; [right; left; reflexivity|].
      destruct (IH H) as [E|E]; [left; exact E|right; right; exact E].
Qed.

Lemma keys_dict_set (k : Path) (v : Pol2yaml._FilePlan) (d : Plan) :
  keys (dict_set k v d)
  = if existsb (Path_eqb k) (keys d) then keys d else keys d ++ [k].
Proof.
  unfold Pol2yaml.keys.
  induction d as [|[k' v'] d IH]; [reflexivity|].
  cbn [Pol2yaml.dict_set map fst existsb].
  destruct (Path_eqb k k'); [reflexivity|].
  cbn [map fst orb]. rewrite IH.
  destruct (existsb (Path_eqb k) (map fst d)); reflexivity.
Qed.

Lemma input_files_INPUT (directory : Path) (input_mode : Pol2yaml._InputMode)
    (operation : Pol2yaml._Operation) (options : Pol2yaml.Options) :
  Forall (fun kv => snd kv = Pol2yaml.INPUT)
    (input_files directory input_mode operation options).
Proof.
  unfold Pol2yaml.input_files. destruct input_mode.
  - apply fold_left_invariant; [constructor|].
    intros s i Hs _.
    destruct (negb (py_in String.eqb (suffix i) _)); [exact Hs|].
    apply Forall_forall. intros kv Hkv. apply In_dict_set in Hkv.
    destruct Hkv as [E|Hkv]; [exact E|]. exact (proj1 (Forall_forall _ _) Hs kv Hkv).
  - apply fold_left_invariant; [constructor|].
    intros s i Hs _.
    destruct (negb (py_in String.eqb (suffix (Path_of i)) _)); [exact Hs|].
    destruct (negb (exists_ (Path_of i))); [exact Hs|].
    apply Forall_forall. intros kv Hkv. apply In_dict_set in Hkv.
    destruct Hkv as [E|Hkv]; [exact E|]. exact (proj1 (Forall_forall _ _) Hs kv Hkv).
Qed.

(** What one turn of any of the three output loops does: it writes the
    output target of the file, with a plan that is not [INPUT] and, with
    [--force], not [OUTPUT_CONFLICT]. *)
Lemma output_loop_body (directory : Path) (input_mode : Pol2yaml._InputMode)
    (operation : Pol2yaml._Operation) (output_mode : Pol2yaml._ConverterOutputMode)
    (options : Pol2yaml.Options) (files : Plan) (out : Plan) :
  output_files directory input_mode operation output_mode options files = Return out ->
  exists body,
    Pol2yaml.foldM body (keys files) [] = Return out
    /\ forall o f o',
         body o f = Return o' ->
         exists target v,
           _get_output_target directory f input_mode operation output_mode options
           = Return target
           /\ o' = dict_set target v o
           /\ v <> Pol2yaml.INPUT
           /\ (output_mode = Pol2yaml.FORCE \/ operation = Pol2yaml.REFORMAT_YAML ->
               v <> Pol2yaml.OUTPUT_CONFLICT)
           /\ (truthy_str (Pol2yaml.output_directory options) = false ->
               operation = Pol2yaml.REFORMAT_YAML ->
               target = f /\ v = Pol2yaml.REFORMAT).
Proof.
  unfold Pol2yaml.output_files, Pol2yaml._get_output_target.
  destruct (truthy_str (Pol2yaml.output_directory options)) eqn:Ht.
  - intros H. eexists. split; [exact H|].
    intros o f o'. unfold Pol2yaml.plan_in_output_directory.
    set (renamed := match operation with
                    | Pol2yaml.CONVERT => with_suffix f ".yaml"
                    | Pol2yaml.REFORMAT_YAML => f
                    end).
    destruct (match input_mode with
              | Pol2yaml.RECURSIVE => relative_to renamed (parent directory)
              | Pol2yaml.FILES => relative_to renamed directory
              end) as [rel|e]; cbn [bind]; [|discriminate].
    set (target := resolve (joinpath _ rel)).
    destruct (negb (exists_ (parent target))).
    { intros E. injection E as <-. exists target, Pol2yaml.OUTPUT_MKDIR.
      plan_value. }
    destruct operation.
    + destruct (exists_ target).
      * destruct output_mode; intros E; injection E as <-.
        -- exists target, Pol2yaml.OUTPUT_CONFLICT. plan_value.
        -- exists target, Pol2yaml.OUTPUT_FORCE. plan_value.
      * intros E. injection E as <-. exists target, Pol2yaml.OUTPUT.
        plan_value.
    + intros E. injection E as <-. exists target, Pol2yaml.OUTPUT.
      plan_value.
  - destruct operation; intros H; injection H as <-.
    + exists (fun o f => Return (Pol2yaml.plan_in_place Path Path_eqb exists_
                                   with_suffix output_mode o f)).
      split; [apply foldM_pure|].
      intros o f o' E. injection E as <-. unfold Pol2yaml.plan_in_place.
      destruct (exists_ (with_suffix f ".yaml")).
      * destruct output_mode.
        -- exists (with_suffix f ".yaml"), Pol2yaml.OUTPUT_CONFLICT.
           plan_value.
        -- exists (with_suffix f ".yaml"), Pol2yaml.OUTPUT_FORCE.
           plan_value.
      * exists (with_suffix f ".yaml"), Pol2yaml.OUTPUT. plan_value.
    + exists (fun o f => Return (dict_set f Pol2yaml.REFORMAT o)).
      split; [apply foldM_pure|].
      intros o f o' E. injection E as <-. exists f, Pol2yaml.REFORMAT.
      plan_value.
Qed.

Lemma get_file_plan_values (P : Pol2yaml._FilePlan -> Prop)
    (directory : Path) (input_mode : Pol2yaml._InputMode)
    (operation : Pol2yaml._Operation) (output_mode : Pol2yaml._ConverterOutputMode)
    (options : Pol2yaml.Options) (plan : Plan) :
  P Pol2yaml.INPUT ->
  (forall v, v <> Pol2yaml.INPUT ->
             (output_mode = Pol2yaml.FORCE \/ operation = Pol2yaml.REFORMAT_YAML ->
              v <> Pol2yaml.OUTPUT_CONFLICT) -> P v) ->
  _get_file_plan directory input_mode operation output_mode options = Return plan ->
  Forall (fun kv => P (snd kv)) plan.
Proof.
  intros Pin Pout H. unfold Pol2yaml._get_file_plan in H.
  apply bind_Return in H. destruct H as (out & Ho & H). injection H as <-.
  apply output_loop_body in Ho. destruct Ho as (body & Hfold & Hbody).
  assert (Hout : Forall (fun kv => P (snd kv)) out).
  { apply (foldM_invariant _ body (keys (input_files directory input_mode operation
                                           options)) [] out); [constructor| |exact Hfold].
    intros o f o' Hs _ Hb.
    destruct (Hbody o f o' Hb) as (target & v & _ & -> & Hv & Hc & _).
    apply Forall_forall. intros kv Hkv. apply In_dict_set in Hkv.
    destruct Hkv as [->|Hkv]; [now apply Pout|].
    exact (proj1 (Forall_forall _ _) Hs kv Hkv). }
  unfold Pol2yaml.dict_update. apply fold_left_invariant.
  - eapply Forall_impl; [|apply input_files_INPUT].
    intros kv E. cbn beta in E. now rewrite E.
  - intros s kv Hs Hkv. apply Forall_forall. intros kv' Hkv'.
    apply In_dict_set in Hkv'. destruct Hkv' as [->|Hkv'].
    + exact (proj1 (Forall_forall _ _) Hout kv Hkv).
    + exact (proj1 (Forall_forall _ _) Hs kv' Hkv').
Qed.

Hypothesis Path_eqb_eq : forall a b, Path_eqb a b = true <-> a = b.

Lemma existsb_Path_eqb (k : Path) (l : list Path) :
  existsb (Path_eqb k) l = true <-> In k l.
Proof.
  rewrite existsb_exists. split.
  - intros (x & Hx & E). apply Path_eqb_eq in E. now subst.
  - intros H. exists k. split; [exact H|now apply Path_eqb_eq].
Qed.

Lemma In_keys_dict_set (k k' : Path) (v : Pol2yaml._FilePlan) (d : Plan) :
  In k' (keys (dict_set k v d)) <-> k' = k \/ In k' (keys d).
Proof.
  rewrite keys_dict_set.
  destruct (existsb (Path_eqb k) (keys d)) eqn:E.
  - apply existsb_Path_eqb in E. split; [tauto|]. intros [->|H]; assumption.
  - rewrite in_app_iff. cbn [In]. intuition congruence.
Qed.

Lemma NoDup_keys_dict_set (k : Path) (v : Pol2yaml._FilePlan) (d : Plan) :
  NoDup (keys d) -> NoDup (keys (dict_set k v d)).
Proof.
  intros H. rewrite keys_dict_set.
  destruct (existsb (Path_eqb k) (keys d)) eqn:E; [exact H|].
  assert (Hk : ~ In k (keys d)).
  { intros Hin. apply existsb_Path_eqb in Hin. congruence. }
  apply NoDup_app; [exact H|constructor; [intros []|constructor]|].
  intros x Hx [<-|[]]. exact (Hk Hx).
Qed.

Lemma In_dict_set_self (k : Path) (v : Pol2yaml._FilePlan) (d : Plan) :
  In (k, v) (dict_set k v d).
Proof.
  induction d as [|[k' v'] d IH]; cbn [Pol2yaml.dict_set]; [left; reflexivity|].
  destruct (Path_eqb k k') eqn:E.
  - apply Path_eqb_eq in E. subst k'. left. reflexivity.
  - right. exact IH.
Qed.

Lemma In_dict_set_entry (k : Path) (v : Pol2yaml._FilePlan) (d : Plan)
    (kv : Path * Pol2yaml._FilePlan) :
  In kv (dict_set k v d) -> kv = (k, v) \/ In kv d.
Proof.
  induction d as [|[k' v'] d IH]; cbn [Pol2yaml.dict_set].
  - intros [<-|[]]. left. reflexivity.
  - destruct (Path_eqb k k') eqn:E.
    + apply Path_eqb_eq in E. subst k'.
      intros [<-|H]; [left; reflexivity|right; right; exact H].
    + intros [<-|H]; [right; left; reflexivity|].
      destruct (IH H) as [E'|E']; [left; exact E'|right; right; exact E'].
Qed.


Lemma NoDup_keys_unique (k : Path) (v1 v2 : Pol2yaml._FilePlan) (d : Plan) :
  NoDup (keys d) -> In (k, v1) d -> In (k, v2) d -> v1 = v2.
Proof.
  induction d as [|[k' v'] d IH]; [intros _ []|].
  cbn [Pol2yaml.keys map fst]. intros Hn H1 H2. inversion Hn as [|x l Hx Hl]; subst.
  destruct H1 as [H1|H1], H2 as [H2|H2].
  - congruence.
  - injection H1 as -> ->. exfalso. apply Hx.
    change k with (fst (k, v2)). now apply in_map.
  - injection H2 as -> ->. exfalso. apply Hx.
    change k with (fst (k, v1)). now apply in_map.
  - now apply IH.
Qed.

Lemma NoDup_keys_input_files (directory : Path) (input_mode : Pol2yaml._InputMode)
    (operation : Pol2yaml._Operation) (options : Pol2yaml.Options) :
  NoDup (keys (input_files directory input_mode operation options)).
Proof.
  unfold Pol2yaml.input_files. destruct input_mode.
  - apply (fold_left_invariant (fun d : Plan => NoDup (keys d))); [constructor|].
    intros s i Hs _.
    destruct (negb (py_in String.eqb (suffix i) _)); [exact Hs|].
    now apply NoDup_keys_dict_set.
  - apply (fold_left_invariant (fun d : Plan => NoDup (keys d))); [constructor|].
    intros s i Hs _.
    destruct (negb (py_in String.eqb (suffix (Path_of i)) _)); [exact Hs|].
    destruct (negb (exists_ (Path_of i))); [exact Hs|].
    now apply NoDup_keys_dict_set.
Qed.



Lemma keys_update (out d : Plan) :
  (forall kv, In kv out -> In (fst kv) (keys d)) ->
  keys (dict_update d out) = keys d.
Proof.
  unfold Pol2yaml.dict_update. revert d.
  induction out as [|[k v] out IH]; intros d H; [reflexivity|].
  cbn [fold_left fst snd].
  assert (Hk : keys (dict_set k v d) = keys d).
  { rewrite keys_dict_set.
    rewrite (proj2 (existsb_Path_eqb k (keys d)) (H (k, v) (or_introl eq_refl))).
    reflexivity. }
  rewrite IH; [exact Hk|].
  intros kv Hkv. rewrite Hk. apply H. right. exact Hkv.
Qed.

Lemma update_all (v : Pol2yaml._FilePlan) (out d : Plan) :
  NoDup (keys d) -> (forall kv, In kv out -> snd kv = v) ->
  forall kv, In kv (dict_update d out) ->
             snd kv = v \/ (In kv d /\ ~ In (fst kv) (keys out)).
Proof.
  unfold Pol2yaml.dict_update. revert d.
  induction out as [|[k2 v2] out IH]; intros d Hn Hv kv Hkv.
  - right. split; [exact Hkv|intros []].
  - cbn [fold_left fst snd] in Hkv.
    assert (E : v2 = v) by exact (Hv (k2, v2) (or_introl eq_refl)). subst v2.
    destruct (IH (dict_set k2 v d) (NoDup_keys_dict_set k2 v d Hn)
                (fun kv H => Hv kv (or_intror H)) kv Hkv) as [H|[H Hnot]];
      [left; exact H|].
    destruct (In_dict_set_entry _ _ _ _ H) as [->|Hd]; [left; reflexivity|].
    destruct kv as [k' v']. cbn [fst snd] in *.
    destruct (Path_eqb k' k2) eqn:Ek.
    + apply Path_eqb_eq in Ek. subst k'. left.
      exact (NoDup_keys_unique k2 v' v (dict_set k2 v d)
               (NoDup_keys_dict_set k2 v d Hn) H (In_dict_set_self k2 v d)).
    + right. split; [exact Hd|]. intros [E|Hin]; [|exact (Hnot Hin)].
      cbn in E. subst k'. rewrite (proj2 (Path_eqb_eq k2 k2) eq_refl) in Ek.
      discriminate Ek.
Qed.

Lemma keys_fold_set (v : Pol2yaml._FilePlan) (l : list Path) (o : Plan) (k : Path) :
  In k (keys (fold_left (fun o f => dict_set f v o) l o)) <-> In k l \/ In k (keys o).
Proof.
  revert o. induction l as [|f l IH]; intros o; cbn [fold_left In]; [tauto|].
  rewrite IH, In_keys_dict_set. intuition congruence.
Qed.

(** X27: where [pol2yaml] does not look for conflicts, there are none.
    With [--force], or when YAML files are reformatted, no file of the plan
    is marked [OUTPUT_CONFLICT]. *)
Theorem get_file_plan_without_conflict (directory : Path)
    (input_mode : Pol2yaml._InputMode) (operation : Pol2yaml._Operation)
    (output_mode : Pol2yaml._ConverterOutputMode) (options : Pol2yaml.Options)
    (plan : Plan) :
  output_mode = Pol2yaml.FORCE \/ operation = Pol2yaml.REFORMAT_YAML ->
  _get_file_plan directory input_mode operation output_mode options = Return plan ->
  Forall (fun kv => snd kv <> Pol2yaml.OUTPUT_CONFLICT) plan.
Proof.
  intros Hm H.
  refine (get_file_plan_values (fun v => v <> Pol2yaml.OUTPUT_CONFLICT) directory
            input_mode operation output_mode options plan _ _ H);
    [discriminate|].
  intros v _ Hc. exact (Hc Hm).
Qed.


(** X29: reformatting in place leaves no file marked [INPUT].  Without an
    output directory and with [--yaml], the plan has exactly the input
    files as its keys and marks each of them [REFORMAT]; the list of
    [INPUT] files that [pol2yaml] goes on to visit is then empty. *)
Theorem get_file_plan_reformat_in_place (directory : Path)
    (input_mode : Pol2yaml._InputMode) (output_mode : Pol2yaml._ConverterOutputMode)
    (options : Pol2yaml.Options) :
  truthy_str (Pol2yaml.output_directory options) = false ->
  exists plan,
    _get_file_plan directory input_mode Pol2yaml.REFORMAT_YAML output_mode options
    = Return plan
    /\ keys plan
       = keys (input_files directory input_mode Pol2yaml.REFORMAT_YAML options)
    /\ Forall (fun kv => snd kv = Pol2yaml.REFORMAT) plan.
Proof.
  intros Ht. unfold Pol2yaml._get_file_plan, Pol2yaml.output_files. rewrite Ht.
  cbn [bind].
  set (files := input_files directory input_mode Pol2yaml.REFORMAT_YAML options).
  set (out := fold_left (fun o f => dict_set f Pol2yaml.REFORMAT o) (keys files) []).
  assert (Hk : forall k, In k (keys out) <-> In k (keys files)).
  { intros k. unfold out. rewrite keys_fold_set. cbn. tauto. }
  assert (Hv : forall kv, In kv out -> snd kv = Pol2yaml.REFORMAT).
  { apply Forall_forall. unfold out.
    apply fold_left_invariant; [constructor|].
    intros s f Hs _. apply Forall_forall. intros kv Hkv.
    apply In_dict_set in Hkv. destruct Hkv as [E|Hkv]; [exact E|].
    exact (proj1 (Forall_forall _ _) Hs kv Hkv). }
  eexists. split; [reflexivity|]. split.
  - apply keys_update. intros kv Hkv. apply Hk.
    unfold Pol2yaml.keys. now apply in_map.
  - apply Forall_forall. intros kv Hkv.
    destruct (update_all Pol2yaml.REFORMAT out files
                (NoDup_keys_input_files _ _ _ _) Hv kv Hkv) as [E|[Hf Hnot]];
      [exact E|].
    exfalso. apply Hnot. apply Hk. unfold Pol2yaml.keys. now apply in_map.
Qed.
End FilePlanFacts.

Lemma get_file_plan_without_conflict_witness :
  Forall (fun kv => snd kv <> Pol2yaml.OUTPUT_CONFLICT)
    [("a.pol"%string, Pol2yaml.INPUT); ("a.yaml"%string, Pol2yaml.OUTPUT_FORCE)].
Proof.
  apply (get_file_plan_without_conflict string String.eqb PathSamples.suffix
           PathSamples.exists_ PathSamples.resolve PathSamples.with_suffix
           PathSamples.relative_to PathSamples.parent PathSamples.joinpath
           PathSamples.rglob PathSamples.Path_of "."%string Pol2yaml.RECURSIVE
           Pol2yaml.CONVERT Pol2yaml.FORCE PathSamples.options);
    [left; reflexivity|reflexivity].
Defined.


Lemma get_file_plan_reformat_in_place_witness :
  exists plan,
    Pol2yaml._get_file_plan string String.eqb PathSamples.suffix PathSamples.exists_
      PathSamples.resolve PathSamples.with_suffix PathSamples.relative_to
      PathSamples.parent PathSamples.joinpath PathSamples.rglob PathSamples.Path_of
      "."%string Pol2yaml.RECURSIVE Pol2yaml.REFORMAT_YAML Pol2yaml.NORMAL
      PathSamples.options
    = Return plan
    /\ Pol2yaml.keys string plan
       = Pol2yaml.keys string
           (Pol2yaml.input_files string String.eqb PathSamples.suffix
              PathSamples.exists_ PathSamples.resolve PathSamples.rglob
              PathSamples.Path_of "."%string Pol2yaml.RECURSIVE
              Pol2yaml.REFORMAT_YAML PathSamples.options)
    /\ Forall (fun kv => snd kv = Pol2yaml.REFORMAT) plan.
Proof.
  apply (get_file_plan_reformat_in_place string String.eqb PathSamples.suffix
           PathSamples.exists_ PathSamples.resolve PathSamples.with_suffix
           PathSamples.relative_to PathSamples.parent PathSamples.joinpath
           PathSamples.rglob PathSamples.Path_of String.eqb_eq "."%string
           Pol2yaml.RECURSIVE Pol2yaml.NORMAL PathSamples.options).
  reflexivity.
Defined.
